(** * Stock Manager: a shallow embedding of [main.py]

    [main.py] is a command interpreter ([StockManager], a [cmd.Cmd]) that
    keeps one pandas [DataFrame] in [self.data] and offers four commands:
    [do_add_data], [do_query], [do_generate] and [do_show_top].

    The development has three layers.
    - [Py] and [Float64]: the Python built-ins the commands call
      ([str.strip], [str.split], [str.endswith], [int], [os.path.join],
      [str] of a number), as CPython 3 defines them.
    - [Re] and [Pd]: the parts of the [re] and pandas libraries the commands
      call ([re.compile]/[search] with [IGNORECASE]; [DataFrame], [concat],
      [astype(str)], [str.contains], [groupby(...).agg], [head], [empty]),
      with the defaults of pandas 2. What [re] does with a pattern outside
      the fragment embedded here is a parameter of the commands.
    - [StockManager]: the four commands, written line by line after the
      source, over an explicit manager state, the list of messages printed
      and files touched, and the exception (if any) that leaves the
      command; [Cli]: the entry point [main].

    Text is modelled by [string]: a sequence of code points below 256.
    [float64] values are [spec_float]s at precision 53 and exponent bound
    1024, the IEEE 754 binary64 format. *)

From Stdlib Require Import String Ascii List ZArith Bool Arith Lia.
From Stdlib Require Import DecimalString DecimalPos SpecFloat Sorted Permutation.
Import ListNotations.

Set Implicit Arguments.
Open Scope string_scope.
Open Scope list_scope.

(* ================================================================= *)
(** * Python built-ins *)

Module Py.

(** A [str] as the list of its characters, and back. *)
Definition chars (s : string) : list ascii := list_ascii_of_string s.
Definition str_of (l : list ascii) : string := string_of_list_ascii l.

(** [c.isspace()] for a code point below 256: TAB..CR, FS..US, SPACE,
    NEL (0x85) and NBSP (0xA0). *)
Definition isspace (c : ascii) : bool :=
  let n := nat_of_ascii c in
  (((9 <=? n) && (n <=? 13)) || ((28 <=? n) && (n <=? 32))
   || (n =? 133) || (n =? 160))%nat.

Fixpoint lstrip_chars (l : list ascii) : list ascii :=
  match l with
  | c :: l' => if isspace c then lstrip_chars l' else l
  | [] => []
  end.

(** [s.strip()]: leading and trailing whitespace removed. *)
Definition strip (s : string) : string :=
  str_of (rev (lstrip_chars (rev (lstrip_chars (chars s))))).

(** [s.split(sep)] for a one-character separator: always at least one
    part, one more than the number of separators. *)
Fixpoint split (sep : ascii) (s : string) : list string :=
  match s with
  | EmptyString => [EmptyString]
  | String c s' =>
      if Ascii.eqb c sep then EmptyString :: split sep s'
      else match split sep s' with
           | h :: t => String c h :: t
           | [] => [String c EmptyString]
           end
  end.

(** [s.count(sep)] for a one-character [sep]. *)
Fixpoint count (sep : ascii) (s : string) : nat :=
  match s with
  | EmptyString => 0
  | String c s' => if Ascii.eqb c sep then S (count sep s') else count sep s'
  end.

Fixpoint startswith_chars (p l : list ascii) : bool :=
  match p, l with
  | [], _ => true
  | a :: p', b :: l' => Ascii.eqb a b && startswith_chars p' l'
  | _ :: _, [] => false
  end.

(** [s.endswith(suffix)]. *)
Definition endswith (s suffix : string) : bool :=
  startswith_chars (rev (chars suffix)) (rev (chars s)).

(** [os.path.join(a, b)] on POSIX: [b] alone when it is absolute or [a] is
    empty, one separator between the two otherwise. *)
Definition path_join (a b : string) : string :=
  match b with
  | String "/" _ => b
  | _ =>
      if String.eqb a "" then b
      else if endswith a "/" then a ++ b
      else a ++ "/" ++ b
  end.

(** [str(z)] for an integer. *)
Definition str_int (z : Z) : string := NilZero.string_of_int (Z.to_int z).

Definition digit_val (c : ascii) : option Z :=
  let n := nat_of_ascii c in
  if ((48 <=? n) && (n <=? 57))%nat then Some (Z.of_nat (n - 48)) else None.

(** The digit part of an integer literal: decimal digits, single
    underscores allowed between two digits. [acc] is the value read so far,
    [after_digit] tells whether the previous character was a digit. *)
Fixpoint int_digits (l : list ascii) (acc : Z) (after_digit : bool)
  : option Z :=
  match l with
  | [] => if after_digit then Some acc else None
  | c :: l' =>
      match digit_val c with
      | Some d => int_digits l' (10 * acc + d)%Z true
      | None =>
          if Ascii.eqb c "_" && after_digit
          then match l' with
               | [] => None
               | _ => int_digits l' acc false
               end
          else None
      end
  end.

(** CPython's default bound on the digits of a decimal literal that
    [int] converts ([sys.int_info.default_max_str_digits]). *)
Definition max_str_digits : nat := 4300.

Definition is_digit (c : ascii) : bool :=
  match digit_val c with Some _ => true | None => false end.

(** The whitespace that [int] drops around a number: TAB..CR, SPACE, NEL
    and NBSP. The separators FS..US (0x1C..0x1F), which [str.strip]
    removes, are not among it. *)
Definition int_space (c : ascii) : bool :=
  let n := nat_of_ascii c in
  (((9 <=? n) && (n <=? 13)) || (n =? 32) || (n =? 133) || (n =? 160))%nat.

Fixpoint lstrip_int (l : list ascii) : list ascii :=
  match l with
  | c :: l' => if int_space c then lstrip_int l' else l
  | [] => []
  end.

(** [int(s)] in base 10: the whitespace around the number is dropped, one
    sign is allowed. [None] stands for [ValueError]. *)
Definition int (s : string) : option Z :=
  let l := rev (lstrip_int (rev (lstrip_int (chars s)))) in
  if (max_str_digits <? List.length (filter is_digit l))%nat then None
  else
    match l with
    | "-"%char :: l' => option_map Z.opp (int_digits l' 0%Z false)
    | "+"%char :: l' => int_digits l' 0%Z false
    | _ => int_digits l 0%Z false
    end.

(** [c.lower()] for a code point below 256: the ASCII capitals and the
    Latin-1 capitals 0xC0..0xDE (0xD7, the multiplication sign, apart). *)
Definition lower (c : ascii) : ascii :=
  let n := nat_of_ascii c in
  if (((65 <=? n) && (n <=? 90))
      || ((192 <=? n) && (n <=? 222) && negb (n =? 215)))%nat
  then ascii_of_nat (n + 32) else c.

(** The exceptions that occur in the model; [ValueError] stands for every
    exception an [except ValueError] clause catches. *)
Inductive exn : Type :=
| ValueError
| TypeError
| OverflowError
| OSError
| re_error
| OtherError (name : string).

End Py.

(* ================================================================= *)
(** * float64 *)

Module Float64.

Definition prec : Z := 53.
Definition emax : Z := 1024.

Definition nan : spec_float := S754_nan.
Definition isnan (f : spec_float) : bool :=
  match f with S754_nan => true | _ => false end.

(** [float(z)]: the integer rounded to the nearest float64. *)
Definition of_Z (z : Z) : spec_float := binary_normalize prec emax z 0 false.

Definition add : spec_float -> spec_float -> spec_float := SFadd prec emax.
Definition sub : spec_float -> spec_float -> spec_float := SFsub prec emax.
Definition div : spec_float -> spec_float -> spec_float := SFdiv prec emax.

(** ** [repr] of a float: the shortest decimal that reads back as the same
    float, laid out as Python does. *)

Section Shortest.
(** The float is [X / D]; every real strictly between [LO / D] and
    [HI / D] rounds to it, the two bounds do when [closed]. *)
Variables (LO X HI D : Z) (closed : bool).

Definition inside (t B : Z) (k : Z) : bool :=
  let s := (if k <? 0 then 10 ^ (- k) else 1)%Z in
  if closed then ((LO * s <=? t) && (t <=? HI * s))%Z
  else ((LO * s <? t) && (t <? HI * s))%Z.

(** The decimals [c * 10^k] with [n] digits next to the float: the one
    below and the one above, and the choice between them. *)
Definition candidate (p n : Z) : option (Z * Z) :=
  let k := (p - n + 1)%Z in
  let A := (if k <? 0 then X * 10 ^ (- k) else X)%Z in
  let B := (if k <? 0 then D else D * 10 ^ k)%Z in
  let d := (A / B)%Z in
  let lo_ok := inside (d * B) B k in
  let hi_ok := inside ((d + 1) * B) B k in
  let dl := (A - d * B)%Z in
  let dh := ((d + 1) * B - A)%Z in
  if lo_ok && hi_ok then
    if (dl <? dh)%Z then Some (d, k)
    else if (dh <? dl)%Z then Some ((d + 1)%Z, k)
    else if Z.even d then Some (d, k) else Some ((d + 1)%Z, k)
  else if lo_ok then Some (d, k)
  else if hi_ok then Some ((d + 1)%Z, k)
  else None.

Fixpoint shortest (fuel : nat) (p n : Z) : Z * Z :=
  match candidate p n with
  | Some r => r
  | None =>
      match fuel with
      | O => let k := (p - n + 1)%Z in
             ((if k <? 0 then X * 10 ^ (- k) / D else X / (D * 10 ^ k))%Z, k)
      | S fuel' => shortest fuel' p (n + 1)%Z
      end
  end.

(** The least [j >= 1] with [10^(-j) <= X / D], for a float below 1. *)
Fixpoint neg_exponent (fuel : nat) (j : Z) : Z :=
  match fuel with
  | O => j
  | S fuel' => if (D <=? X * 10 ^ j)%Z then j else neg_exponent fuel' (j + 1)%Z
  end.

(** [p] with [10^p <= X / D < 10^(p+1)]. *)
Definition exponent10 : Z :=
  if (D <=? X)%Z then Z.of_nat (String.length (Py.str_int (X / D))) - 1
  else - neg_exponent 400 1.
End Shortest.

Fixpoint strip_zeros (l : list ascii) : list ascii :=
  match l with
  | "0"%char :: l' => strip_zeros l'
  | _ => l
  end.

Fixpoint zeros (n : nat) : string :=
  match n with O => "" | S n' => String "0" (zeros n') end.

(** The digits [d1 d2 ...] and the position [decpt] of the decimal point
    of a positive finite float: its value is [0.d1d2... * 10^decpt]. *)
Definition digits (m : positive) (e : Z) : string * Z :=
  let closed := Z.even (Zpos m) in
  let low := (if (Zpos m =? 2 ^ 52) && (-1074 <? e) then 1 else 2)%Z in
  let sh := (e - 2)%Z in
  let up := (if 0 <=? sh then 2 ^ sh else 1)%Z in
  let D := (if 0 <=? sh then 1 else 2 ^ (- sh))%Z in
  let X := (4 * Zpos m * up)%Z in
  let LO := ((4 * Zpos m - low) * up)%Z in
  let HI := ((4 * Zpos m + 2) * up)%Z in
  let p := exponent10 X D in
  let (c, k) := shortest LO X HI D closed 17 p 1 in
  let ds := Py.str_int c in
  (Py.str_of (rev (strip_zeros (rev (Py.chars ds)))),
   (k + Z.of_nat (String.length ds))%Z).

(** Python's layout of the digits: exponent notation when
    [decpt <= -4] or [decpt > 16], positional notation otherwise. *)
Definition layout (ds : string) (decpt : Z) : string :=
  let n := Z.of_nat (String.length ds) in
  if ((decpt <=? -4) || (16 <? decpt))%Z then
    let ex := (decpt - 1)%Z in
    let mant :=
      match ds with
      | String d EmptyString => ds
      | String d rest => String d ("." ++ rest)
      | EmptyString => ds
      end in
    let ax := Py.str_int (Z.abs ex) in
    mant ++ "e" ++ (if (ex <? 0)%Z then "-" else "+")
         ++ (if (Z.abs ex <? 10)%Z then "0" ++ ax else ax)
  else if (decpt <=? 0)%Z then "0." ++ zeros (Z.to_nat (- decpt)) ++ ds
  else if (n <=? decpt)%Z then ds ++ zeros (Z.to_nat (decpt - n)) ++ ".0"
  else substring 0 (Z.to_nat decpt) ds ++ "."
       ++ substring (Z.to_nat decpt) (Z.to_nat (n - decpt)) ds.

(** [str(f)] / [repr(f)]. *)
Definition repr (f : spec_float) : string :=
  match f with
  | S754_nan => "nan"
  | S754_infinity s => if s then "-inf" else "inf"
  | S754_zero s => if s then "-0.0" else "0.0"
  | S754_finite s m e =>
      let (ds, decpt) := digits m e in
      (if s then "-" else "") ++ layout ds decpt
  end.

End Float64.

(* ================================================================= *)
(** * Regular expressions: [re.compile(pat, re.IGNORECASE)] and [search] *)

Module Re.

(** The patterns covered: literals, [.], [^], [$], an escaped
    non-alphanumeric character, groups [( )], alternation [|] and the
    repetitions [*], [+], [?] with their lazy forms. Character sets [[ ]],
    counted repetition [{ }], escapes of letters and digits, extension
    groups [(?...)] and possessive repetition are [Unsupported]: what the
    library does with such a pattern is not derived here, it is a
    parameter ([engine]) of the commands. One case of counted repetition
    is covered: a first count with more digits than [int] converts, on
    which [re.compile] raises [ValueError]. *)
Inductive regex : Type :=
| Eps
| Chr (c : ascii)
| Any
| Bol
| Eol
| Seq (a b : regex)
| Alt (a b : regex)
| Star (a : regex).

Inductive compiled : Type :=
| Pattern (r : regex)
| Error          (* re.error *)
| Overlong       (* ValueError: a repetition count that int does not convert *)
| Unsupported.

(** What the library does with a pattern that is [Unsupported] here:
    [re.compile] raises, or the compiled pattern tells of every text
    whether [search] finds a match in it. *)
Inductive behaviour : Type :=
| Finds (found : string -> bool)
| Raises (e : Py.exn).

Definition engine : Type := string -> behaviour.

(** What a repetition sign may follow. *)
Inductive kind : Type := Atom | At | Repeated | Lazy.

Definition items := list (regex * kind).

(** The parser's state: the enclosing groups, the finished branches of the
    current group (last first) and the items of its current branch (last
    first). *)
Record state : Type := State {
  stack : list (list regex * items);
  branches : list regex;
  current : items
}.

Definition seq_of (cur : items) : regex :=
  fold_right (fun it acc => Seq (fst it) acc) Eps (rev cur).

Definition close (alts : list regex) (cur : items) : regex :=
  fold_left (fun acc a => Alt a acc) alts (seq_of cur).

Definition push (r : regex) (k : kind) (st : state) : state :=
  State (stack st) (branches st) ((r, k) :: current st).

Definition is_alnum (c : ascii) : bool :=
  let n := nat_of_ascii c in
  (((48 <=? n) && (n <=? 57)) || ((65 <=? n) && (n <=? 90))
   || ((97 <=? n) && (n <=? 122)))%nat.

Definition repeat_of (c : ascii) (r : regex) : regex :=
  if Ascii.eqb c "*" then Star r
  else if Ascii.eqb c "+" then Seq r (Star r)
  else Alt r Eps.

(** A repetition sign [c] after the items [cur]. *)
Definition quantify (c : ascii) (st : state) : state + compiled :=
  match current st with
  | [] => inr Error                          (* nothing to repeat *)
  | (r, Atom) :: cur =>
      inl (State (stack st) (branches st) ((repeat_of c r, Repeated) :: cur))
  | (r, At) :: _ => inr Error                (* nothing to repeat *)
  | (r, Repeated) :: cur =>
      if Ascii.eqb c "?" then
        inl (State (stack st) (branches st) ((r, Lazy) :: cur))
      else if Ascii.eqb c "+" then inr Unsupported
      else inr Error                         (* multiple repeat *)
  | (r, Lazy) :: _ => inr Error              (* multiple repeat *)
  end.

Definition finish (st : state) : compiled :=
  match stack st with
  | [] => Pattern (close (branches st) (current st))
  | _ :: _ => Error                          (* missing ) *)
  end.

(** The decimal digits at the front of [l]: their number, and what
    follows them. *)
Fixpoint leading_digits (l : list ascii) : nat * list ascii :=
  match l with
  | c :: l' =>
      if Py.is_digit c
      then let (n, rest) := leading_digits l' in (S n, rest)
      else (O, l)
  | [] => (O, [])
  end.

(** What follows a [{]: the counts [lo}] or [lo,hi}] of a repetition,
    which the parser reads with [int] ([lo] first); without the closing
    brace the [{] is a literal. [true] when [lo] has more digits than [int]
    converts. *)
Definition overlong_count (l : list ascii) : bool :=
  let (n, rest) := leading_digits l in
  let closed :=
    match rest with
    | c :: rest' =>
        if Ascii.eqb c "}" then true
        else if Ascii.eqb c "," then
          match snd (leading_digits rest') with
          | c' :: _ => Ascii.eqb c' "}"
          | [] => false
          end
        else false
    | [] => false
    end in
  closed && (Py.max_str_digits <? n)%nat.

Fixpoint parse (l : list ascii) (st : state) : compiled :=
  match l with
  | [] => finish st
  | c :: l' =>
      if Ascii.eqb c "\" then
        match l' with
        | [] => Error                        (* bad escape *)
        | c2 :: l'' =>
            if is_alnum c2 then Unsupported
            else parse l'' (push (Chr c2) Atom st)
        end
      else if Ascii.eqb c "(" then
        match l' with
        | c2 :: _ =>
            if Ascii.eqb c2 "?" then Unsupported
            else parse l' (State ((branches st, current st) :: stack st) [] [])
        | [] => Error                        (* missing ) *)
        end
      else if Ascii.eqb c ")" then
        match stack st with
        | [] => Error                        (* unbalanced parenthesis *)
        | (alts, cur) :: rest =>
            parse l' (State rest alts
                        ((close (branches st) (current st), Atom) :: cur))
        end
      else if Ascii.eqb c "|" then
        parse l' (State (stack st) (seq_of (current st) :: branches st) [])
      else if Ascii.eqb c "*" || Ascii.eqb c "+" || Ascii.eqb c "?" then
        match quantify c st with
        | inl st' => parse l' st'
        | inr out => out
        end
      else if Ascii.eqb c "{" then
        if overlong_count l' then Overlong else Unsupported
      else if Ascii.eqb c "[" then Unsupported
      else if Ascii.eqb c "." then parse l' (push Any Atom st)
      else if Ascii.eqb c "^" then parse l' (push Bol At st)
      else if Ascii.eqb c "$" then parse l' (push Eol At st)
      else parse l' (push (Chr c) Atom st)
  end.

(** [re.compile(pat, flags=re.IGNORECASE)]. *)
Definition compile (pat : string) : compiled :=
  parse (Py.chars pat) (State [] [] []).

Definition newline : ascii := ascii_of_nat 10.

(** [$] holds at the end of the text and before a final newline. *)
Definition at_end (s : list ascii) : bool :=
  match s with
  | [] => true
  | [c] => Ascii.eqb c newline
  | _ => false
  end.

(** [matches fuel r bos s k]: some way of matching [r] at the front of [s]
    leaves a rest that [k] accepts. [bos] tells whether [s] is the whole
    text. A literal is compared up to case; an iteration of a starred
    expression has to consume a character, so [fuel] above the length of
    [s] is never used up. *)
Fixpoint matches (fuel : nat)
  : regex -> bool -> list ascii -> (bool -> list ascii -> bool) -> bool :=
  fix go (r : regex) (bos : bool) (s : list ascii)
         (k : bool -> list ascii -> bool) {struct r} : bool :=
    match r with
    | Eps => k bos s
    | Chr c =>
        match s with
        | x :: s' => Ascii.eqb (Py.lower x) (Py.lower c) && k false s'
        | [] => false
        end
    | Any =>
        match s with
        | x :: s' => negb (Ascii.eqb x newline) && k false s'
        | [] => false
        end
    | Bol => bos && k bos s
    | Eol => at_end s && k bos s
    | Seq a b => go a bos s (fun bos' s' => go b bos' s' k)
    | Alt a b => go a bos s k || go b bos s k
    | Star a =>
        k bos s ||
        match fuel with
        | O => false
        | S fuel' =>
            go a bos s (fun bos' s' =>
              (List.length s' <? List.length s)%nat
              && matches fuel' (Star a) bos' s' k)
        end
    end.

Fixpoint search_from (r : regex) (bos : bool) (s : list ascii) : bool :=
  matches (S (List.length s)) r bos s (fun _ _ => true)
  || match s with
     | [] => false
     | _ :: s' => search_from r false s'
     end.

(** [r.search(text) is not None]. *)
Definition search (r : regex) (text : string) : bool :=
  search_from r true (Py.chars text).

(** The special characters of the pattern language. *)
Definition special (c : ascii) : bool :=
  existsb (Ascii.eqb c) (Py.chars "\.^$*+?{}[]|()").

End Re.

(* ================================================================= *)
(** * pandas *)

Module Pd.

(** A value of a table: text, an integer or a float; the missing value is
    the float NaN. *)
Inductive cell : Type :=
| Str (s : string)
| Int (z : Z)
| Float (f : spec_float).

Definition NaN : cell := Float S754_nan.

(** [pd.isna(c)]. *)
Definition isna (c : cell) : bool :=
  match c with Float f => Float64.isnan f | _ => false end.

Definition row := list cell.

(** A [DataFrame] with a default [RangeIndex]: the column labels and the
    rows, each row holding one cell per column. *)
Record DataFrame : Type := mkDataFrame {
  columns : list string;
  rows : list row
}.

(** [pd.DataFrame()]. *)
Definition empty_frame : DataFrame := mkDataFrame [] [].

(** [df.empty]: one of the two axes has length 0. *)
Definition empty (df : DataFrame) : bool :=
  match columns df, rows df with
  | [], _ => true
  | _, [] => true
  | _, _ => false
  end.

(** [name in df.columns]. *)
Definition has_column (df : DataFrame) (name : string) : bool :=
  existsb (String.eqb name) (columns df).

(** The cell of [r] under the label [name], NaN when the label is not one
    of [cols]. *)
Fixpoint cell_at (cols : list string) (r : row) (name : string) : cell :=
  match cols, r with
  | c :: cols', x :: r' => if String.eqb name c then x else cell_at cols' r' name
  | _, _ => NaN
  end.

(** ** [head] *)

(** [df.head(n)]: the first [n] rows; for a negative [n], all rows but the
    last [|n|]. *)
Definition head (df : DataFrame) (n : Z) : DataFrame :=
  let len := Z.of_nat (List.length (rows df)) in
  let stop := (if n <? 0 then Z.max (len + n) 0 else n)%Z in
  mkDataFrame (columns df) (firstn (Z.to_nat stop) (rows df)).

(** [df[mask]]: the rows whose mask entry is [True]. *)
Fixpoint select (rs : list row) (mask : list bool) : list row :=
  match rs, mask with
  | r :: rs', b :: mask' => if b then r :: select rs' mask' else select rs' mask'
  | _, _ => []
  end.

Definition getitem_mask (df : DataFrame) (mask : list bool) : DataFrame :=
  mkDataFrame (columns df) (select (rows df) mask).

(** ** Columns and their dtype *)

Inductive dtype : Type := int64 | uint64 | float64 | object.

Definition is_int (c : cell) : bool :=
  match c with Int _ => true | _ => false end.
Definition is_number (c : cell) : bool :=
  match c with Str _ => false | _ => true end.

Definition in_int64 (z : Z) : bool := ((- 2 ^ 63 <=? z) && (z <? 2 ^ 63))%Z.
Definition in_uint64 (z : Z) : bool := ((0 <=? z) && (z <? 2 ^ 64))%Z.

(** Every integer among the cells lies in [range]. *)
Definition ints_in (range : Z -> bool) (l : list cell) : bool :=
  forallb (fun c => match c with Int z => range z | _ => true end) l.

(** The dtype pandas gives a column holding these cells: [int64] for
    integers only, [uint64] when they do not fit [int64] and fit [uint64],
    [float64] for numbers with a float or a missing value among them,
    [object] once there is text or integers that fit neither integer
    type. *)
Definition dtype_of (l : list cell) : dtype :=
  if negb (forallb is_number l) then object
  else if ints_in in_int64 l then
    if forallb is_int l then int64 else float64
  else if ints_in in_uint64 l then
    if forallb is_int l then uint64 else float64
  else object.

(** A cell as stored in a column of dtype [d]: an integer of a [float64]
    column is stored as the nearest float. *)
Definition stored (d : dtype) (c : cell) : cell :=
  match d, c with
  | float64, Int z => Float (Float64.of_Z z)
  | _, _ => c
  end.

Record Series : Type := mkSeries {
  sdtype : dtype;
  values : list cell
}.

(** [df[name]]. *)
Definition getitem (df : DataFrame) (name : string) : Series :=
  let raw := map (fun r => cell_at (columns df) r name) (rows df) in
  let d := dtype_of raw in
  mkSeries d (map (stored d) raw).

(** ** [concat] *)

Definition add_label (acc : list string) (c : string) : list string :=
  if existsb (String.eqb c) acc then acc else acc ++ [c].

(** The union of the frames' labels, in order of first appearance. *)
Definition union_columns (frames : list DataFrame) : list string :=
  fold_left (fun acc f => fold_left add_label (columns f) acc) frames [].

Definition has_rows (df : DataFrame) : bool :=
  match rows df with [] => false | _ :: _ => true end.

Definition dtype_eqb (a b : dtype) : bool :=
  match a, b with
  | int64, int64 | uint64, uint64 | float64, float64 | object, object => true
  | _, _ => false
  end.

(** The dtype of a concatenated column, from the dtypes of its pieces:
    [object] once a piece is [object]; an integer dtype when every piece
    has it; [float64] otherwise (the two integer dtypes together, or a
    piece of floats or of NaN). *)
Definition common_dtype (pieces : list dtype) : dtype :=
  if existsb (dtype_eqb object) pieces then object
  else if forallb (dtype_eqb int64) pieces then int64
  else if forallb (dtype_eqb uint64) pieces then uint64
  else float64.

(** The row [r] of the frame [f] laid out on the labels [onto] of the
    concatenation: under every label the cell as the column of [f] stores
    it (NaN, in a column of NaN, where [f] has no such label), cast to the
    dtype [target] of the concatenated column. *)
Definition place (target : string -> dtype) (onto : list string)
  (f : DataFrame) (r : row) : row :=
  map (fun name =>
         stored (target name)
                (stored (sdtype (getitem f name)) (cell_at (columns f) r name)))
      onto.

(** [pd.concat(frames, ignore_index=True)] for a non-empty list of frames
    ([join='outer'], [sort=False]). The dtype of a column comes from its
    pieces in the frames that have rows. *)
Definition concat (frames : list DataFrame) : DataFrame :=
  let onto := union_columns frames in
  let target name :=
    common_dtype (map (fun f => sdtype (getitem f name))
                      (filter has_rows frames)) in
  mkDataFrame onto
    (flat_map (fun f => map (place target onto f) (rows f)) frames).

(** ** [astype(str)] and [str.contains] *)

(** [str(c)]; the missing value reads [nan]. *)
Definition str (c : cell) : string :=
  match c with
  | Str s => s
  | Int z => Py.str_int z
  | Float f => Float64.repr f
  end.

(** [s.astype(str)]. *)
Definition astype_str (s : Series) : list string := map str (values s).

(** [texts.str.contains(pat, case=False, na=False)], [regex=True] being
    the default: [pat] is compiled once as a regular expression and
    searched for in every text. *)
Definition str_contains (re : Re.engine) (texts : list string) (pat : string)
  : list bool + Py.exn :=
  match Re.compile pat with
  | Re.Pattern r => inl (map (Re.search r) texts)
  | Re.Error => inr Py.re_error
  | Re.Overlong => inr Py.ValueError
  | Re.Unsupported =>
      match re pat with
      | Re.Finds found => inl (map found texts)
      | Re.Raises e => inr e
      end
  end.

(** ** Numbers and group keys *)

(** The exact value of a number: [n / 2^k], or an infinity. *)
Inductive num : Type :=
| NegInf
| Fin (n : Z) (k : Z)
| PosInf.

Definition num_of (c : cell) : option num :=
  match c with
  | Int z => Some (Fin z 0)
  | Float (S754_zero _) => Some (Fin 0 0)
  | Float (S754_infinity s) => Some (if s then NegInf else PosInf)
  | Float (S754_finite s m e) =>
      let n := if s then Zneg m else Zpos m in
      Some (if (0 <=? e)%Z then Fin (n * 2 ^ e) 0 else Fin n (- e))
  | Float S754_nan => None
  | Str _ => None
  end.

Definition num_compare (a b : num) : comparison :=
  match a, b with
  | NegInf, NegInf => Eq
  | NegInf, _ => Lt
  | _, NegInf => Gt
  | PosInf, PosInf => Eq
  | PosInf, _ => Gt
  | _, PosInf => Lt
  | Fin x j, Fin y k => (x * 2 ^ k ?= y * 2 ^ j)%Z
  end.

(** Equality of two group keys: equal text, or equal numbers ([1 == 1.0],
    [0.0 == -0.0]). *)
Definition key_eqb (a b : cell) : bool :=
  match a, b with
  | Str s, Str t => String.eqb s t
  | _, _ =>
      match num_of a, num_of b with
      | Some x, Some y =>
          match num_compare x y with Eq => true | _ => false end
      | _, _ => false
      end
  end.

(** The order in which sorted group keys come: numbers by value, then text
    by code points. *)
Definition key_leb (a b : cell) : bool :=
  match a, b with
  | Str s, Str t => String.leb s t
  | Str _, _ => false
  | _, Str _ => true
  | _, _ =>
      match num_of a, num_of b with
      | Some x, Some y =>
          match num_compare x y with Gt => false | _ => true end
      | _, _ => true
      end
  end.

(** The distinct keys in order of first appearance, missing values
    dropped ([dropna=True]). *)
Definition add_key (acc : list cell) (c : cell) : list cell :=
  if isna c || existsb (key_eqb c) acc then acc else acc ++ [c].

Definition uniques (l : list cell) : list cell := fold_left add_key l [].

Fixpoint insert_key (k : cell) (l : list cell) : list cell :=
  match l with
  | [] => [k]
  | x :: l' => if key_leb k x then k :: l else x :: insert_key k l'
  end.

Definition sort_keys (l : list cell) : list cell := fold_right insert_key [] l.

(** The keys of [groupby(...)], [sort=True] being the default. *)
Definition group_keys (keys : Series) : list cell :=
  sort_keys (uniques (values keys)).

(** The cells of [vals] on the rows whose key is [k]. *)
Definition members (k : cell) (keys vals : list cell) : list cell :=
  map snd (filter (fun kv => key_eqb (fst kv) k) (combine keys vals)).

(** ** The aggregations [sum] and [mean] *)

Definition wrap64 (z : Z) : Z := ((z + 2 ^ 63) mod 2 ^ 64 - 2 ^ 63)%Z.
Definition wrapu64 (z : Z) : Z := (z mod 2 ^ 64)%Z.

Definition to_Z (c : cell) : Z := match c with Int z => z | _ => 0%Z end.

Definition to_float (c : cell) : spec_float :=
  match c with
  | Float f => f
  | Int z => Float64.of_Z z
  | Str _ => Float64.nan
  end.

Definition fzero : spec_float := S754_zero false.

(** One step of the compensated summation of the group kernels. *)
Definition kahan_step (st : spec_float * spec_float) (v : spec_float)
  : spec_float * spec_float :=
  let (sumx, comp) := st in
  let y := Float64.sub v comp in
  let t := Float64.add sumx y in
  let c := Float64.sub (Float64.sub t sumx) y in
  (t, if Float64.isnan c then fzero else c).

Definition kahan_sum (l : list spec_float) : spec_float :=
  fst (fold_left kahan_step l (fzero, fzero)).

Definition notna_floats (vals : list cell) : list spec_float :=
  filter (fun f => negb (Float64.isnan f)) (map to_float vals).

(** Python's [a + b] on cells. *)
Definition py_add (a b : cell) : cell + Py.exn :=
  let mixed (z : Z) (f : spec_float) (swap : bool) :=
    match Float64.of_Z z with
    | S754_infinity _ => inr Py.OverflowError
    | g => inl (Float (if swap then Float64.add f g else Float64.add g f))
    end in
  match a, b with
  | Int x, Int y => inl (Int (x + y))
  | Float f, Float g => inl (Float (Float64.add f g))
  | Int z, Float f => mixed z f false
  | Float f, Int z => mixed z f true
  | Str s, Str t => inl (Str (s ++ t))
  | _, _ => inr Py.TypeError
  end.

Definition py_sum (first : cell) (rest : list cell) : cell + Py.exn :=
  fold_left (fun acc v => match acc with
                          | inl a => py_add a v
                          | inr e => inr e
                          end) rest (inl first).

(** The sum of one group of a column of dtype [d]: missing values are
    skipped; integers wrap; an [object] column adds as Python does. *)
Definition agg_sum (d : dtype) (vals : list cell) : cell + Py.exn :=
  match d with
  | int64 => inl (Int (wrap64 (fold_left Z.add (map to_Z vals) 0%Z)))
  | uint64 => inl (Int (wrapu64 (fold_left Z.add (map to_Z vals) 0%Z)))
  | float64 => inl (Float (kahan_sum (notna_floats vals)))
  | object =>
      match filter (fun c => negb (isna c)) vals with
      | [] => inl (Int 0)
      | v :: rest => py_sum v rest
      end
  end.

(** The mean of one group: the sum of the values that are not missing over
    their number, NaN when there is none; text has no mean. *)
Definition agg_mean (d : dtype) (vals : list cell) : cell + Py.exn :=
  match d with
  | object =>
      match map (fun c => if isna c then Int 0 else c) vals with
      | [] => inl NaN
      | v :: rest =>
          match py_sum v rest with
          | inl (Str _) => inr Py.TypeError
          | inl total =>
              let n := List.length (filter (fun c => negb (isna c)) vals) in
              match n with
              | O => inl NaN
              | _ => inl (Float (Float64.div (to_float total)
                                             (Float64.of_Z (Z.of_nat n))))
              end
          | inr e => inr e
          end
      end
  | _ =>
      match notna_floats vals with
      | [] => inl NaN
      | fs => inl (Float (Float64.div (kahan_sum fs)
                                      (Float64.of_Z (Z.of_nat (List.length fs)))))
      end
  end.

(** One aggregated column: [f] on the members of every key, the first
    exception ending the computation. *)
Fixpoint agg_column (f : list cell -> cell + Py.exn) (ks keys vals : list cell)
  : list cell + Py.exn :=
  match ks with
  | [] => inl []
  | k :: ks' =>
      match f (members k keys vals) with
      | inr e => inr e
      | inl c =>
          match agg_column f ks' keys vals with
          | inr e => inr e
          | inl cs => inl (c :: cs)
          end
      end
  end.

Fixpoint zip3 (a b c : list cell) : list row :=
  match a, b, c with
  | x :: a', y :: b', z :: c' => [x; y; z] :: zip3 a' b' c'
  | _, _, _ => []
  end.

(** The rows of [s] whose key is not missing; the dtype stays. *)
Definition dropna_by (keys : list cell) (s : Series) : Series :=
  mkSeries (sdtype s)
    (map snd (filter (fun kv => negb (isna (fst kv))) (combine keys (values s)))).

(** The grouped aggregation on the three columns involved: the keys, the
    column summed and the column averaged. The result has the keys (its
    index, labelled [key_col]) as first column. *)
Definition agg_series (key_col sum_col mean_col : string) (keys q p : Series)
  : DataFrame + Py.exn :=
  let ks := group_keys keys in
  match agg_column (agg_sum (sdtype q)) ks (values keys) (values q) with
  | inr e => inr e
  | inl sums =>
      match agg_column (agg_mean (sdtype p)) ks (values keys) (values p) with
      | inr e => inr e
      | inl means => inl (mkDataFrame [key_col; sum_col; mean_col]
                            (zip3 ks sums means))
      end
  end.

(** [df.groupby(key_col).agg({sum_col: 'sum', mean_col: 'mean'})]. *)
Definition groupby_agg (df : DataFrame) (key_col sum_col mean_col : string)
  : DataFrame + Py.exn :=
  agg_series key_col sum_col mean_col
    (getitem df key_col) (getitem df sum_col) (getitem df mean_col).

(** [df.rename(columns=mapping)]. *)
Definition rename (mapping : list (string * string)) (df : DataFrame) : DataFrame :=
  let new c :=
    match find (fun m => String.eqb (fst m) c) mapping with
    | Some m => snd m
    | None => c
    end in
  mkDataFrame (map new (columns df)) (rows df).

End Pd.

(* ================================================================= *)
(** * The commands of [StockManager] *)

Module StockManager.
Import Pd.

(** What [pd.read_csv(path)] does on a path: a frame, one of the two
    exceptions [do_add_data] catches (with its text), or another
    exception. *)
Inductive read_result : Type :=
| Parsed (df : DataFrame)
| EmptyDataError (e : string)
| ParserError (e : string)
| ReadRaises (e : Py.exn).

(** What [df.to_csv(path)] does: the file is written in full, or the call
    raises. The call opens the target itself (no temporary file), so a
    write that fails may have created or truncated the target before:
    [touched] tells whether it did. *)
Inductive write_result : Type :=
| Written
| WriteFails (e : Py.exn) (touched : bool).

(** The file system as the commands see it. *)
Record FileSystem : Type := mkFileSystem {
  isdir : string -> bool;
  listdir : string -> list string;
  read_csv : string -> read_result;
  to_csv : string -> DataFrame -> write_result
}.

(** What a command does that can be observed: the three kinds of console
    message ([info_table df] is [info_output(df.to_string())]), the
    report file written, and the file a failed write leaves behind, empty
    or with a part of the report. *)
Inductive event : Type :=
| error_output (message : string)
| success_output (message : string)
| info_output (message : string)
| info_table (df : DataFrame)
| file_written (path : string) (df : DataFrame)
| file_partial (path : string).

(** How a command ends: it returns, or an exception leaves it. *)
Inductive ending : Type :=
| Returned
| Raised (e : Py.exn).

(** The manager: [self.data]. *)
Record manager : Type := mkManager { data : DataFrame }.

(** [StockManager()]. *)
Definition init : manager := mkManager empty_frame.

(** The outcome of a command: the manager afterwards, what was observed,
    and how the command ended. *)
Record outcome : Type := mkOutcome {
  self' : manager;
  trace : list event;
  ended : ending
}.

(** ** [do_add_data] *)

(** The loop over [files]: the frames read, the messages, and the
    exception that stopped the loop, if any. *)
Fixpoint load_files (fs : FileSystem) (directory : string) (files : list string)
  : list DataFrame * list event * option Py.exn :=
  match files with
  | [] => ([], [], None)
  | file :: rest =>
      let file_path := Py.path_join directory file in
      match read_csv fs file_path with
      | Parsed df =>
          let '(frames, msgs, e) := load_files fs directory rest in
          (df :: frames,
           success_output ("Successfully loaded: " ++ file) :: msgs, e)
      | EmptyDataError e | ParserError e =>
          let '(frames, msgs, e') := load_files fs directory rest in
          (frames,
           error_output ("Error loading " ++ file ++ ": " ++ e) :: msgs, e')
      | ReadRaises e => ([], [], Some e)
      end
  end.

Definition csv_files (fs : FileSystem) (directory : string) : list string :=
  filter (fun f => Py.endswith f ".csv") (listdir fs directory).

Definition do_add_data (fs : FileSystem) (self : manager) (directory : string)
  : outcome :=
  let directory := Py.strip directory in
  if negb (isdir fs directory) then
    mkOutcome self [error_output "Directory not found."] Returned
  else
    let files := csv_files fs directory in
    match files with
    | [] => mkOutcome self [error_output "No CSV files found."] Returned
    | _ =>
        match load_files fs directory files with
        | (_, msgs, Some e) => mkOutcome self msgs (Raised e)
        | ([], msgs, None) =>
            mkOutcome self (msgs ++ [error_output "No valid data loaded."])
                      Returned
        | (frames, msgs, None) =>
            mkOutcome (mkManager (concat frames))
                      (msgs ++ [success_output "All files have been merged."])
                      Returned
        end
    end.

(** ** [do_query] *)

Definition no_data : event :=
  error_output "No data available. Please add data first.".

(** [column, value = condition.split('=')] and the two [strip]s; [None]
    is the [ValueError] of the unpacking. *)
Definition parse_condition (condition : string) : option (string * string) :=
  match Py.split "=" condition with
  | [column; value] => Some (Py.strip column, Py.strip value)
  | _ => None
  end.

(** The body of the [try]: its outcome, or [None] when a [ValueError] is
    raised in it (by the unpacking, or by the library for the pattern). *)
Definition query_body (re : Re.engine) (self : manager) (condition : string)
  : option outcome :=
  match parse_condition condition with
  | Some (column, value) =>
      if negb (has_column (data self) column) then
        Some (mkOutcome self
                [error_output ("Column '" ++ column ++ "' not found.")] Returned)
      else
        match str_contains re (astype_str (getitem (data self) column)) value with
        | inl mask =>
            let result := getitem_mask (data self) mask in
            if empty result then
              Some (mkOutcome self [info_output "No matching results."] Returned)
            else Some (mkOutcome self [info_table result] Returned)
        | inr Py.ValueError => None
        | inr e => Some (mkOutcome self [] (Raised e))
        end
  | None => None
  end.

Definition do_query (re : Re.engine) (self : manager) (condition : string)
  : outcome :=
  if empty (data self) then mkOutcome self [no_data] Returned
  else
    match query_body re self condition with
    | Some done => done
    | None =>
        mkOutcome self
          [error_output "Incorrect format. Use 'query <column=value>'."]
          Returned
    end.

(** ** [do_generate] *)

Definition necessary_columns : list string :=
  ["category"; "quantity"; "unit_price"].

Definition do_generate (fs : FileSystem) (self : manager) (output_file : string)
  : outcome :=
  if empty (data self) then mkOutcome self [no_data] Returned
  else if negb (forallb (has_column (data self)) necessary_columns) then
    mkOutcome self
      [error_output "Missing required columns for generating a report."]
      Returned
  else
    match groupby_agg (data self) "category" "quantity" "unit_price" with
    | inr e => mkOutcome self [] (Raised e)
    | inl grouped =>
        let summary :=
          rename [("quantity", "Total Quantity");
                  ("unit_price", "Average Price")] grouped in
        let output_file :=
          if String.eqb (Py.strip output_file) "" then "summary_report.csv"
          else Py.strip output_file in
        match to_csv fs output_file summary with
        | WriteFails e touched =>
            mkOutcome self
              (info_table summary
               :: if touched then [file_partial output_file] else [])
              (Raised e)
        | Written =>
            mkOutcome self
              [info_table summary;
               file_written output_file summary;
               success_output ("Report saved to " ++ output_file ++ ".")]
              Returned
        end
    end.

(** ** [do_show_top] *)

Definition do_show_top (self : manager) (count : string) : outcome :=
  if empty (data self) then mkOutcome self [no_data] Returned
  else
    match (if String.eqb count "" then Some 5%Z else Py.int count) with
    | Some count => mkOutcome self [info_table (head (data self) count)] Returned
    | None =>
        mkOutcome self
          [error_output "Please specify a valid number of records."] Returned
    end.

End StockManager.

(* ================================================================= *)
(** * The entry point [main] *)

Module Cli.
Import Pd StockManager.

(** The result of [parser.parse_args()]: the four options, [None] when
    an option is not given; [--show_top] is read with [type=int]. *)
Record Namespace : Type := mkNamespace {
  add_data : option string;
  query : option string;
  generate : option string;
  show_top : option Z
}.

(** The truth value Python gives an option that holds text. *)
Definition given (a : option string) : bool :=
  match a with
  | Some s => negb (String.eqb s "")
  | None => false
  end.

(** [any(vars(args).values())]. *)
Definition any_given (args : Namespace) : bool :=
  given (add_data args) || given (query args) || given (generate args)
  || match show_top args with
     | Some n => negb (n =? 0)%Z
     | None => false
     end.

(** The next call of [main]: it is made when the calls before it
    returned, on the manager they left; its messages follow theirs. *)
Definition and_then (before : outcome) (call : manager -> outcome) : outcome :=
  match ended before with
  | Returned =>
      let after := call (self' before) in
      mkOutcome (self' after) (trace before ++ trace after) (ended after)
  | Raised _ => before
  end.

(** What [main] does before the interactive loop: the manager, the
    messages and the ending of its calls, and whether it goes on to
    [manager.cmdloop()]. *)
Record run : Type := mkRun {
  calls : outcome;
  cmdloop : bool
}.

Definition main (fs : FileSystem) (re : Re.engine) (args : Namespace) : run :=
  let manager := mkOutcome init [] Returned in
  let manager :=
    match add_data args with
    | Some directory =>
        if given (add_data args)
        then and_then manager (fun m => do_add_data fs m directory)
        else manager
    | None => manager
    end in
  let manager :=
    match query args with
    | Some condition =>
        if given (query args)
        then and_then manager (fun m => do_query re m condition)
        else manager
    | None => manager
    end in
  let manager :=
    match generate args with
    | Some output_file =>
        if given (generate args)
        then and_then manager (fun m => do_generate fs m output_file)
        else manager
    | None => manager
    end in
  let manager :=
    match show_top args with
    | Some n => and_then manager (fun m => do_show_top m (Py.str_int n))
    | None => manager
    end in
  mkRun manager
    match ended manager with
    | Returned => negb (any_given args)
    | Raised _ => false
    end.

End Cli.

(* ================================================================= *)
(** * Example data *)

Module Examples.
Import Pd StockManager.

Definition fl (z : Z) : cell := Float (Float64.of_Z z).

(** The table of [test_main.py]. *)
Definition stock : DataFrame :=
  mkDataFrame ["category"; "quantity"; "unit_price"]
    [ [Str "A"; Int 10; fl 5];
      [Str "B"; Int 20; fl 10];
      [Str "A"; Int 30; fl 15] ].

(** A second file, with another set of columns. *)
Definition extra : DataFrame :=
  mkDataFrame ["category"; "supplier"]
    [ [Str "C"; Str "Acme"] ].

(** The same kind of table with category [B] first. *)
Definition stock_BA : DataFrame :=
  mkDataFrame ["category"; "quantity"; "unit_price"]
    [ [Str "B"; Int 20; fl 10];
      [Str "A"; Int 10; fl 5] ].

(** A directory [inventory] with two CSV files that parse, one that is
    empty and a file that is not a CSV; every write succeeds. *)
Definition disk : FileSystem :=
  mkFileSystem
    (fun d => String.eqb d "inventory")
    (fun d => if String.eqb d "inventory"
              then ["a.csv"; "notes.txt"; "empty.csv"; "b.csv"] else [])
    (fun path =>
       if String.eqb path "inventory/a.csv" then Parsed stock
       else if String.eqb path "inventory/b.csv" then Parsed extra
       else EmptyDataError "No columns to parse from file")
    (fun _ _ => Written).

(** The same disk, read-only: every write raises [OSError]. *)
Definition readonly_disk : FileSystem :=
  mkFileSystem (isdir disk) (listdir disk) (read_csv disk)
    (fun _ _ => WriteFails Py.OSError false).

End Examples.
(* ================================================================= *)
(** * Notions used in the statements *)

Import Pd StockManager Examples.

(** The tables of the files that parse, in the order of enumeration. *)
Definition frames_of (fs : FileSystem) (directory : string) (files : list string)
  : list DataFrame :=
  flat_map (fun file =>
              match read_csv fs (Py.path_join directory file) with
              | Parsed df => [df]
              | _ => []
              end) files.

(** No file raises an exception other than the two [do_add_data] catches. *)
Definition reads_cleanly (fs : FileSystem) (directory : string)
  (files : list string) : Prop :=
  Forall (fun file =>
            forall e, read_csv fs (Py.path_join directory file) <> ReadRaises e)
         files.

(** The file [do_generate] writes to. *)
Definition report_path (output_file : string) : string :=
  if String.eqb (Py.strip output_file) "" then "summary_report.csv"
  else Py.strip output_file.

(** The renaming of the aggregated columns in [do_generate]. *)
Definition report_columns : list (string * string) :=
  [("quantity", "Total Quantity"); ("unit_price", "Average Price")].

(** The two errors [do_query] reports for its condition. *)
Definition bad_format : event :=
  error_output "Incorrect format. Use 'query <column=value>'.".

Definition column_not_found (column : string) : event :=
  error_output ("Column '" ++ column ++ "' not found.").

(** What [do_query] prints for the rows it found. *)
Definition found (result : DataFrame) : event :=
  if empty result then info_output "No matching results."
  else info_table result.

(** The three errors [do_add_data] reports for the load as a whole. *)
Definition load_errors : list string :=
  ["Directory not found."; "No CSV files found."; "No valid data loaded."].

(** The messages of the loop over the files: a success, or an error that
    names the file. *)
Definition file_message (ev : event) : Prop :=
  match ev with
  | success_output _ => True
  | error_output m => exists rest : string, m = ("Error loading " ++ rest)%string
  | _ => False
  end.

(** [pd.notna(c)]. *)
Definition notna (c : cell) : bool := negb (isna c).

(** The order of sorted group keys, as a relation. *)
Definition key_le (a b : cell) : Prop := key_leb a b = true.

(** What [uniques] keeps: keys that are not missing, pairwise different,
    taken from the column, and one for every value of the column. *)
Record distinct_keys (l keys : list cell) : Prop := {
  keys_notna : Forall (fun k => isna k = false) keys;
  keys_from : incl keys l;
  keys_differ : ForallOrdPairs (fun a b => key_eqb a b = false) keys;
  keys_cover : forall c, In c l -> isna c = false ->
                         exists k, In k keys /\ key_eqb c k = true
}.

(** [text] contains [value] up to case. *)
Definition icontains (value text : string) : Prop :=
  exists pre post,
    map Py.lower (Py.chars text)
    = pre ++ map Py.lower (Py.chars value) ++ post.

(** Patterns without special characters. *)
Module Literal.
Import Re.

(** The pattern that a text without special characters compiles to: its
    characters in sequence. *)
Definition literal (l : list ascii) : regex :=
  fold_right (fun c acc => Seq (Chr c) acc) Eps l.

(** No character of [l] is special. *)
Definition ordinary (l : list ascii) : bool :=
  forallb (fun c => negb (special c)) l.

(** [l] is at the front of [s], up to case. *)
Fixpoint ci_prefixb (l s : list ascii) : bool :=
  match l, s with
  | [], _ => true
  | c :: l', x :: s' => Ascii.eqb (Py.lower x) (Py.lower c) && ci_prefixb l' s'
  | _ :: _, [] => false
  end.

End Literal.

(** ** Two more examples *)

(** A directory that holds only a file that does not parse. *)
Definition empty_csv_disk : FileSystem :=
  mkFileSystem (fun _ => true) (fun _ => ["empty.csv"])
    (fun _ => EmptyDataError "No columns to parse from file")
    (fun _ _ => Written).

(** A table with a row that has no category. *)
Definition stock_with_gap : DataFrame :=
  mkDataFrame ["category"; "quantity"; "unit_price"]
    [ [Str "A"; Int 10; fl 5];
      [NaN; Int 1000; fl 99];
      [Str "A"; Int 30; fl 15] ].

(** ** Notions used in the further properties *)

(** What the loop of [do_add_data] prints for one file. *)
Definition file_report (fs : FileSystem) (directory file : string) : list event :=
  match read_csv fs (Py.path_join directory file) with
  | Parsed _ => [success_output ("Successfully loaded: " ++ file)]
  | EmptyDataError e | ParserError e =>
      [error_output ("Error loading " ++ file ++ ": " ++ e)]
  | ReadRaises _ => []
  end.

(** The last message of a load that read all its files. *)
Definition verdict (frames : list DataFrame) : event :=
  match frames with
  | [] => error_output "No valid data loaded."
  | _ => success_output "All files have been merged."
  end.

(** A frame as [pd.read_csv] returns it: the labels differ from one
    another and every row has a cell for every label. *)
Definition well_formed (df : DataFrame) : Prop :=
  NoDup (columns df)
  /\ Forall (fun r => List.length r = List.length (columns df)) (rows df).

(** A directory in which one file cannot be read. *)
Definition locked_disk : FileSystem :=
  mkFileSystem
    (fun d => String.eqb d "inventory")
    (fun _ => ["a.csv"; "locked.csv"; "b.csv"])
    (fun path =>
       if String.eqb path "inventory/locked.csv"
       then ReadRaises (Py.OtherError "PermissionError")
       else Parsed stock)
    (fun _ _ => Written).

(** A directory whose two files have a header and no data row. *)
Definition headers_disk : FileSystem :=
  mkFileSystem
    (fun _ => true)
    (fun _ => ["a.csv"; "b.csv"])
    (fun _ => Parsed (mkDataFrame ["category"; "quantity"; "unit_price"] []))
    (fun _ _ => Written).

(** The directory of [test_add_data_success]: two files, each read as the
    table of the tests. *)
Definition twin_disk : FileSystem :=
  mkFileSystem
    (fun _ => true)
    (fun _ => ["file1.csv"; "file2.csv"])
    (fun _ => Parsed stock)
    (fun _ _ => Written).

(** The error [do_generate] reports for its columns. *)
Definition missing_columns : event :=
  error_output "Missing required columns for generating a report.".

(** The result of adding up cells: text, or an exception, once text came. *)
Definition text_or_raised (acc : cell + Py.exn) : Prop :=
  match acc with
  | inl (Str _) => True
  | inl _ => False
  | inr _ => True
  end.

(** A table in which one price is not a number: the column is read as
    text. *)
Definition stock_text_price : DataFrame :=
  mkDataFrame ["category"; "quantity"; "unit_price"]
    [ [Str "A"; Int 10; Str "5.0"];
      [Str "B"; Int 20; Str "ten"] ].

(** The sum of a list of integers. *)
Definition zsum (l : list Z) : Z := fold_right Z.add 0%Z l.

(** The quantities, as integers, of the rows that [keep] retains, given
    the rows as pairs of a category and a quantity. *)
Definition quantities (keep : cell -> bool) (pairs : list (cell * cell)) : list Z :=
  map (fun kv => to_Z (snd kv)) (filter (fun kv => keep (fst kv)) pairs).

(** The text [do_query] searches in for a row: the cell of the row in the
    column, as stored in the column, as text. *)
Definition cell_text (df : DataFrame) (column : string) (r : row) : string :=
  str (stored (sdtype (getitem df column)) (cell_at (columns df) r column)).

(** A repetition sign or a closing parenthesis: no pattern starts so. *)
Definition dangling (c : ascii) : bool :=
  existsb (Ascii.eqb c) (Py.chars "*+?)").

(** A table in which a supplier is missing. *)
Definition stock_with_missing : DataFrame :=
  mkDataFrame ["category"; "supplier"]
    [ [Str "A"; Str "Hanna"];
      [Str "B"; NaN];
      [Str "C"; Str "Acme"] ].

(** Text made of whitespace only. *)
Definition blank (s : string) : bool := forallb Py.isspace (Py.chars s).

(** The error [do_show_top] reports for its count. *)
Definition invalid_count : event :=
  error_output "Please specify a valid number of records.".

(** The value of decimal digits read from the left, after the value [acc]
    of the digits before them. *)
Fixpoint uint_value (d : Decimal.uint) (acc : Z) : Z :=
  match d with
  | Decimal.Nil => acc
  | Decimal.D0 d => uint_value d (10 * acc + 0)
  | Decimal.D1 d => uint_value d (10 * acc + 1)
  | Decimal.D2 d => uint_value d (10 * acc + 2)
  | Decimal.D3 d => uint_value d (10 * acc + 3)
  | Decimal.D4 d => uint_value d (10 * acc + 4)
  | Decimal.D5 d => uint_value d (10 * acc + 5)
  | Decimal.D6 d => uint_value d (10 * acc + 6)
  | Decimal.D7 d => uint_value d (10 * acc + 7)
  | Decimal.D8 d => uint_value d (10 * acc + 8)
  | Decimal.D9 d => uint_value d (10 * acc + 9)
  end%Z.

(** The error [do_add_data] reports for a directory without CSV files. *)
Definition no_csv_files : event := error_output "No CSV files found.".

(** The name of a CSV file: some text followed by [.csv]. *)
Definition csv_name (f : string) : Prop := exists stem, f = (stem ++ ".csv")%string.

(** The tables a command shows or writes. *)
Definition tables_of (evs : list event) : list DataFrame :=
  flat_map (fun ev => match ev with
                      | info_table df => [df]
                      | file_written _ df => [df]
                      | _ => []
                      end) evs.

(** A table in which category [B] has neither a quantity nor a price; the
    quantities, with a missing value among them, are floats. *)
Definition stock_unpriced : DataFrame :=
  mkDataFrame ["category"; "quantity"; "unit_price"]
    [ [Str "A"; fl 10; fl 5];
      [Str "B"; NaN; NaN] ].

(** ** Notions used for the library outside the fragment and for dtypes *)

(** An engine for the examples: it knows the pattern [\d], found in the
    texts that hold a digit, and takes every other pattern outside the
    fragment for an error. *)
Definition digits_engine : Re.engine :=
  fun pat =>
    if String.eqb pat "\d"
    then Re.Finds (fun text => existsb Py.is_digit (Py.chars text))
    else Re.Raises Py.re_error.



(** A table with a label that starts with a blank, as [pd.read_csv] reads
    the header [item, qty]. *)
Definition padded : DataFrame :=
  mkDataFrame ["item"; " qty"] [ [Str "bolt"; Int 4] ].

(** The entries of a directory that are CSV files, in the order of the
    listing. *)
Inductive csv_entries : list string -> list string -> Prop :=
| csv_none : csv_entries [] []
| csv_keep (f : string) (entries files : list string) :
    csv_name f -> csv_entries entries files ->
    csv_entries (f :: entries) (f :: files)
| csv_skip (f : string) (entries files : list string) :
    ~ csv_name f -> csv_entries entries files ->
    csv_entries (f :: entries) files.

(** A directory with two CSV files and two entries that are not, which
    would parse as tables if they were read. *)
Definition mixed_disk : FileSystem :=
  mkFileSystem
    (fun d => String.eqb d "inventory")
    (fun _ => ["a.csv"; "old.txt"; "b.csv"; "c.CSV"])
    (fun path =>
       if String.eqb path "inventory/a.csv" then Parsed stock
       else if String.eqb path "inventory/b.csv" then Parsed extra
       else Parsed stock_BA)
    (fun _ _ => Written).

(** A column with the dtype [d], as such a column stores its cells. *)
Definition typed (d : dtype) (l : list cell) : Prop :=
  l <> [] /\ dtype_of l = d /\ Forall (fun v => stored d v = v) l.

(** The dtype [concat] gives the column [c]. *)
Definition target (frames : list DataFrame) (c : string) : dtype :=
  common_dtype (map (fun f => sdtype (getitem f c)) (filter has_rows frames)).

(** A frame whose cells are as its columns store them: no integer in a
    [float64] column. *)
Definition canonical (df : DataFrame) : Prop :=
  forall c r, In c (columns df) -> In r (rows df) ->
    stored (sdtype (getitem df c)) (cell_at (columns df) r c)
    = cell_at (columns df) r c.

(** Frames that agree on the dtype of every column. *)
Definition same_dtypes (frames : list DataFrame) : Prop :=
  forall c f g, In f frames -> In g frames ->
    has_rows f = true -> has_rows g = true ->
    sdtype (getitem f c) = sdtype (getitem g c).

(** An integer cell within [int64]. *)
Definition int64_cell (c : cell) : Prop :=
  exists z, c = Int z /\ (- 2 ^ 63 <= z < 2 ^ 63)%Z.

(** Text made only of the whitespace that [int] drops. *)
Definition int_blank (s : string) : bool := forallb Py.int_space (Py.chars s).

(** The separators FS, GS, RS and US. *)
Definition separator (c : ascii) : bool :=
  ((28 <=? nat_of_ascii c) && (nat_of_ascii c <=? 31))%nat.

(** A disk that is full: every write raises [OSError] after the target
    was opened, and leaves it empty or partly written. *)
Definition full_disk : FileSystem :=
  mkFileSystem (isdir disk) (listdir disk) (read_csv disk)
    (fun _ _ => WriteFails Py.OSError true).

(* ================================================================= *)
(** * Properties of the commands *)

(** ** Lists *)

Lemma firstn_all_but_last {A : Type} (k : nat) (l : list A) :
  firstn (List.length l - k) l = rev (skipn k (rev l)).
Proof.
  rewrite skipn_rev, rev_involutive. reflexivity.
Qed.

Lemma select_all (rs : list row) (mask : list bool) :
  List.length mask = List.length rs ->
  Forall (fun b => b = true) mask ->
  select rs mask = rs.
Proof.
  revert mask. induction rs as [|r rs IH]; intros [|b mask] Hlen Hall;
    simpl in *; try discriminate; auto.
  inversion Hall; subst. f_equal. apply IH; auto.
Qed.

Lemma existsb_eqb_In (c : string) (l : list string) :
  existsb (String.eqb c) l = true <-> In c l.
Proof.
  rewrite existsb_exists. split.
  - intros (x & Hx & E). apply String.eqb_eq in E. now subst.
  - intros H. exists c. split; [exact H | apply String.eqb_refl].
Qed.

Lemma chars_app (s1 s2 : string) :
  Py.chars (s1 ++ s2) = Py.chars s1 ++ Py.chars s2.
Proof.
  induction s1 as [|c s1 IH]; simpl; [reflexivity|]. f_equal. exact IH.
Qed.

(** ** [generate] on the table of the tests *)

(** C2: on the rows {A,10,5.0}, {B,20,10.0}, {A,30,15.0}, [do_generate]
    shows and writes exactly two summary rows: A with Total Quantity 40 and
    Average Price 10.0, B with Total Quantity 20 and Average Price 10.0. *)
Theorem generate_test_table (fs : FileSystem) (output_file : string) :
  let summary :=
    mkDataFrame ["category"; "Total Quantity"; "Average Price"]
      [ [Str "A"; Int 40; fl 10];
        [Str "B"; Int 20; fl 10] ] in
  let path := if String.eqb (Py.strip output_file) ""
              then "summary_report.csv" else Py.strip output_file in
  hd_error (trace (do_generate fs (mkManager stock) output_file))
    = Some (info_table summary)
  /\ do_generate disk (mkManager stock) output_file =
     mkOutcome (mkManager stock)
       [info_table summary; file_written path summary;
        success_output ("Report saved to " ++ path ++ ".")]
       Returned.
Proof.
  split; [|reflexivity].
  unfold do_generate.
  change (empty (data (mkManager stock))) with false.
  change (forallb (has_column (data (mkManager stock))) necessary_columns)
    with true.
  cbn [negb].
  replace (groupby_agg (data (mkManager stock)) "category" "quantity" "unit_price")
    with (inl (B := Py.exn)
            (mkDataFrame ["category"; "quantity"; "unit_price"]
               [ [Str "A"; Int 40; fl 10]; [Str "B"; Int 20; fl 10] ]))
    by (vm_compute; reflexivity).
  destruct (to_csv fs _ _); reflexivity.
Qed.

(** ** [show_top] *)

(** C4, as stated, fails: a count of [-1] on the three-row table shows the
    first two rows, where the claim asks for no row. *)
Lemma show_top_minus_one :
  Py.int "-1" = Some (-1)%Z /\
  do_show_top (mkManager stock) "-1" =
    mkOutcome (mkManager stock)
      [info_table (mkDataFrame (columns stock)
                     [ [Str "A"; Int 10; fl 5]; [Str "B"; Int 20; fl 10] ])]
      Returned /\
  trace (do_show_top (mkManager stock) "-1") <>
    [info_table (mkDataFrame (columns stock) [])].
Proof.
  repeat split. discriminate.
Qed.

(** C4, amended: on a table that is not empty, with a count that reads as
    the integer [n] (5 when the input is empty), [do_show_top] shows the
    first [min n size] rows when [n >= 0] (none for 0) and all rows but the
    last [-n] when [n < 0]. *)
Theorem show_top_rows (self : manager) (count : string) (n : Z) :
  empty (data self) = false ->
  (count = "" /\ n = 5%Z) \/ (count <> "" /\ Py.int count = Some n) ->
  exists shown,
    do_show_top self count =
      mkOutcome self [info_table (mkDataFrame (columns (data self)) shown)]
                Returned
    /\ ((0 <= n)%Z ->
        shown = firstn (Z.to_nat (Z.min n (Z.of_nat (List.length (rows (data self))))))
                       (rows (data self)))
    /\ (n = 0%Z -> shown = [])
    /\ ((n < 0)%Z ->
        shown = rev (skipn (Z.to_nat (- n)) (rev (rows (data self))))).
Proof.
  intros Hne Hcount.
  exists (rows (head (data self) n)).
  assert (Hreq : (if String.eqb count "" then Some 5%Z else Py.int count) = Some n).
  { destruct Hcount as [[-> ->] | [Hc Hi]]; [reflexivity|].
    apply String.eqb_neq in Hc. rewrite Hc. exact Hi. }
  unfold do_show_top. rewrite Hne, Hreq.
  split; [reflexivity|].
  unfold head; simpl.
  set (rs := rows (data self)).
  repeat split.
  - intros Hn. destruct (n <? 0)%Z eqn:E; [apply Z.ltb_lt in E; lia|].
    destruct (Z.le_ge_cases n (Z.of_nat (List.length rs))) as [Hle | Hge].
    + rewrite Z.min_l by exact Hle. reflexivity.
    + rewrite Z.min_r by exact Hge. rewrite Nat2Z.id.
      rewrite firstn_all. apply firstn_all2. lia.
  - intros ->. reflexivity.
  - intros Hn. apply Z.ltb_lt in Hn as E. rewrite E.
    rewrite <- firstn_all_but_last. f_equal. lia.
Qed.

Lemma show_top_rows_witness :
  exists shown,
    do_show_top (mkManager stock) "2" =
      mkOutcome (mkManager stock)
        [info_table (mkDataFrame (columns stock) shown)] Returned
    /\ shown = firstn 2 (rows stock).
Proof.
  destruct (@show_top_rows (mkManager stock) "2" 2%Z) as (shown & H & Hpos & _).
  - reflexivity.
  - right. split; [discriminate | reflexivity].
  - exists shown. split; [exact H | apply Hpos; lia].
Defined.

(** ** [query]: the errors *)



Lemma count_app (sep : ascii) (s1 s2 : string) :
  Py.count sep (s1 ++ s2) = Py.count sep s1 + Py.count sep s2.
Proof.
  induction s1 as [|c s1 IH]; simpl; [reflexivity|].
  destruct (Ascii.eqb c sep); simpl; now rewrite IH.
Qed.

Lemma split_once (a b : string) :
  Py.count "=" a = 0 -> Py.count "=" b = 0 ->
  Py.split "=" (a ++ String "=" b) = [a; b].
Proof.
  intros Ha Hb. induction a as [|c a IH]; simpl in *.
  - f_equal. clear Ha. induction b as [|c b IHb]; simpl in *; [reflexivity|].
    destruct (Ascii.eqb c "="); [discriminate|]. now rewrite IHb.
  - destruct (Ascii.eqb c "="); [discriminate|]. now rewrite IH.
Qed.


Lemma parse_condition_split (a b : string) :
  Py.count "=" a = 0 -> Py.count "=" b = 0 ->
  parse_condition (a ++ String "=" b) = Some (Py.strip a, Py.strip b).
Proof.
  intros Ha Hb. unfold parse_condition. now rewrite split_once.
Qed.

(** [do_query] on a table that is not empty, case by case. *)
Lemma query_cases re self condition :
  empty (data self) = false ->
  do_query re self condition =
    match parse_condition condition with
    | None => mkOutcome self [bad_format] Returned
    | Some (column, value) =>
        if has_column (data self) column then
          match str_contains re (astype_str (getitem (data self) column)) value with
          | inl mask =>
              mkOutcome self [found (getitem_mask (data self) mask)] Returned
          | inr Py.ValueError => mkOutcome self [bad_format] Returned
          | inr e => mkOutcome self [] (Raised e)
          end
        else mkOutcome self [column_not_found column] Returned
    end.
Proof.
  intros He. unfold do_query, query_body, found. rewrite He.
  destruct (parse_condition condition) as [[column value]|]; [|reflexivity].
  destruct (has_column (data self) column); [|reflexivity]. simpl.
  destruct (str_contains _ _ _) as [mask|[]]; try reflexivity.
  destruct (empty (getitem_mask (data self) mask)); reflexivity.
Qed.





(** ** [add_data] *)

Lemma load_files_cleanly fs directory files :
  reads_cleanly fs directory files ->
  exists msgs,
    load_files fs directory files = (frames_of fs directory files, msgs, None).
Proof.
  induction 1 as [|file files Hfile _ [msgs IH]]; simpl.
  - exists []. reflexivity.
  - rewrite IH.
    destruct (read_csv fs (Py.path_join directory file)) as [df|e|e|e];
      simpl; eauto.
    exfalso. exact (Hfile e eq_refl).
Qed.

(** [do_add_data] either leaves the manager as it was or ends normally
    with the concatenation of some frames. *)
Lemma add_data_keeps_or_merges fs self directory :
  self' (do_add_data fs self directory) = self
  \/ exists frames msgs,
       do_add_data fs self directory =
       mkOutcome (mkManager (concat frames))
                 (msgs ++ [success_output "All files have been merged."])
                 Returned.
Proof.
  unfold do_add_data.
  destruct (isdir fs (Py.strip directory)); simpl; [|now left].
  destruct (csv_files fs (Py.strip directory)) as [|f files]; [now left|].
  destruct (load_files fs (Py.strip directory) (f :: files))
    as [[[|df frames] msgs] [e|]]; try (now left).
  right. eauto.
Qed.

(** C7: when the path is not a directory, when the directory has no
    [.csv] entry, and when no file parses, [do_add_data] reports the error
    and leaves the manager's table exactly as it was. *)
Theorem add_data_failures_keep_table
  (fs : FileSystem) (self : manager) (directory : string) :
  let d := Py.strip directory in
  (isdir fs d = false ->
   do_add_data fs self directory =
     mkOutcome self [error_output "Directory not found."] Returned)
  /\ (isdir fs d = true -> csv_files fs d = [] ->
      do_add_data fs self directory =
        mkOutcome self [error_output "No CSV files found."] Returned)
  /\ (isdir fs d = true -> csv_files fs d <> [] ->
      reads_cleanly fs d (csv_files fs d) ->
      frames_of fs d (csv_files fs d) = [] ->
      exists msgs,
        do_add_data fs self directory =
          mkOutcome self (msgs ++ [error_output "No valid data loaded."])
                    Returned).
Proof.
  unfold do_add_data. cbv zeta. repeat split.
  - intros ->. reflexivity.
  - intros -> ->. reflexivity.
  - intros -> Hfiles Hclean Hnone.
    destruct (load_files_cleanly Hclean) as [msgs Hload].
    simpl. rewrite Hload, Hnone.
    destruct (csv_files fs (Py.strip directory)); [contradiction|].
    exists msgs. reflexivity.
Qed.

Lemma add_data_failures_keep_table_witness :
  self' (do_add_data disk (mkManager stock) "nowhere") = mkManager stock
  /\ self' (do_add_data disk (mkManager stock) "") = mkManager stock
  /\ self' (do_add_data empty_csv_disk (mkManager stock) "d") = mkManager stock.
Proof.
  destruct (add_data_failures_keep_table disk (mkManager stock) "nowhere")
    as [H1 _].
  destruct (add_data_failures_keep_table disk (mkManager stock) "")
    as [H2 _].
  destruct (add_data_failures_keep_table empty_csv_disk (mkManager stock) "d")
    as (_ & _ & H3).
  split; [|split].
  - rewrite H1; reflexivity.
  - rewrite H2; reflexivity.
  - destruct H3 as [msgs ->]; try reflexivity.
    + discriminate.
    + repeat constructor; discriminate.
Defined.

(** ** [concat] *)

Lemma add_labels_spec (l acc : list string) (c : string) :
  In c (fold_left add_label l acc) <-> In c acc \/ In c l.
Proof.
  revert acc. induction l as [|x l IH]; intros acc; simpl; [tauto|].
  rewrite IH. unfold add_label.
  destruct (existsb (String.eqb x) acc) eqn:E.
  - apply existsb_eqb_In in E. intuition (subst; auto).
  - rewrite in_app_iff. simpl. intuition (subst; auto).
Qed.

Lemma add_labels_NoDup (l acc : list string) :
  NoDup acc -> NoDup (fold_left add_label l acc).
Proof.
  revert acc. induction l as [|x l IH]; intros acc Hacc; simpl; [exact Hacc|].
  apply IH. unfold add_label.
  destruct (existsb (String.eqb x) acc) eqn:E; [exact Hacc|].
  apply NoDup_app; [exact Hacc | repeat constructor; simpl; tauto |].
  intros y Hy [<-|[]].
  apply existsb_eqb_In in Hy. congruence.
Qed.

Lemma union_columns_from (frames : list DataFrame) (acc : list string) (c : string) :
  In c (fold_left (fun a f => fold_left add_label (columns f) a) frames acc)
  <-> In c acc \/ exists f, In f frames /\ In c (columns f).
Proof.
  revert acc. induction frames as [|f frames IH]; intros acc; simpl.
  - split; [tauto | intros [H | (f & [] & _)]; exact H].
  - rewrite IH, add_labels_spec. split.
    + intros [[H|H]|(g & Hg & Hc)]; eauto.
    + intros [H|(g & [<-|Hg] & Hc)]; eauto.
Qed.

(** The labels of the concatenation: the union of the frames' labels,
    each once. *)
Lemma union_columns_spec (frames : list DataFrame) (c : string) :
  In c (union_columns frames) <-> exists f, In f frames /\ In c (columns f).
Proof.
  unfold union_columns. rewrite union_columns_from. simpl. tauto.
Qed.

Lemma union_columns_NoDup (frames : list DataFrame) :
  NoDup (union_columns frames).
Proof.
  unfold union_columns. generalize (NoDup_nil string).
  generalize (@nil string) as acc.
  induction frames as [|f frames IH]; intros acc Hacc; simpl; [exact Hacc|].
  apply IH, add_labels_NoDup, Hacc.
Qed.

(** A cell under a label the frame does not have is the missing value. *)
Lemma cell_at_absent (cols : list string) (r : row) (c : string) :
  ~ In c cols -> cell_at cols r c = NaN.
Proof.
  revert r. induction cols as [|x cols IH]; intros r Hc; simpl; [reflexivity|].
  destruct r as [|v r]; [reflexivity|].
  destruct (String.eqb_spec c x) as [->|_]; [simpl in Hc; tauto|].
  apply IH. simpl in Hc. tauto.
Qed.

(** A row made label by label holds, under every label, the cell made
    for that label. *)
Lemma cell_at_map (g : string -> cell) (onto : list string) (c : string) :
  In c onto -> cell_at onto (map g onto) c = g c.
Proof.
  induction onto as [|x onto IH]; intros Hc; simpl in *; [tauto|].
  destruct (String.eqb_spec c x) as [->|Hne]; [reflexivity|].
  apply IH. destruct Hc; congruence.
Qed.

(** ** dtypes *)

Lemma forallb_flat_map {A B : Type} (P : B -> bool) (g : A -> list B)
  (l : list A) :
  forallb P (flat_map g l) = forallb (fun x => forallb P (g x)) l.
Proof.
  induction l as [|x l IH]; simpl; [reflexivity|].
  now rewrite forallb_app, IH.
Qed.

Lemma flat_map_of_map {A B C : Type} (g : B -> list C) (h : A -> B)
  (l : list A) :
  flat_map g (map h l) = flat_map (fun x => g (h x)) l.
Proof.
  induction l as [|x l IH]; simpl; [reflexivity | now rewrite IH].
Qed.

Lemma forallb_false_incl {A : Type} (P : A -> bool) (l l' : list A) :
  incl l l' -> forallb P l = false -> forallb P l' = false.
Proof.
  intros Hi H. destruct (forallb P l') eqn:E; [|reflexivity].
  rewrite forallb_forall in E.
  assert (forallb P l = true) by (apply forallb_forall; auto). congruence.
Qed.

Lemma stored_float (v : cell) :
  is_number v = true -> stored float64 v = v -> exists f, v = Float f.
Proof.
  destruct v as [s|z|f]; simpl; intros Hn Hs; try discriminate; eauto.
Qed.

Lemma stored_twice (d : dtype) (v : cell) : stored d (stored d v) = stored d v.
Proof.
  destruct d, v; reflexivity.
Qed.

Lemma map_stored_id (d : dtype) (l : list cell) :
  d <> float64 -> map (stored d) l = l.
Proof.
  intros Hd. induction l as [|v l IH]; simpl; [reflexivity|].
  rewrite IH. f_equal. destruct d, v; try reflexivity. contradiction.
Qed.

Lemma dtype_of_numbers (l : list cell) :
  dtype_of l <> object -> forallb is_number l = true.
Proof.
  unfold dtype_of. destruct (forallb is_number l); simpl; congruence.
Qed.

Lemma dtype_of_floats (l : list cell) :
  l <> [] -> Forall (fun v => exists f, v = Float f) l -> dtype_of l = float64.
Proof.
  intros Hne H. unfold dtype_of, ints_in.
  assert (Hn : forallb is_number l = true).
  { apply forallb_forall. intros v Hv. rewrite Forall_forall in H.
    destruct (H v Hv) as [f ->]. reflexivity. }
  assert (Ha : forallb (fun c => match c with Int z => in_int64 z | _ => true end) l
               = true).
  { apply forallb_forall. intros v Hv. rewrite Forall_forall in H.
    destruct (H v Hv) as [f ->]. reflexivity. }
  assert (Hi : forallb is_int l = false).
  { destruct l as [|v l]; [contradiction|].
    inversion H as [|? ? [f ->] _]; subst. reflexivity. }
  now rewrite Hn, Ha, Hi.
Qed.

(** The column of a frame that has rows is typed by its dtype. *)
Lemma getitem_typed (df : DataFrame) (name : string) :
  has_rows df = true ->
  typed (sdtype (getitem df name)) (values (getitem df name)).
Proof.
  intros Hr. unfold getitem. simpl.
  set (raw := map (fun r => cell_at (columns df) r name) (rows df)).
  assert (Hne : raw <> []).
  { subst raw. unfold has_rows in Hr. destruct (rows df); [discriminate|].
    discriminate. }
  destruct (dtype_of raw) eqn:E.
  - rewrite map_stored_id by discriminate.
    repeat split; auto. apply Forall_forall. now intros [].
  - rewrite map_stored_id by discriminate.
    repeat split; auto. apply Forall_forall. now intros [].
  - assert (Hn : forallb is_number raw = true)
      by (apply dtype_of_numbers; congruence).
    assert (Hf : Forall (fun v => exists f, v = Float f)
                        (map (stored float64) raw)).
    { apply Forall_forall. intros v Hv. apply in_map_iff in Hv as (x & <- & Hx).
      rewrite forallb_forall in Hn. specialize (Hn x Hx).
      destruct x; simpl; try discriminate; eauto. }
    split; [destruct raw; [contradiction | discriminate]|].
    split; [apply dtype_of_floats; auto; destruct raw; [contradiction | discriminate]|].
    eapply Forall_impl; [|exact Hf]. now intros v [f ->].
  - rewrite map_stored_id by discriminate.
    repeat split; auto. apply Forall_forall. now intros [].
Qed.

Lemma common_dtype_object (ds : list dtype) :
  common_dtype ds = object <-> In object ds.
Proof.
  unfold common_dtype.
  destruct (existsb (dtype_eqb object) ds) eqn:E.
  - split; [|reflexivity]. intros _.
    apply existsb_exists in E as (d & Hd & Ed). now destruct d.
  - split.
    + destruct (forallb _ ds); [discriminate|].
      destruct (forallb _ ds); discriminate.
    + intros H. assert (existsb (dtype_eqb object) ds = true)
        by (apply existsb_exists; exists object; auto). congruence.
Qed.

Lemma common_dtype_all (d : dtype) (ds : list dtype) :
  ds <> [] -> Forall (eq d) ds -> common_dtype ds = d.
Proof.
  intros Hne H. unfold common_dtype.
  destruct ds as [|x ds]; [contradiction|].
  inversion H as [|? ? Hx Hds]; subst x. rewrite Forall_forall in Hds.
  assert (Hall : forall P : dtype -> bool, forallb P (d :: ds) = P d).
  { intros P. cbn [forallb]. destruct (P d) eqn:E; [|reflexivity].
    cbn [andb]. apply forallb_forall. intros y Hy. now rewrite <- (Hds y Hy). }
  assert (Hex : forall P : dtype -> bool, existsb P (d :: ds) = P d).
  { intros P. cbn [existsb]. destruct (P d) eqn:E; [reflexivity|].
    cbn [orb]. destruct (existsb P ds) eqn:E'; [|reflexivity].
    apply existsb_exists in E' as (y & Hy & Ey).
    rewrite <- (Hds y Hy) in Ey. congruence. }
  rewrite Hex, !Hall. now destruct d.
Qed.

Lemma common_dtype_int (ds : list dtype) (d : dtype) :
  common_dtype ds = d -> d = int64 \/ d = uint64 -> Forall (eq d) ds.
Proof.
  unfold common_dtype. intros H Hd.
  destruct (existsb (dtype_eqb object) ds);
    [subst d; destruct Hd; discriminate|].
  destruct (forallb (dtype_eqb int64) ds) eqn:E1.
  { subst d. apply Forall_forall. intros x Hx.
    rewrite forallb_forall in E1. specialize (E1 x Hx). now destruct x. }
  destruct (forallb (dtype_eqb uint64) ds) eqn:E2.
  { subst d. apply Forall_forall. intros x Hx.
    rewrite forallb_forall in E2. specialize (E2 x Hx). now destruct x. }
  subst d. destruct Hd; discriminate.
Qed.

(** The pieces of a column, each typed by its dtype, cast to their common
    dtype and put one after the other, make a column typed by the common
    dtype. *)
Lemma concat_typed (pieces : list (dtype * list cell)) :
  pieces <> [] ->
  Forall (fun p => typed (fst p) (snd p)) pieces ->
  let T := common_dtype (map fst pieces) in
  typed T (flat_map (fun p => map (stored T) (snd p)) pieces).
Proof.
  intros Hne Hall T.
  set (col := flat_map (fun p => map (stored T) (snd p)) pieces).
  assert (Hcol : col <> []).
  { subst col. destruct pieces as [|[d l] ps]; [contradiction|].
    inversion Hall as [|? ? [Hl _] _]; subst. simpl in *.
    destruct l; [contradiction | discriminate]. }
  rewrite Forall_forall in Hall.
  assert (Hid : T <> float64 -> col = flat_map snd pieces).
  { intros HT. subst col. apply flat_map_ext. intros p.
    now apply map_stored_id. }
  destruct T eqn:ET.
  - (* int64 *)
    rewrite Hid by discriminate.
    assert (Hds : Forall (eq int64) (map fst pieces))
      by (apply common_dtype_int; auto).
    rewrite Forall_map, Forall_forall in Hds.
    assert (Hp : forall p, In p pieces ->
                 forallb is_number (snd p) = true
                 /\ ints_in in_int64 (snd p) = true
                 /\ forallb is_int (snd p) = true).
    { intros p Hin. destruct (Hall p Hin) as (_ & Hd & _).
      rewrite <- (Hds p Hin) in Hd. unfold dtype_of in Hd.
      destruct (forallb is_number (snd p)); [|discriminate]. simpl in Hd.
      destruct (ints_in in_int64 (snd p)).
      - destruct (forallb is_int (snd p)); [auto | discriminate].
      - destruct (ints_in in_uint64 (snd p)); [|discriminate].
        destruct (forallb is_int (snd p)); discriminate. }
    split; [now rewrite <- Hid by discriminate|]. split.
    + unfold dtype_of, ints_in. rewrite !forallb_flat_map.
      replace (forallb (fun x => forallb is_number (snd x)) pieces) with true
        by (symmetry; apply forallb_forall; intros p Hin; apply (Hp p Hin)).
      replace (forallb (fun x => forallb _ (snd x)) pieces) with true
        by (symmetry; apply forallb_forall; intros p Hin; apply (Hp p Hin)).
      replace (forallb (fun x => forallb is_int (snd x)) pieces) with true
        by (symmetry; apply forallb_forall; intros p Hin; apply (Hp p Hin)).
      reflexivity.
    + apply Forall_forall. now intros [].
  - (* uint64 *)
    rewrite Hid by discriminate.
    assert (Hds : Forall (eq uint64) (map fst pieces))
      by (apply common_dtype_int; auto).
    rewrite Forall_map, Forall_forall in Hds.
    assert (Hp : forall p, In p pieces ->
                 forallb is_number (snd p) = true
                 /\ ints_in in_int64 (snd p) = false
                 /\ ints_in in_uint64 (snd p) = true
                 /\ forallb is_int (snd p) = true).
    { intros p Hin. destruct (Hall p Hin) as (_ & Hd & _).
      rewrite <- (Hds p Hin) in Hd. unfold dtype_of in Hd.
      destruct (forallb is_number (snd p)); [|discriminate]. simpl in Hd.
      destruct (ints_in in_int64 (snd p)).
      - destruct (forallb is_int (snd p)); discriminate.
      - destruct (ints_in in_uint64 (snd p)); [|discriminate].
        destruct (forallb is_int (snd p)); [auto | discriminate]. }
    split; [now rewrite <- Hid by discriminate|]. split.
    + unfold dtype_of.
      assert (Hn : forallb is_number (flat_map snd pieces) = true).
      { rewrite forallb_flat_map. apply forallb_forall.
        intros p Hin. apply (Hp p Hin). }
      assert (Ha : ints_in in_int64 (flat_map snd pieces) = false).
      { destruct pieces as [|p ps]; [contradiction|].
        unfold ints_in. apply forallb_false_incl with (snd p).
        - intros v Hv. simpl. apply in_or_app. now left.
        - apply (Hp p). now left. }
      assert (Hu : ints_in in_uint64 (flat_map snd pieces) = true).
      { unfold ints_in. rewrite forallb_flat_map. apply forallb_forall.
        intros p Hin. apply (Hp p Hin). }
      assert (Hi : forallb is_int (flat_map snd pieces) = true).
      { rewrite forallb_flat_map. apply forallb_forall.
        intros p Hin. apply (Hp p Hin). }
      now rewrite Hn, Ha, Hu, Hi.
    + apply Forall_forall. now intros [].
  - (* float64 *)
    assert (Hf : Forall (fun v => exists f, v = Float f) col).
    { subst col. apply Forall_forall. intros v Hv.
      apply in_flat_map in Hv as (p & Hin & Hv).
      apply in_map_iff in Hv as (x & <- & Hx).
      destruct (Hall p Hin) as (_ & Hd & _).
      assert (Hno : fst p <> object).
      { intros Ho. assert (Hc : common_dtype (map fst pieces) = object).
        { apply common_dtype_object. rewrite <- Ho. now apply in_map. }
        fold T in Hc. congruence. }
      rewrite <- Hd in Hno. apply dtype_of_numbers in Hno.
      rewrite forallb_forall in Hno. specialize (Hno x Hx).
      destruct x; simpl; try discriminate; eauto. }
    split; [exact Hcol|]. split; [now apply dtype_of_floats|].
    eapply Forall_impl; [|exact Hf]. now intros v [f ->].
  - (* object *)
    rewrite Hid by discriminate.
    split; [now rewrite <- Hid by discriminate|].
    split; [|apply Forall_forall; now intros []].
    assert (Hc : In object (map fst pieces)) by now apply common_dtype_object.
    apply in_map_iff in Hc as (p & Ho & Hin).
    destruct (Hall p Hin) as (_ & Hd & _). rewrite Ho in Hd.
    assert (Hincl : incl (snd p) (flat_map snd pieces)).
    { intros v Hv. apply in_flat_map. eauto. }
    unfold dtype_of in *.
    destruct (forallb is_number (snd p)) eqn:En.
    + simpl in Hd.
      destruct (ints_in in_int64 (snd p)) eqn:Ea;
        [destruct (forallb is_int (snd p)); discriminate|].
      destruct (ints_in in_uint64 (snd p)) eqn:Eu;
        [destruct (forallb is_int (snd p)); discriminate|].
      unfold ints_in in *.
      rewrite (forallb_false_incl _ Hincl Ea), (forallb_false_incl _ Hincl Eu).
      destruct (forallb is_number (flat_map snd pieces)); reflexivity.
    + now rewrite (forallb_false_incl _ Hincl En).
Qed.

(** ** [concat]: the cells *)

Lemma flat_map_has_rows {B : Type} (g : DataFrame -> list B)
  (frames : list DataFrame) :
  (forall f, has_rows f = false -> g f = []) ->
  flat_map g (filter has_rows frames) = flat_map g frames.
Proof.
  intros Hg. induction frames as [|f frames IH]; simpl; [reflexivity|].
  destruct (has_rows f) eqn:E; simpl; [now rewrite IH|].
  now rewrite (Hg f E), IH.
Qed.

Lemma placed_column (T : string -> dtype) (onto : list string)
  (frames : list DataFrame) (c : string) :
  In c onto ->
  map (fun r => cell_at onto r c)
      (flat_map (fun f => map (place T onto f) (rows f)) frames)
  = flat_map (fun f => map (stored (T c)) (values (getitem f c))) frames.
Proof.
  intros Hc. induction frames as [|f frames IH]; simpl; [reflexivity|].
  rewrite map_app, IH. f_equal.
  rewrite !map_map. apply map_ext. intros r. unfold place.
  now rewrite (cell_at_map _ _ _ Hc).
Qed.

(** The column [c] of the concatenation: the columns [c] of the frames,
    cast to the dtype of the concatenated column, one after the other. *)
Lemma concat_column (frames : list DataFrame) (c : string) :
  In c (columns (concat frames)) ->
  map (fun r => cell_at (columns (concat frames)) r c) (rows (concat frames))
  = flat_map (fun f => map (stored (target frames c)) (values (getitem f c)))
             (filter has_rows frames).
Proof.
  intros Hc.
  rewrite (flat_map_has_rows
             (fun f => map (stored (target frames c)) (values (getitem f c)))).
  2:{ intros f Hf. unfold getitem, has_rows in *. simpl.
      destruct (rows f); [reflexivity | discriminate]. }
  exact (placed_column (target frames) (columns (concat frames)) frames c Hc).
Qed.

Lemma placed_no_rows (T : string -> dtype) (onto : list string)
  (frames : list DataFrame) :
  filter has_rows frames = [] ->
  flat_map (fun f => map (place T onto f) (rows f)) frames = [].
Proof.
  induction frames as [|f frames IH]; simpl; [reflexivity|].
  unfold has_rows at 1. destruct (rows f); [|discriminate]. exact IH.
Qed.

(** The concatenated column has the common dtype of its pieces. *)
Lemma concat_dtype (frames : list DataFrame) (c : string) :
  In c (columns (concat frames)) -> has_rows (concat frames) = true ->
  sdtype (getitem (concat frames) c) = target frames c.
Proof.
  intros Hc Hr.
  change (sdtype (getitem (concat frames) c))
    with (dtype_of (map (fun r => cell_at (columns (concat frames)) r c)
                        (rows (concat frames)))).
  rewrite (concat_column frames c Hc).
  set (F := filter has_rows frames).
  assert (HF : F <> []).
  { subst F. intros HF. unfold has_rows, concat in Hr. cbn [rows] in Hr.
    rewrite placed_no_rows in Hr by exact HF. discriminate. }
  pose proof (@concat_typed
                (map (fun f => (sdtype (getitem f c), values (getitem f c))) F))
    as H.
  cbv zeta in H. rewrite map_map in H. cbn [fst] in H.
  fold (target frames c) in H. rewrite flat_map_of_map in H. cbn [snd] in H.
  destruct H as (_ & Hd & _); [| |exact Hd].
  - destruct F; [contradiction | discriminate].
  - apply Forall_map, Forall_forall. intros f Hf. cbn [fst snd].
    apply getitem_typed. subst F. apply filter_In in Hf. tauto.
Qed.

(** What [concat] puts under the label [c] for the row [x] of the frame
    [f]: the cell of [x] as [f] stores it, as the concatenated column
    stores it. *)
Lemma concat_cell (frames : list DataFrame) (f : DataFrame) (x : row)
  (c : string) :
  In f frames -> In x (rows f) -> In c (columns (concat frames)) ->
  cell_at (columns (concat frames))
          (place (target frames) (columns (concat frames)) f x) c
  = stored (sdtype (getitem (concat frames) c))
           (stored (sdtype (getitem f c)) (cell_at (columns f) x c)).
Proof.
  intros Hf Hx Hc. unfold place. rewrite (cell_at_map _ _ _ Hc).
  rewrite concat_dtype; [reflexivity | exact Hc |].
  assert (Hin : In (place (target frames) (columns (concat frames)) f x)
                   (rows (concat frames))).
  { change (rows (concat frames))
      with (flat_map (fun f => map (place (target frames)
                                          (columns (concat frames)) f) (rows f))
                     frames).
    apply in_flat_map. exists f. split; [exact Hf|]. now apply in_map. }
  unfold has_rows. destruct (rows (concat frames)); [contradiction | reflexivity].
Qed.

Lemma startswith_chars_spec (p l : list ascii) :
  Py.startswith_chars p l = true <-> exists post, l = p ++ post.
Proof.
  revert l. induction p as [|a p IH]; intros l; simpl.
  - split; eauto.
  - destruct l as [|b l]; simpl.
    + split; [discriminate | intros [post H]; discriminate H].
    + rewrite andb_true_iff, IH, Ascii.eqb_eq. split.
      * intros [-> [post ->]]. eauto.
      * intros [post H]. injection H as -> ->. eauto.
Qed.

Lemma chars_inj (s t : string) : Py.chars s = Py.chars t -> s = t.
Proof.
  intros H. rewrite <- (string_of_list_ascii_of_string s),
    <- (string_of_list_ascii_of_string t). unfold Py.chars in H. now rewrite H.
Qed.

(** [s.endswith(suffix)] holds exactly when [s] is some text followed by
    [suffix]. *)
Lemma endswith_spec (s suffix : string) :
  Py.endswith s suffix = true <-> exists pre, s = (pre ++ suffix)%string.
Proof.
  unfold Py.endswith. rewrite startswith_chars_spec. split.
  - intros [post H]. exists (Py.str_of (rev post)). apply chars_inj.
    rewrite chars_app. unfold Py.str_of, Py.chars at 2.
    rewrite list_ascii_of_string_of_list_ascii.
    rewrite <- (rev_involutive (Py.chars s)), H, rev_app_distr, rev_involutive.
    reflexivity.
  - intros [pre ->]. exists (rev (Py.chars pre)).
    now rewrite chars_app, rev_app_distr.
Qed.

(** The files that are read: the CSV entries of the listing. *)
Lemma csv_entries_files fs directory files :
  csv_entries (listdir fs directory) files -> csv_files fs directory = files.
Proof.
  unfold csv_files.
  induction 1 as [|f entries files Hf _ IH|f entries files Hf _ IH];
    simpl; [reflexivity| |].
  - apply endswith_spec in Hf. now rewrite Hf, IH.
  - destruct (Py.endswith f ".csv") eqn:E; [|exact IH].
    exfalso. apply Hf. now apply endswith_spec.
Qed.

(** C1: when the path is a directory and at least one of its CSV entries
    parses (the others raising only the two parse errors), [do_add_data]
    ends normally with the concatenation of the parsed tables of the CSV
    entries, and of no other entry: as many rows as the tables have
    together, in the order of the files and of their rows; the labels are
    the union of the tables' labels, each once; a row has, under a label,
    the cell it had in its file, as the merged column stores it (text,
    floats and missing values as they are, an integer as it is or as the
    nearest float), and the missing value under the labels its file did not
    have; the previous table plays no part. *)
Theorem add_data_concatenates
  (fs : FileSystem) (self : manager) (directory : string)
  (files : list string) :
  let d := Py.strip directory in
  let frames := frames_of fs d files in
  isdir fs d = true ->
  csv_entries (listdir fs d) files ->
  reads_cleanly fs d files ->
  frames <> [] ->
  let r := do_add_data fs self directory in
  let table := data (self' r) in
  ended r = Returned
  /\ List.length (rows table)
     = list_sum (map (fun f => List.length (rows f)) frames)
  /\ NoDup (columns table)
  /\ (forall c, In c (columns table)
                <-> exists f, In f frames /\ In c (columns f))
  /\ (exists put : DataFrame -> row -> row,
        rows table = flat_map (fun f => map (put f) (rows f)) frames
        /\ forall f x c,
             In f frames -> In x (rows f) -> In c (columns table) ->
             let old := cell_at (columns f) x c in
             let new := cell_at (columns table) (put f x) c in
             new = stored (sdtype (getitem table c))
                          (stored (sdtype (getitem f c)) old)
             /\ (is_int old = false -> new = old)
             /\ (forall z, old = Int z ->
                           new = Int z \/ new = Float (Float64.of_Z z))
             /\ (~ In c (columns f) -> new = NaN))
  /\ (forall other, data (self' (do_add_data fs other directory)) = table).
Proof.
  intros d frames Hdir Hfiles Hclean Hsome r table.
  apply csv_entries_files in Hfiles.
  assert (Hrun : forall m, do_add_data fs m directory =
            mkOutcome (mkManager (concat frames))
              (snd (fst (load_files fs d files))
               ++ [success_output "All files have been merged."]) Returned).
  { intros m. unfold do_add_data. fold d. rewrite Hdir, Hfiles. simpl.
    destruct (load_files_cleanly Hclean) as [msgs Hload].
    rewrite Hload. fold frames. simpl.
    destruct files as [|file files'];
      [exfalso; apply Hsome; reflexivity|].
    destruct frames; [contradiction | reflexivity]. }
  subst table r. rewrite Hrun. simpl self'. simpl data. simpl ended.
  split; [reflexivity|].
  split; [unfold concat; simpl; rewrite length_flat_map; f_equal;
          apply map_ext; intros; apply length_map|].
  split; [apply union_columns_NoDup|].
  split; [apply union_columns_spec|].
  split.
  - exists (place (target frames) (columns (concat frames))).
    split; [reflexivity|].
    intros f x c Hf Hx Hc old new.
    assert (Hnew : new = stored (sdtype (getitem (concat frames) c))
                           (stored (sdtype (getitem f c)) old))
      by (apply concat_cell; assumption).
    split; [exact Hnew|]. split; [|split].
    + intros Hi. rewrite Hnew.
      destruct old; try discriminate Hi;
        destruct (sdtype (getitem f c)), (sdtype (getitem (concat frames) c));
        reflexivity.
    + intros z Hz. rewrite Hnew, Hz.
      destruct (sdtype (getitem f c)), (sdtype (getitem (concat frames) c));
        simpl; auto.
    + intros Habs. rewrite Hnew. subst old.
      rewrite cell_at_absent by exact Habs.
      destruct (sdtype (getitem f c)), (sdtype (getitem (concat frames) c));
        reflexivity.
  - intros other. rewrite Hrun. reflexivity.
Qed.

Lemma add_data_concatenates_witness :
  let table :=
    data (self' (do_add_data mixed_disk (mkManager extra) " inventory ")) in
  List.length (rows table) = 4
  /\ columns table = ["category"; "quantity"; "unit_price"; "supplier"]
  /\ nth 0 (rows table) [] = [Str "A"; fl 10; fl 5; NaN]
  /\ nth 3 (rows table) [] = [Str "C"; NaN; NaN; Str "Acme"].
Proof.
  assert (Hno : forall f, In f ["old.txt"; "c.CSV"] -> ~ csv_name f).
  { intros f [<-|[<-|[]]] [stem H];
      apply (f_equal (fun s => rev (Py.chars s))) in H;
      rewrite chars_app, rev_app_distr in H; discriminate H. }
  destruct (@add_data_concatenates mixed_disk (mkManager extra) " inventory "
              ["a.csv"; "b.csv"])
    as (_ & Hlen & _ & _ & (put & Hrows & _) & _).
  - reflexivity.
  - apply csv_keep; [now exists "a"|].
    apply csv_skip; [apply Hno; simpl; auto|].
    apply csv_keep; [now exists "b"|].
    apply csv_skip; [apply Hno; simpl; auto|].
    apply csv_none.
  - repeat constructor; intros e; vm_compute; discriminate.
  - vm_compute; discriminate.
  - cbv zeta. split; [rewrite Hlen; reflexivity|].
    split; [reflexivity|]. split; reflexivity.
Defined.

(** ** Group keys *)

Lemma num_compare_antisym (x y : num) :
  num_compare x y = CompOpp (num_compare y x).
Proof.
  destruct x, y; simpl; try reflexivity. apply Z.compare_antisym.
Qed.

Lemma num_compare_refl (x : num) : num_compare x x = Eq.
Proof.
  destruct x; simpl; try reflexivity. apply Z.compare_refl.
Qed.

Lemma num_of_notna (c : cell) :
  isna c = false -> is_number c = true -> exists x, num_of c = Some x.
Proof.
  destruct c as [s|z|[b|b| |b m e]]; simpl; intros; try discriminate; eauto.
Qed.

Lemma key_eqb_refl (c : cell) : isna c = false -> key_eqb c c = true.
Proof.
  intros H. destruct c as [s|z|f]; simpl.
  - apply String.eqb_refl.
  - now rewrite Z.compare_refl.
  - destruct (@num_of_notna (Float f) H eq_refl) as [x Hx].
    simpl in Hx. rewrite Hx, num_compare_refl. reflexivity.
Qed.

Lemma key_eqb_sym (a b : cell) : key_eqb a b = key_eqb b a.
Proof.
  assert (Hnum : forall a b,
             match num_of a, num_of b with
             | Some x, Some y =>
                 match num_compare x y with Eq => true | _ => false end
             | _, _ => false
             end =
             match num_of b, num_of a with
             | Some x, Some y =>
                 match num_compare x y with Eq => true | _ => false end
             | _, _ => false
             end).
  { intros u v. destruct (num_of u) as [x|], (num_of v) as [y|]; try reflexivity.
    rewrite (num_compare_antisym x y). now destruct (num_compare y x). }
  destruct a as [s|z|f], b as [t|w|g]; try apply Hnum.
  simpl. apply String.eqb_sym.
Qed.

(** A missing value equals no key. *)
Lemma key_eqb_notna (a b : cell) : key_eqb a b = true -> isna a = false.
Proof.
  destruct a as [s|z|[| | |]]; simpl; try reflexivity.
  destruct b; discriminate.
Qed.

(** Any two keys are ordered one way or the other. *)
Lemma key_leb_total (a b : cell) : key_leb a b = false -> key_leb b a = true.
Proof.
  assert (Hnum : forall a b,
             match num_of a, num_of b with
             | Some x, Some y =>
                 match num_compare x y with Gt => false | _ => true end
             | _, _ => true
             end = false ->
             match num_of b, num_of a with
             | Some x, Some y =>
                 match num_compare x y with Gt => false | _ => true end
             | _, _ => true
             end = true).
  { intros u v. destruct (num_of u) as [x|], (num_of v) as [y|];
      try reflexivity; try discriminate.
    rewrite (num_compare_antisym x y). now destruct (num_compare y x). }
  destruct a as [s|z|f], b as [t|w|g]; try apply Hnum; simpl;
    try discriminate; try reflexivity.
  intros H. destruct (String.leb_total s t) as [E|E]; congruence.
Qed.

Lemma insert_key_perm (k : cell) (l : list cell) :
  Permutation (insert_key k l) (k :: l).
Proof.
  induction l as [|x l IH]; simpl; [reflexivity|].
  destruct (key_leb k x); [reflexivity|].
  rewrite IH. apply perm_swap.
Qed.

Lemma sort_keys_perm (l : list cell) : Permutation (sort_keys l) l.
Proof.
  induction l as [|x l IH]; simpl; [reflexivity|].
  rewrite insert_key_perm. now constructor.
Qed.

Lemma insert_key_sorted (k : cell) (l : list cell) :
  Sorted key_le l -> Sorted key_le (insert_key k l).
Proof.
  induction 1 as [|x l Hl IH Hhd]; simpl; [repeat constructor|].
  destruct (key_leb k x) eqn:E.
  - constructor; [constructor; assumption | constructor; exact E].
  - constructor; [exact IH|].
    apply key_leb_total in E.
    destruct Hhd as [|y l' Hxy]; simpl.
    + constructor. exact E.
    + destruct (key_leb k y); constructor; assumption.
Qed.

(** The keys of a grouping come in ascending order. *)
Lemma sort_keys_sorted (l : list cell) : Sorted key_le (sort_keys l).
Proof.
  induction l as [|x l IH]; simpl; [constructor | now apply insert_key_sorted].
Qed.

Lemma ForallOrdPairs_snoc {A : Type} (R : A -> A -> Prop) (l : list A) (x : A) :
  ForallOrdPairs R l -> Forall (fun a => R a x) l -> ForallOrdPairs R (l ++ [x]).
Proof.
  induction 1 as [|a l Ha Hl IH]; intros Hx; simpl.
  - repeat constructor.
  - inversion Hx; subst. constructor; [|apply IH; assumption].
    apply Forall_app. split; [assumption | repeat constructor; assumption].
Qed.

Lemma uniques_from (l acc seen : list cell) :
  distinct_keys seen acc ->
  distinct_keys (seen ++ l) (fold_left add_key l acc).
Proof.
  revert acc seen. induction l as [|c l IH]; intros acc seen H; simpl.
  - now rewrite app_nil_r.
  - replace (seen ++ c :: l) with ((seen ++ [c]) ++ l)
      by (rewrite <- app_assoc; reflexivity).
    apply IH. destruct H as [Hna Hfrom Hdiff Hcov].
    unfold add_key. destruct (isna c) eqn:Ec; simpl.
    + constructor; auto.
      * intros k Hk. apply in_or_app. left. auto.
      * intros x Hx Hnx. apply in_app_or in Hx as [Hx|[<-|[]]]; [auto|congruence].
    + destruct (existsb (key_eqb c) acc) eqn:Ex.
      * constructor; auto.
        -- intros k Hk. apply in_or_app. left. auto.
        -- intros x Hx Hnx. apply in_app_or in Hx as [Hx|[<-|[]]]; [auto|].
           apply existsb_exists in Ex as (k & Hk & E). eauto.
      * assert (Hnone : Forall (fun a => key_eqb a c = false) acc).
        { apply Forall_forall. intros a Ha. rewrite key_eqb_sym.
          destruct (key_eqb c a) eqn:E; [|reflexivity].
          assert (existsb (key_eqb c) acc = true)
            by (apply existsb_exists; eauto).
          congruence. }
        constructor.
        -- apply Forall_app. split; [assumption | repeat constructor; assumption].
        -- intros k Hk. apply in_app_or in Hk as [Hk|[<-|[]]];
             apply in_or_app; [left; auto | right; now left].
        -- apply ForallOrdPairs_snoc; assumption.
        -- intros x Hx Hnx. apply in_app_or in Hx as [Hx|[<-|[]]].
           ++ destruct (Hcov x Hx Hnx) as (k & Hk & E).
              exists k. split; [apply in_or_app; now left | exact E].
           ++ exists c. split; [apply in_or_app; right; now left|].
              now apply key_eqb_refl.
Qed.

Lemma uniques_distinct (l : list cell) : distinct_keys l (uniques l).
Proof.
  apply (@uniques_from l [] []).
  constructor; [constructor | intros c [] | constructor | intros c []].
Qed.

Lemma ForallOrdPairs_perm {A : Type} (R : A -> A -> Prop) (l l' : list A) :
  (forall a b, R a b -> R b a) ->
  Permutation l l' -> ForallOrdPairs R l -> ForallOrdPairs R l'.
Proof.
  intros Hsym. induction 1 as [|x l l' Hp IH|x y l|l l' l'' _ IH1 _ IH2];
    intros H; auto.
  - inversion H; subst. constructor; [|auto].
    eapply Permutation_Forall; eassumption.
  - inversion H as [|? ? Hy Hl]; subst. inversion Hl as [|? ? Hx Hl']; subst.
    inversion Hy; subst.
    constructor; [constructor; auto|]. constructor; assumption.
Qed.

Lemma distinct_keys_perm (l keys keys' : list cell) :
  Permutation keys keys' -> distinct_keys l keys -> distinct_keys l keys'.
Proof.
  intros Hp [Hna Hfrom Hdiff Hcov]. constructor.
  - eapply Permutation_Forall; eassumption.
  - intros k Hk. apply Hfrom. eapply Permutation_in; [symmetry|]; eassumption.
  - apply (ForallOrdPairs_perm (R := fun a b => key_eqb a b = false)) with keys;
      auto.
    intros a b. now rewrite key_eqb_sym.
  - intros c Hc Hn. destruct (Hcov c Hc Hn) as (k & Hk & E).
    exists k. split; [eapply Permutation_in; eassumption | exact E].
Qed.

(** ** [generate]: the summary *)

Lemma agg_column_length f ks keys vals cs :
  agg_column f ks keys vals = inl cs -> List.length cs = List.length ks.
Proof.
  revert cs. induction ks as [|k ks IH]; simpl; intros cs H.
  - now inversion H.
  - destruct (f (members k keys vals)); [|discriminate].
    destruct (agg_column f ks keys vals) as [cs'|]; [|discriminate].
    inversion H; subst. simpl. f_equal. now apply IH.
Qed.

Lemma zip3_keys (a b c : list cell) :
  List.length b = List.length a -> List.length c = List.length a ->
  map (hd NaN) (zip3 a b c) = a.
Proof.
  revert b c. induction a as [|x a IH]; intros [|y b] [|z c] Hb Hc;
    simpl in *; try discriminate; [reflexivity|].
  f_equal. apply IH; congruence.
Qed.

(** When [do_generate] shows a summary, the table passed the two checks
    and the summary is the renamed result of the grouped aggregation. *)
Lemma generate_shows fs self output_file summary :
  hd_error (trace (do_generate fs self output_file)) = Some (info_table summary) ->
  empty (data self) = false
  /\ forallb (has_column (data self)) necessary_columns = true
  /\ exists grouped,
       groupby_agg (data self) "category" "quantity" "unit_price" = inl grouped
       /\ summary = rename report_columns grouped.
Proof.
  unfold do_generate.
  destruct (empty (data self)); [discriminate|].
  destruct (forallb (has_column (data self)) necessary_columns);
    [|discriminate]. simpl.
  destruct (groupby_agg (data self) "category" "quantity" "unit_price")
    as [grouped|e]; [|discriminate].
  intros H. repeat split. exists grouped. split; [reflexivity|].
  destruct (to_csv fs _ _); simpl in H; inversion H; reflexivity.
Qed.

(** The keys of the summary rows are the group keys of the category
    column. *)
Lemma groupby_agg_keys df grouped :
  groupby_agg df "category" "quantity" "unit_price" = inl grouped ->
  map (hd NaN) (rows grouped) = group_keys (getitem df "category").
Proof.
  unfold groupby_agg, agg_series.
  destruct (agg_column _ _ _ _) as [sums|] eqn:Es; [|discriminate].
  destruct (agg_column (agg_mean _) _ _ _) as [means|] eqn:Em; [|discriminate].
  intros H. inversion H; subst; simpl.
  apply zip3_keys; eapply agg_column_length; eassumption.
Qed.

(** C3, as stated, fails: with category [B] before category [A] in the
    table, the summary has [A] first: the order of first appearance is not
    kept. *)
Lemma generate_sorts_categories :
  map (fun r => cell_at (columns stock_BA) r "category") (rows stock_BA)
    = [Str "B"; Str "A"]
  /\ hd_error (trace (do_generate disk (mkManager stock_BA) "report.csv"))
     = Some (info_table
               (mkDataFrame ["category"; "Total Quantity"; "Average Price"]
                  [ [Str "A"; Int 10; fl 5]; [Str "B"; Int 20; fl 10] ]))
  /\ ~ (forall summary,
          hd_error (trace (do_generate disk (mkManager stock_BA) "report.csv"))
            = Some (info_table summary) ->
          map (hd NaN) (rows summary)
            = uniques (values (getitem stock_BA "category"))).
Proof.
  split; [reflexivity|]. split; [reflexivity|].
  intros H. specialize (H _ eq_refl). discriminate H.
Qed.

(** C3, amended: the rows of the summary come in ascending order of the
    category (numbers by value before text, text by code points), one row
    for each distinct category that is not missing. *)
Theorem generate_order fs self output_file summary :
  hd_error (trace (do_generate fs self output_file)) = Some (info_table summary) ->
  let keys := map (hd NaN) (rows summary) in
  let categories := values (getitem (data self) "category") in
  Sorted key_le keys
  /\ Permutation keys (uniques categories)
  /\ distinct_keys categories keys.
Proof.
  intros H keys categories.
  apply generate_shows in H as (_ & _ & grouped & Hg & ->).
  apply groupby_agg_keys in Hg.
  assert (Hk : keys = sort_keys (uniques categories)) by exact Hg.
  rewrite Hk. split; [apply sort_keys_sorted|].
  split; [apply sort_keys_perm|].
  apply distinct_keys_perm with (uniques categories).
  - symmetry. apply sort_keys_perm.
  - apply uniques_distinct.
Qed.

Lemma generate_order_witness :
  Sorted key_le [Str "A"; Str "B"]
  /\ Permutation [Str "A"; Str "B"] [Str "B"; Str "A"].
Proof.
  destruct (@generate_order disk (mkManager stock_BA) "report.csv"
              (mkDataFrame ["category"; "Total Quantity"; "Average Price"]
                 [ [Str "A"; Int 10; fl 5]; [Str "B"; Int 20; fl 10] ])
              eq_refl) as (Hs & Hp & _).
  split; [exact Hs | exact Hp].
Defined.

(** ** [generate]: rows without a category *)

Lemma uniques_dropna (l acc : list cell) :
  fold_left add_key (filter notna l) acc = fold_left add_key l acc.
Proof.
  revert acc. induction l as [|c l IH]; intros acc; simpl; [reflexivity|].
  unfold notna at 1. destruct (isna c) eqn:E; simpl.
  - rewrite IH.
    replace (add_key acc c) with acc by (unfold add_key; now rewrite E).
    reflexivity.
  - apply IH.
Qed.

Lemma dropna_keys (keys : list cell) :
  map snd (filter (fun kv => negb (isna (fst kv))) (combine keys keys))
  = filter notna keys.
Proof.
  induction keys as [|k keys IH]; simpl; [reflexivity|].
  unfold notna at 1. destruct (isna k); simpl; now rewrite IH.
Qed.

(** The members of a group are the same once the rows with a missing key
    are dropped. *)
Lemma members_dropna (k : cell) (keys vals : list cell) :
  members k (filter notna keys)
          (map snd (filter (fun kv => negb (isna (fst kv))) (combine keys vals)))
  = members k keys vals.
Proof.
  unfold members. revert vals.
  induction keys as [|x keys IH]; intros [|v vals]; simpl; try reflexivity.
  - destruct (notna x), (filter notna keys); reflexivity.
  - unfold notna at 1. destruct (isna x) eqn:E; simpl.
    + rewrite IH. destruct (key_eqb x k) eqn:Ek; [|reflexivity].
      apply key_eqb_notna in Ek. congruence.
    + destruct (key_eqb x k); simpl; now rewrite IH.
Qed.

Lemma agg_column_dropna f ks keys vals :
  agg_column f ks (filter notna keys)
    (map snd (filter (fun kv => negb (isna (fst kv))) (combine keys vals)))
  = agg_column f ks keys vals.
Proof.
  induction ks as [|k ks IH]; simpl; [reflexivity|].
  now rewrite members_dropna, IH.
Qed.

(** The grouped aggregation does not see the rows whose key is missing. *)
Lemma agg_series_dropna key_col sum_col mean_col keys q p :
  agg_series key_col sum_col mean_col
    (dropna_by (values keys) keys) (dropna_by (values keys) q)
    (dropna_by (values keys) p)
  = agg_series key_col sum_col mean_col keys q p.
Proof.
  unfold agg_series, dropna_by, group_keys, uniques. simpl.
  rewrite dropna_keys, uniques_dropna, !agg_column_dropna. reflexivity.
Qed.

Lemma group_keys_notna (keys : Series) :
  Forall (fun k => isna k = false) (group_keys keys).
Proof.
  unfold group_keys.
  eapply Permutation_Forall; [symmetry; apply sort_keys_perm|].
  apply uniques_distinct.
Qed.

(** C9: a row whose category is missing has no part in the summary: no
    summary row has the missing value as its category, and the summary is
    the one computed from the three columns with such rows taken out. *)
Theorem generate_skips_missing_category fs self output_file summary :
  hd_error (trace (do_generate fs self output_file)) = Some (info_table summary) ->
  let category := getitem (data self) "category" in
  let quantity := getitem (data self) "quantity" in
  let unit_price := getitem (data self) "unit_price" in
  Forall (fun r => isna (hd NaN r) = false) (rows summary)
  /\ exists grouped,
       summary = rename report_columns grouped
       /\ agg_series "category" "quantity" "unit_price"
            (dropna_by (values category) category)
            (dropna_by (values category) quantity)
            (dropna_by (values category) unit_price)
          = inl grouped.
Proof.
  intros H category quantity unit_price.
  apply generate_shows in H as (_ & _ & grouped & Hg & ->).
  split.
  - apply groupby_agg_keys in Hg as Hk. simpl.
    apply (Forall_map (hd NaN) (fun k => isna k = false)).
    rewrite Hk. apply group_keys_notna.
  - exists grouped. split; [reflexivity|].
    rewrite agg_series_dropna. exact Hg.
Qed.

Lemma generate_skips_missing_category_witness :
  Forall (fun r => isna (hd NaN r) = false) [ [Str "A"; Int 40; fl 10] ].
Proof.
  destruct (@generate_skips_missing_category disk (mkManager stock_with_gap)
              "report.csv"
              (mkDataFrame ["category"; "Total Quantity"; "Average Price"]
                 [ [Str "A"; Int 40; fl 10] ])
              eq_refl) as [H _].
  exact H.
Defined.

(** ** Patterns without special characters *)

Module ReFacts.
Import Re Literal.

Lemma parse_ordinary_char (c : ascii) (l : list ascii) (st : state) :
  special c = false -> parse (c :: l) st = parse l (push (Chr c) Atom st).
Proof.
  unfold special. simpl. intros H.
  repeat (apply orb_false_elim in H; destruct H as [?E H]).
  rewrite E, E0, E1, E2, E3, E4, E5, E6, E8, E10, E11, E12.
  reflexivity.
Qed.

Lemma parse_ordinary (l : list ascii) (st : state) :
  ordinary l = true ->
  parse l st
  = finish (State (stack st) (branches st)
              (rev (map (fun c => (Chr c, Atom)) l) ++ current st)).
Proof.
  revert st. induction l as [|c l IH]; intros st H; simpl in H.
  - destruct st; reflexivity.
  - apply andb_true_iff in H as [Hc Hl]. apply negb_true_iff in Hc.
    rewrite parse_ordinary_char by exact Hc. rewrite IH by exact Hl.
    simpl. rewrite <- app_assoc. reflexivity.
Qed.

Lemma compile_ordinary (pat : string) :
  ordinary (Py.chars pat) = true ->
  compile pat = Pattern (literal (Py.chars pat)).
Proof.
  intros H. unfold compile. rewrite parse_ordinary by exact H.
  unfold finish, close, seq_of. simpl.
  rewrite app_nil_r, rev_involutive. f_equal.
  induction (Py.chars pat) as [|c l IH]; simpl; [reflexivity|].
  simpl in H. apply andb_true_iff in H as [_ Hl]. now rewrite IH.
Qed.

Lemma matches_Seq fuel a b bos s k :
  matches fuel (Seq a b) bos s k
  = matches fuel a bos s (fun bos' s' => matches fuel b bos' s' k).
Proof. destruct fuel; reflexivity. Qed.

Lemma matches_Chr fuel c bos s k :
  matches fuel (Chr c) bos s k
  = match s with
    | x :: s' => Ascii.eqb (Py.lower x) (Py.lower c) && k false s'
    | [] => false
    end.
Proof. destruct fuel; reflexivity. Qed.

Lemma matches_Eps fuel bos s k : matches fuel Eps bos s k = k bos s.
Proof. destruct fuel; reflexivity. Qed.

Lemma matches_literal fuel l bos s :
  matches fuel (literal l) bos s (fun _ _ => true) = ci_prefixb l s.
Proof.
  revert bos s. induction l as [|c l IH]; intros bos s; simpl.
  - apply matches_Eps.
  - rewrite matches_Seq, matches_Chr. destruct s as [|x s]; [reflexivity|].
    now rewrite IH.
Qed.

Lemma ci_prefixb_spec (l s : list ascii) :
  ci_prefixb l s = true
  <-> exists post, map Py.lower s = map Py.lower l ++ post.
Proof.
  revert s. induction l as [|c l IH]; intros s; simpl.
  - split; eauto.
  - destruct s as [|x s]; simpl.
    + split; [discriminate | intros [post H]; discriminate].
    + rewrite andb_true_iff, IH, Ascii.eqb_eq. split.
      * intros [-> [post ->]]. eauto.
      * intros [post H]. injection H as -> ->. eauto.
Qed.

Lemma search_from_literal (l s : list ascii) (bos : bool) :
  search_from (literal l) bos s = true
  <-> exists pre post, map Py.lower s = pre ++ map Py.lower l ++ post.
Proof.
  revert bos. induction s as [|x s IH]; intros bos.
  - cbn [search_from]. rewrite orb_false_r, matches_literal, ci_prefixb_spec.
    split.
    + intros [post H]. exists [], post. exact H.
    + intros (pre & post & H). destruct pre; [eauto|discriminate].
  - cbn [search_from]. rewrite orb_true_iff, matches_literal, ci_prefixb_spec, IH.
    split.
    + intros [[post H]|(pre & post & H)].
      * exists [], post. exact H.
      * exists (Py.lower x :: pre), post. simpl. now rewrite H.
    + intros (pre & post & H). destruct pre as [|p pre].
      * left. eauto.
      * right. simpl in H. injection H as _ H. eauto.
Qed.

End ReFacts.

(** ** [query]: the rows found *)

Lemma lstrip_blank (l : list ascii) :
  forallb Py.isspace l = true -> Py.lstrip_chars l = [].
Proof.
  induction l as [|c l IH]; simpl; [reflexivity|].
  intros H. apply andb_true_iff in H as [Hc Hl]. now rewrite Hc, IH.
Qed.

(** Text made of whitespace strips to the empty text. *)
Lemma strip_blank (s : string) :
  forallb Py.isspace (Py.chars s) = true -> Py.strip s = "".
Proof.
  intros H. unfold Py.strip. rewrite (lstrip_blank _ H). reflexivity.
Qed.

Lemma count_blank (s : string) : blank s = true -> Py.count "=" s = 0.
Proof.
  unfold blank. induction s as [|c s IH]; simpl; [reflexivity|].
  intros H. apply andb_true_iff in H as [Hc Hs].
  destruct (Ascii.eqb_spec c "=") as [->|_]; [discriminate | now apply IH].
Qed.

Lemma getitem_values (df : DataFrame) (name : string) :
  values (getitem df name)
  = map (fun r => stored (sdtype (getitem df name))
                         (cell_at (columns df) r name)) (rows df).
Proof.
  unfold getitem. simpl. now rewrite map_map.
Qed.

Lemma select_map (h : row -> bool) (rs : list row) :
  select rs (map h rs) = filter h rs.
Proof.
  induction rs as [|r rs IH]; simpl; [reflexivity|].
  destruct (h r); now rewrite IH.
Qed.

Lemma astype_str_texts (df : DataFrame) (column : string) :
  astype_str (getitem df column) = map (cell_text df column) (rows df).
Proof.
  unfold astype_str, cell_text. now rewrite getitem_values, map_map.
Qed.

Lemma query_runs re self condition column value mask :
  empty (data self) = false ->
  parse_condition condition = Some (column, value) ->
  has_column (data self) column = true ->
  str_contains re (astype_str (getitem (data self) column)) value = inl mask ->
  do_query re self condition
  = mkOutcome self [found (getitem_mask (data self) mask)] Returned.
Proof.
  intros He Hp Hc Hm. rewrite (query_cases re self condition He).
  now rewrite Hp, Hc, Hm.
Qed.

Lemma query_hits re self condition column value pattern :
  empty (data self) = false ->
  parse_condition condition = Some (column, value) ->
  has_column (data self) column = true ->
  Re.compile value = Re.Pattern pattern ->
  let hits := filter (fun r => Re.search pattern (cell_text (data self) column r))
                     (rows (data self)) in
  do_query re self condition
  = mkOutcome self
      [match hits with
       | [] => info_output "No matching results."
       | _ => info_table (mkDataFrame (columns (data self)) hits)
       end] Returned.
Proof.
  intros He Hp Hc Hpat hits.
  rewrite (@query_runs re self condition column value
             (map (Re.search pattern) (astype_str (getitem (data self) column))));
    auto.
  - unfold found, getitem_mask.
    rewrite astype_str_texts, map_map, select_map. fold hits.
    unfold empty in *. simpl.
    destruct (columns (data self)); [discriminate|].
    destruct hits; reflexivity.
  - unfold str_contains. now rewrite Hpat.
Qed.

(** C5, as stated, fails: the value [.] finds every row of the test table,
    although no category contains a dot. *)
Lemma query_dot_finds_all :
  parse_condition "category=." = Some ("category", ".")
  /\ astype_str (getitem stock "category") = ["A"; "B"; "A"]
  /\ (forall re,
        do_query re (mkManager stock) "category=."
        = mkOutcome (mkManager stock) [info_table stock] Returned)
  /\ ~ icontains "." "A" /\ ~ icontains "." "B".
Proof.
  split; [reflexivity|]. split; [reflexivity|]. split; [reflexivity|].
  split; intros (pre & post & H); simpl in H;
    destruct pre as [|p pre]; try discriminate H;
    destruct pre; discriminate H.
Qed.

(** C5, amended: on a table that is not empty, for a condition [a=b] in
    which [a], trimmed, is a column of the table and [b], trimmed, has no
    special character of regular expressions, [do_query] shows exactly the
    rows whose cell in that column, as text, contains the trimmed [b] up
    to case, in the order of the table; it prints "No matching results."
    when there is none. *)
Theorem query_literal re self a b :
  empty (data self) = false ->
  Py.count "=" a = 0 -> Py.count "=" b = 0 ->
  In (Py.strip a) (columns (data self)) ->
  Literal.ordinary (Py.chars (Py.strip b)) = true ->
  exists keep : row -> bool,
    (forall r, keep r = true
               <-> icontains (Py.strip b) (cell_text (data self) (Py.strip a) r))
    /\ let hits := filter keep (rows (data self)) in
       do_query re self (a ++ String "=" b)
       = mkOutcome self
           [match hits with
            | [] => info_output "No matching results."
            | _ => info_table (mkDataFrame (columns (data self)) hits)
            end] Returned.
Proof.
  intros He Ha Hb Hc Hord.
  exists (fun r => Re.search (Literal.literal (Py.chars (Py.strip b)))
                             (cell_text (data self) (Py.strip a) r)).
  split.
  - intros r. unfold Re.search, icontains. apply ReFacts.search_from_literal.
  - apply query_hits with (Py.strip b).
    + exact He.
    + now apply parse_condition_split.
    + now apply existsb_eqb_In.
    + now apply ReFacts.compile_ordinary.
Qed.

Lemma query_literal_witness :
  do_query digits_engine (mkManager stock) "category = a "
  = mkOutcome (mkManager stock)
      [info_table (mkDataFrame (columns stock)
                     [ [Str "A"; Int 10; fl 5]; [Str "A"; Int 30; fl 15] ])]
      Returned.
Proof.
  destruct (@query_literal digits_engine (mkManager stock) "category " " a ")
    as (keep & Hkeep & Hq).
  - reflexivity.
  - reflexivity.
  - reflexivity.
  - simpl. auto.
  - reflexivity.
  - cbv zeta in Hq. change ("category " ++ String "=" " a ")%string
      with "category = a " in Hq.
    rewrite Hq. simpl.
    assert (HA : keep [Str "A"; Int 10; fl 5] = true).
    { apply Hkeep. exists [], []. reflexivity. }
    assert (HA' : keep [Str "A"; Int 30; fl 15] = true).
    { apply Hkeep. exists [], []. reflexivity. }
    assert (HB : keep [Str "B"; Int 20; fl 10] = false).
    { destruct (keep [Str "B"; Int 20; fl 10]) eqn:E; [|reflexivity].
      apply Hkeep in E. destruct E as (pre & post & E).
      vm_compute in E. destruct pre as [|p pre]; [discriminate E|].
      destruct pre; discriminate E. }
    now rewrite HA, HB, HA'.
Defined.

(** ** [query]: the empty value *)

Lemma search_empty_pattern (text : string) : Re.search Re.Eps text = true.
Proof.
  unfold Re.search. destruct (Py.chars text); reflexivity.
Qed.

Lemma query_all_rows re self condition column :
  empty (data self) = false ->
  parse_condition condition = Some (column, "") ->
  has_column (data self) column = true ->
  do_query re self condition = mkOutcome self [info_table (data self)] Returned.
Proof.
  intros He Hp Hc.
  set (texts := astype_str (getitem (data self) column)).
  rewrite (@query_runs re self condition column "" (map (Re.search Re.Eps) texts));
    auto.
  unfold found, getitem_mask. rewrite select_all.
  - destruct self as [[cols rs]]. simpl in *. now rewrite He.
  - subst texts. unfold astype_str, getitem. simpl.
    now rewrite !length_map.
  - apply Forall_forall. intros b Hb. apply in_map_iff in Hb as (t & <- & _).
    apply search_empty_pattern.
Qed.

(** C10, as stated, fails: a label can start with a blank (as in the
    header [item, qty]), and [do_query] trims the column it is given: the
    condition made of that label and [=] names the trimmed label, which
    is not a column of the table. *)
Lemma query_padded_label_not_found :
  In " qty" (columns padded)
  /\ empty padded = false
  /\ forall re,
       do_query re (mkManager padded) (" qty" ++ "=")
       = mkOutcome (mkManager padded) [column_not_found "qty"] Returned.
Proof.
  split; [simpl; auto|]. split; reflexivity.
Qed.

(** C10, amended: on a table that is not empty, a condition [a=b] in
    which [a], trimmed, is a column of the table and [b] is empty or blank
    is well-formed, and [do_query] shows every row of the table; [column=]
    is such a condition for a column of the table whose name has no [=]
    and no whitespace at either end. *)
Theorem query_empty_value re self :
  empty (data self) = false ->
  (forall a b,
     Py.count "=" a = 0 -> blank b = true ->
     In (Py.strip a) (columns (data self)) ->
     do_query re self (a ++ String "=" b)
     = mkOutcome self [info_table (data self)] Returned)
  /\ (forall column,
        In column (columns (data self)) ->
        Py.count "=" column = 0 -> Py.strip column = column ->
        do_query re self (column ++ "=")
        = mkOutcome self [info_table (data self)] Returned).
Proof.
  intros He.
  assert (H : forall a b,
             Py.count "=" a = 0 -> blank b = true ->
             In (Py.strip a) (columns (data self)) ->
             do_query re self (a ++ String "=" b)
             = mkOutcome self [info_table (data self)] Returned).
  { intros a b Ha Hb Hc. apply query_all_rows with (Py.strip a).
    - exact He.
    - rewrite parse_condition_split by (auto using count_blank).
      now rewrite (strip_blank b Hb).
    - now apply existsb_eqb_In. }
  split; [exact H|].
  intros column Hc Heq Hstrip. apply (H column ""); auto.
  now rewrite Hstrip.
Qed.

Lemma query_empty_value_witness :
  do_query digits_engine (mkManager stock) "category="
  = mkOutcome (mkManager stock) [info_table stock] Returned
  /\ do_query digits_engine (mkManager stock) " quantity = "
     = mkOutcome (mkManager stock) [info_table stock] Returned.
Proof.
  destruct (@query_empty_value digits_engine (mkManager stock) eq_refl)
    as [Hgen Hcol].
  split.
  - apply (Hcol "category"); [simpl; auto | reflexivity | reflexivity].
  - apply (Hgen " quantity " " "); [reflexivity | reflexivity | simpl; auto].
Defined.

(** ** Errors and the session *)

Lemma load_files_messages fs directory files :
  Forall file_message (snd (fst (load_files fs directory files))).
Proof.
  induction files as [|file files IH]; simpl; [constructor|].
  destruct (read_csv fs (Py.path_join directory file)) as [df|e|e|e];
    try destruct (load_files fs directory files) as [[frames msgs] ex];
    simpl in *; constructor; simpl; eauto.
Qed.

Lemma file_message_not_load_error m :
  In m load_errors -> ~ file_message (error_output m).
Proof.
  intros [<-|[<-|[<-|[]]]] [rest H]; discriminate H.
Qed.

(** C8, as stated, fails: when the report cannot be written, the
    exception of the write leaves [do_generate] (and an invalid pattern
    leaves [do_query] with [re.error]): the command does not return to its
    caller. *)
Lemma generate_write_failure_escapes :
  do_generate readonly_disk (mkManager stock) "report.csv"
  = mkOutcome (mkManager stock)
      [info_table
         (mkDataFrame ["category"; "Total Quantity"; "Average Price"]
            [ [Str "A"; Int 40; fl 10]; [Str "B"; Int 20; fl 10] ])]
      (Raised Py.OSError)
  /\ ended (do_generate readonly_disk (mkManager stock) "report.csv") <> Returned
  /\ (forall re,
        ended (do_query re (mkManager stock) "category=(") = Raised Py.re_error).
Proof.
  split; [reflexivity|]. split; [discriminate | reflexivity].
Qed.

(** C8, amended: no command changes the table when it fails: [do_query],
    [do_generate] and [do_show_top] never change it, and [do_add_data]
    changes it only when it merges. The errors the commands report
    themselves end with a normal return. A write of the report that fails
    is not caught: once the summary is shown, [do_generate] ends as the
    write does, by the exception of the write when there is one. *)
Theorem failures_are_local
  (fs : FileSystem) (re : Re.engine) (self : manager) (arg : string) :
  self' (do_query re self arg) = self
  /\ self' (do_show_top self arg) = self
  /\ self' (do_generate fs self arg) = self
  /\ (self' (do_add_data fs self arg) = self
      \/ exists frames msgs,
           do_add_data fs self arg =
           mkOutcome (mkManager (concat frames))
             (msgs ++ [success_output "All files have been merged."])
             Returned)
  /\ (forall m, In (error_output m) (trace (do_query re self arg)) ->
                ended (do_query re self arg) = Returned)
  /\ (forall m, In (error_output m) (trace (do_generate fs self arg)) ->
                ended (do_generate fs self arg) = Returned)
  /\ ended (do_show_top self arg) = Returned
  /\ (forall m, In m load_errors ->
                In (error_output m) (trace (do_add_data fs self arg)) ->
                ended (do_add_data fs self arg) = Returned)
  /\ (forall summary,
        hd_error (trace (do_generate fs self arg)) = Some (info_table summary) ->
        ended (do_generate fs self arg)
        = match to_csv fs (report_path arg) summary with
          | WriteFails e _ => Raised e
          | Written => Returned
          end).
Proof.
  assert (Hq : self' (do_query re self arg) = self
               /\ forall m, In (error_output m) (trace (do_query re self arg)) ->
                            ended (do_query re self arg) = Returned).
  { destruct (empty (data self)) eqn:He.
    - unfold do_query. rewrite He. split; reflexivity.
    - rewrite (query_cases re self arg He).
      destruct (parse_condition arg) as [[c v]|]; [|split; reflexivity].
      destruct (has_column (data self) c); [|split; reflexivity].
      destruct (str_contains _ _ v) as [mask|[]]; split; try reflexivity;
        intros m []. }
  split; [apply Hq|split; [|split; [|split; [|split; [|split; [|split; [|split]]]]]]].
  - unfold do_show_top. destruct (empty (data self)); [reflexivity|].
    destruct (if String.eqb arg "" then _ else _); reflexivity.
  - unfold do_generate. destruct (empty (data self)); [reflexivity|].
    destruct (forallb _ _); [|reflexivity]. simpl.
    destruct (groupby_agg _ _ _ _); [|reflexivity].
    destruct (to_csv fs _ _); reflexivity.
  - apply add_data_keeps_or_merges.
  - apply Hq.
  - unfold do_generate. destruct (empty (data self)); [reflexivity|].
    destruct (forallb _ _); [|reflexivity]. simpl.
    destruct (groupby_agg _ _ _ _); [|intros m []].
    destruct (to_csv fs _ _) as [|e [|]]; [reflexivity| |];
      simpl; intros m H; repeat destruct H as [H|H]; try discriminate H;
      contradiction.
  - unfold do_show_top. destruct (empty (data self)); [reflexivity|].
    destruct (if String.eqb arg "" then _ else _); reflexivity.
  - intros m Hm. unfold do_add_data.
    destruct (isdir fs (Py.strip arg)); [|reflexivity]. simpl.
    destruct (csv_files fs (Py.strip arg)) as [|f files]; [reflexivity|].
    pose proof (load_files_messages fs (Py.strip arg) (f :: files)) as Hmsgs.
    destruct (load_files fs (Py.strip arg) (f :: files))
      as [[[|df frames] msgs] [e|]]; try reflexivity; simpl in *;
      intros Hin; exfalso;
      apply (file_message_not_load_error Hm);
      rewrite Forall_forall in Hmsgs; exact (Hmsgs _ Hin).
  - unfold do_generate, report_path. destruct (empty (data self)); [discriminate|].
    destruct (forallb _ _); [|discriminate]. simpl.
    destruct (groupby_agg _ _ _ _) as [grouped|]; [|discriminate].
    intros summary H.
    assert (Hs : summary = rename [("quantity", "Total Quantity");
                                   ("unit_price", "Average Price")] grouped).
    { destruct (to_csv fs _ _); simpl in H; inversion H; reflexivity. }
    subst summary. destruct (to_csv fs _ _); reflexivity.
Qed.

Lemma failures_are_local_witness :
  self' (do_generate readonly_disk (mkManager stock) "report.csv")
    = mkManager stock
  /\ ended (do_generate readonly_disk (mkManager stock) "report.csv")
     = Raised Py.OSError
  /\ ended (do_add_data readonly_disk (mkManager stock) "nowhere") = Returned.
Proof.
  destruct (failures_are_local readonly_disk digits_engine (mkManager stock)
              "report.csv")
    as (_ & _ & Hkeep & _ & _ & _ & _ & _ & Hwrite).
  destruct (failures_are_local readonly_disk digits_engine (mkManager stock)
              "nowhere")
    as (_ & _ & _ & _ & _ & _ & _ & Hload & _).
  split; [exact Hkeep|]. split.
  - exact (Hwrite
             (mkDataFrame ["category"; "Total Quantity"; "Average Price"]
                [ [Str "A"; Int 40; fl 10]; [Str "B"; Int 20; fl 10] ])
             eq_refl).
  - apply (Hload "Directory not found."); simpl; auto.
Defined.

(* ================================================================= *)
(** * Further properties *)

(** ** [add_data]: messages, aborted loads, tables of one schema *)

Lemma load_files_report fs directory files :
  reads_cleanly fs directory files ->
  load_files fs directory files
  = (frames_of fs directory files,
     flat_map (file_report fs directory) files, None).
Proof.
  induction 1 as [|file files Hfile _ IH]; simpl; [reflexivity|].
  rewrite IH. unfold file_report.
  destruct (read_csv fs (Py.path_join directory file)) as [df|e|e|e];
    try reflexivity.
  exfalso. exact (Hfile e eq_refl).
Qed.

(** X1: when the path is a directory with [.csv] files and no read raises
    an exception that [do_add_data] does not catch, the messages are one
    per [.csv] file, in the order of enumeration (a success for a file
    that parses, an error naming the file otherwise), followed by the
    verdict; the command returns. *)
Theorem add_data_reports_each_file
  (fs : FileSystem) (self : manager) (directory : string) :
  let d := Py.strip directory in
  isdir fs d = true ->
  csv_files fs d <> [] ->
  reads_cleanly fs d (csv_files fs d) ->
  trace (do_add_data fs self directory)
  = flat_map (file_report fs d) (csv_files fs d)
    ++ [verdict (frames_of fs d (csv_files fs d))]
  /\ ended (do_add_data fs self directory) = Returned.
Proof.
  intros d Hdir Hfiles Hclean. unfold do_add_data. fold d.
  rewrite Hdir. simpl. rewrite (load_files_report Hclean).
  destruct (csv_files fs d) as [|file files] eqn:E; [contradiction|].
  destruct (frames_of fs d (file :: files)); split; reflexivity.
Qed.

Lemma add_data_reports_each_file_witness :
  trace (do_add_data disk init "inventory")
  = [success_output "Successfully loaded: a.csv";
     error_output "Error loading empty.csv: No columns to parse from file";
     success_output "Successfully loaded: b.csv";
     success_output "All files have been merged."].
Proof.
  destruct (@add_data_reports_each_file disk init "inventory") as [H _].
  - reflexivity.
  - discriminate.
  - repeat constructor; intros e; vm_compute; discriminate.
  - rewrite H. reflexivity.
Defined.

Lemma load_files_raises fs directory before file after e :
  reads_cleanly fs directory before ->
  read_csv fs (Py.path_join directory file) = ReadRaises e ->
  exists frames,
    load_files fs directory (before ++ file :: after)
    = (frames, flat_map (file_report fs directory) before, Some e).
Proof.
  intros Hclean Hraise.
  induction Hclean as [|f before Hf _ [frames IH]]; simpl.
  - rewrite Hraise. eauto.
  - rewrite IH. unfold file_report.
    destruct (read_csv fs (Py.path_join directory f)) as [df|x|x|x];
      simpl; eauto.
    exfalso. exact (Hf x eq_refl).
Qed.

(** X2: when reading a [.csv] file raises an exception other than the two
    that are caught, the load stops there: the exception leaves
    [do_add_data], the files after it are not read, the messages are those
    of the files before it, and the table is the one from before the
    command, whatever was read so far. *)
Theorem add_data_aborts_on_other_exception
  (fs : FileSystem) (self : manager) (directory : string)
  (before after : list string) (file : string) (e : Py.exn) :
  let d := Py.strip directory in
  isdir fs d = true ->
  csv_files fs d = before ++ file :: after ->
  reads_cleanly fs d before ->
  read_csv fs (Py.path_join d file) = ReadRaises e ->
  do_add_data fs self directory
  = mkOutcome self (flat_map (file_report fs d) before) (Raised e).
Proof.
  intros d Hdir Hfiles Hclean Hraise. unfold do_add_data. fold d.
  rewrite Hdir, Hfiles. simpl.
  destruct (@load_files_raises fs d before file after e Hclean Hraise)
    as [frames ->].
  destruct (before ++ file :: after) eqn:E;
    [destruct before; discriminate|].
  destruct frames; reflexivity.
Qed.

Lemma add_data_aborts_on_other_exception_witness :
  do_add_data locked_disk (mkManager extra) "inventory"
  = mkOutcome (mkManager extra)
      [success_output "Successfully loaded: a.csv"]
      (Raised (Py.OtherError "PermissionError")).
Proof.
  apply (@add_data_aborts_on_other_exception locked_disk (mkManager extra)
           "inventory" ["a.csv"] ["b.csv"] "locked.csv"
           (Py.OtherError "PermissionError")).
  - reflexivity.
  - reflexivity.
  - repeat constructor; intros e; vm_compute; discriminate.
  - reflexivity.
Defined.

(** A load that reads all its files and parses one at least ends with the
    concatenation of the frames parsed. *)
Lemma add_data_merges fs self directory :
  let d := Py.strip directory in
  let frames := frames_of fs d (csv_files fs d) in
  isdir fs d = true ->
  reads_cleanly fs d (csv_files fs d) ->
  frames <> [] ->
  do_add_data fs self directory
  = mkOutcome (mkManager (concat frames))
      (flat_map (file_report fs d) (csv_files fs d)
       ++ [success_output "All files have been merged."])
      Returned.
Proof.
  intros d frames Hdir Hclean Hsome. unfold do_add_data. fold d.
  rewrite Hdir. simpl. rewrite (load_files_report Hclean). fold frames.
  destruct (csv_files fs d) as [|file files] eqn:E;
    [exfalso; apply Hsome; reflexivity|].
  destruct frames; [contradiction | reflexivity].
Qed.

Lemma add_labels_known (l acc : list string) :
  incl l acc -> fold_left add_label l acc = acc.
Proof.
  induction l as [|c l IH]; intros H; simpl; [reflexivity|].
  unfold add_label at 2.
  assert (Hc : existsb (String.eqb c) acc = true)
    by (apply existsb_eqb_In, H; now left).
  rewrite Hc. apply IH. intros x Hx. apply H. now right.
Qed.

Lemma add_labels_fresh (l acc : list string) :
  NoDup (acc ++ l) -> fold_left add_label l acc = acc ++ l.
Proof.
  revert acc. induction l as [|c l IH]; intros acc H; simpl.
  - now rewrite app_nil_r.
  - unfold add_label at 2.
    assert (Hc : existsb (String.eqb c) acc = false).
    { destruct (existsb (String.eqb c) acc) eqn:E; [|reflexivity].
      apply existsb_eqb_In in E. apply NoDup_remove_2 in H.
      exfalso. apply H. apply in_or_app. now left. }
    rewrite Hc.
    replace (acc ++ c :: l) with ((acc ++ [c]) ++ l) in *
      by (rewrite <- app_assoc; reflexivity).
    now apply IH.
Qed.

(** The labels of frames that all have the labels [cols]. *)
Lemma union_columns_same (frames : list DataFrame) (cols : list string) :
  NoDup cols -> frames <> [] ->
  Forall (fun f => columns f = cols) frames ->
  union_columns frames = cols.
Proof.
  intros Hnd Hne Hall. unfold union_columns.
  destruct frames as [|f frames]; [contradiction|].
  inversion Hall as [|? ? Hf Hrest]; subst. simpl.
  rewrite add_labels_fresh by exact Hnd. simpl.
  clear Hne Hall. induction frames as [|g frames IH]; simpl; [reflexivity|].
  inversion Hrest as [|? ? Hg Hrest']; subst.
  rewrite Hg, add_labels_known by apply incl_refl. now apply IH.
Qed.

(** A row laid out on its own labels is unchanged. *)
Lemma layout_same (cols : list string) (r : row) :
  NoDup cols -> List.length r = List.length cols -> map (cell_at cols r) cols = r.
Proof.
  revert r.
  induction cols as [|c cols IH]; intros [|x r] Hnd Hlen;
    simpl in *; try discriminate; [reflexivity|].
  rewrite String.eqb_refl. f_equal.
  inversion Hnd as [|? ? Hc Hnd']; subst.
  transitivity (map (cell_at cols r) cols); [|apply IH; congruence].
  apply map_ext_in. intros c' Hc'.
  destruct (String.eqb_spec c' c) as [->|_]; [contradiction | reflexivity].
Qed.

Lemma flat_map_ext_in {A B : Type} (g h : A -> list B) (l : list A) :
  (forall x, In x l -> g x = h x) -> flat_map g l = flat_map h l.
Proof.
  induction l as [|x l IH]; intros H; simpl; [reflexivity|].
  rewrite (H x) by now left. f_equal. apply IH. intros y Hy. apply H. now right.
Qed.

(** Frames with the same labels and the same dtypes are put one after the
    other as they are. *)
Lemma concat_same_schema (frames : list DataFrame) (cols : list string) :
  frames <> [] -> NoDup cols ->
  Forall (fun f => columns f = cols /\ well_formed f /\ canonical f) frames ->
  same_dtypes frames ->
  concat frames = mkDataFrame cols (flat_map rows frames).
Proof.
  intros Hne Hnd Hall Hsame. unfold concat.
  rewrite (@union_columns_same frames cols Hnd Hne)
    by (eapply Forall_impl; [|exact Hall]; now intros f [H _]).
  f_equal. fold (target frames).
  rewrite <- (flat_map_ext_in (fun f => map (fun r => r) (rows f)) rows)
    by (intros; apply map_id).
  apply flat_map_ext_in. intros f Hf. apply map_ext_in. intros r Hr.
  rewrite Forall_forall in Hall. destruct (Hall f Hf) as (Hc & [_ Hrows] & Hcan).
  rewrite Hc in *. unfold place.
  transitivity (map (cell_at cols r) cols).
  - apply map_ext_in. intros c Hin.
    assert (Hfr : has_rows f = true)
      by (unfold has_rows; destruct (rows f); [contradiction | reflexivity]).
    assert (HT : target frames c = sdtype (getitem f c)).
    { unfold target. apply common_dtype_all.
      - assert (Hi : In f (filter has_rows frames)) by (apply filter_In; auto).
        destruct (filter has_rows frames); [contradiction | discriminate].
      - apply Forall_map, Forall_forall. intros g Hg.
        apply filter_In in Hg as [Hg Hgr]. now apply Hsame. }
    rewrite HT, stored_twice. rewrite <- Hc. apply Hcan; [now rewrite Hc | exact Hr].
  - apply layout_same; [exact Hnd|].
    rewrite Forall_forall in Hrows. now apply Hrows.
Qed.

(** X3: when all files that parse have the same labels (each label once,
    every row complete) and, label by label, columns of the same dtype,
    the table after the load has these labels and holds the rows of the
    files, unchanged, file after file; with one file it is the table of
    that file. *)
Theorem add_data_appends_same_schema
  (fs : FileSystem) (self : manager) (directory : string) (cols : list string) :
  let d := Py.strip directory in
  let frames := frames_of fs d (csv_files fs d) in
  isdir fs d = true ->
  reads_cleanly fs d (csv_files fs d) ->
  frames <> [] ->
  NoDup cols ->
  Forall (fun f => columns f = cols /\ well_formed f /\ canonical f) frames ->
  same_dtypes frames ->
  data (self' (do_add_data fs self directory))
  = mkDataFrame cols (flat_map rows frames)
  /\ (forall f, frames = [f] -> data (self' (do_add_data fs self directory)) = f).
Proof.
  intros d frames Hdir Hclean Hsome Hnd Hall Hsame.
  rewrite (@add_data_merges fs self directory Hdir Hclean Hsome). simpl.
  fold d. fold frames. rewrite (concat_same_schema Hsome Hnd Hall Hsame).
  split; [reflexivity|].
  intros f Hf. rewrite Hf in *. simpl. rewrite app_nil_r.
  inversion Hall as [|? ? [Hc _] _]; subst. now destruct f.
Qed.

Lemma add_data_appends_same_schema_witness :
  data (self' (do_add_data twin_disk init "fake_directory"))
  = mkDataFrame (columns stock) (rows stock ++ rows stock).
Proof.
  assert (Hcan : canonical stock).
  { intros c r [<-|[<-|[<-|[]]]] [<-|[<-|[<-|[]]]]; reflexivity. }
  destruct (@add_data_appends_same_schema twin_disk init "fake_directory"
              (columns stock)) as [H _].
  - reflexivity.
  - repeat constructor; intros e; vm_compute; discriminate.
  - vm_compute; discriminate.
  - repeat constructor; simpl; intuition discriminate.
  - repeat (apply Forall_cons;
            [split; [reflexivity|]; split; [|exact Hcan];
             split; [repeat constructor; simpl; intuition discriminate
                    | repeat constructor]|]).
    apply Forall_nil.
  - intros c f g [<-|[<-|[]]] [<-|[<-|[]]] _ _; reflexivity.
  - rewrite H. reflexivity.
Defined.

(** ** Tables without rows *)

Lemma empty_iff (df : DataFrame) :
  empty df = true <-> columns df = [] \/ rows df = [].
Proof.
  unfold empty. destruct (columns df), (rows df); split; auto;
    try discriminate; intros [H|H]; discriminate H.
Qed.

Lemma placed_rows_nil (T : string -> dtype) (onto : list string)
  (frames : list DataFrame) :
  flat_map (fun f => map (place T onto f) (rows f)) frames = []
  <-> Forall (fun f => rows f = []) frames.
Proof.
  induction frames as [|f frames IH]; simpl.
  - split; constructor.
  - split.
    + intros H. apply app_eq_nil in H as [Hf Hrest]. constructor.
      * now destruct (rows f).
      * now apply IH.
    + intros H. inversion H as [|? ? Hf Hrest]; subst.
      rewrite Hf. simpl. now apply IH.
Qed.

Lemma concat_no_rows (frames : list DataFrame) :
  rows (concat frames) = [] <-> Forall (fun f => rows f = []) frames.
Proof.
  unfold concat. cbn [rows]. apply placed_rows_nil.
Qed.

(** On a table that is empty, the three commands that read it report that
    there is no data and do nothing else. *)
Lemma no_data_reported fs re m arg :
  empty (data m) = true ->
  do_query re m arg = mkOutcome m [no_data] Returned
  /\ do_generate fs m arg = mkOutcome m [no_data] Returned
  /\ do_show_top m arg = mkOutcome m [no_data] Returned.
Proof.
  intros H. unfold do_query, do_generate, do_show_top. now rewrite H.
Qed.

(** X4: a load can succeed and leave no data. After a load that merged
    files (each with a header), the table is empty exactly when no file
    parsed has a data row; then [do_query], [do_generate] and
    [do_show_top] report that there is no data, as before any load. *)
Theorem load_without_rows
  (fs : FileSystem) (re : Re.engine) (self : manager) (directory : string) :
  let d := Py.strip directory in
  let frames := frames_of fs d (csv_files fs d) in
  isdir fs d = true ->
  reads_cleanly fs d (csv_files fs d) ->
  frames <> [] ->
  Forall (fun f => columns f <> []) frames ->
  let m := self' (do_add_data fs self directory) in
  (empty (data m) = true <-> Forall (fun f => rows f = []) frames)
  /\ (Forall (fun f => rows f = []) frames ->
      forall arg,
        do_query re m arg = mkOutcome m [no_data] Returned
        /\ do_generate fs m arg = mkOutcome m [no_data] Returned
        /\ do_show_top m arg = mkOutcome m [no_data] Returned).
Proof.
  intros d frames Hdir Hclean Hsome Hcols m.
  assert (Hm : data m = concat frames).
  { subst m. now rewrite (@add_data_merges fs self directory Hdir Hclean Hsome). }
  assert (Hiff : empty (data m) = true <-> Forall (fun f => rows f = []) frames).
  { rewrite Hm, empty_iff, <- concat_no_rows. split; [|now right].
    intros [H|H]; [|exact H]. exfalso.
    destruct frames as [|f frames']; [contradiction|].
    inversion Hcols as [|? ? Hf _]; subst.
    destruct (columns f) as [|c cs] eqn:E; [contradiction|].
    assert (Hin : In c (columns (concat (f :: frames')))).
    { apply union_columns_spec. exists f. split; [now left|].
      rewrite E. now left. }
    rewrite H in Hin. exact Hin. }
  split; [exact Hiff|].
  intros Hrows arg. apply no_data_reported. now apply Hiff.
Qed.

Lemma load_without_rows_witness :
  let m := self' (do_add_data headers_disk init "anywhere") in
  empty (data m) = true
  /\ do_show_top m "3" = mkOutcome m [no_data] Returned.
Proof.
  destruct (@load_without_rows headers_disk digits_engine init "anywhere")
    as [Hiff Hcmd].
  - reflexivity.
  - repeat constructor; intros e; vm_compute; discriminate.
  - vm_compute; discriminate.
  - repeat constructor; vm_compute; discriminate.
  - split.
    + apply Hiff. repeat constructor.
    + apply Hcmd. repeat constructor.
Defined.

(** ** Integers stored as floats *)

Lemma shr_1_nonneg mrs : (0 <= shr_m mrs)%Z -> (0 <= shr_m (shr_1 mrs))%Z.
Proof.
  destruct mrs as [[|[p|p|]|p] r s]; simpl; intros H; try lia.
Qed.

Lemma iter_pos_nonneg (p : positive) mrs :
  (0 <= shr_m mrs)%Z -> (0 <= shr_m (iter_pos shr_1 p mrs))%Z.
Proof.
  revert mrs. induction p as [p IH|p IH|]; intros mrs H; simpl.
  - apply IH, IH, shr_1_nonneg, H.
  - apply IH, IH, H.
  - apply shr_1_nonneg, H.
Qed.

Lemma shr_fexp_nonneg m e l :
  (0 <= m)%Z ->
  (0 <= shr_m (fst (shr_fexp Float64.prec Float64.emax m e l)))%Z.
Proof.
  intros H. unfold shr_fexp, shr.
  assert (H0 : (0 <= shr_m (shr_record_of_loc m l))%Z)
    by (destruct l as [|[]]; exact H).
  destruct (_ - e)%Z; simpl; auto using iter_pos_nonneg.
Qed.

Lemma binary_round_aux_not_nan sx mx ex lx :
  (0 <= mx)%Z ->
  binary_round_aux Float64.prec Float64.emax sx mx ex lx <> S754_nan.
Proof.
  intros H. unfold binary_round_aux.
  pose proof (shr_fexp_nonneg ex lx H) as H1.
  destruct (shr_fexp Float64.prec Float64.emax mx ex lx) as [mrs' e'].
  simpl in H1.
  assert (H2 : (0 <= round_nearest_even (shr_m mrs') (loc_of_shr_record mrs'))%Z).
  { unfold round_nearest_even.
    destruct (loc_of_shr_record mrs') as [|[]]; try lia.
    destruct (Z.even (shr_m mrs')); lia. }
  pose proof (shr_fexp_nonneg e' loc_Exact H2) as H3.
  destruct (shr_fexp Float64.prec Float64.emax _ e' loc_Exact) as [mrs'' e''].
  simpl in H3.
  destruct (shr_m mrs''); try lia; try discriminate.
  destruct (_ <=? _)%Z; discriminate.
Qed.

(** The float of an integer is a number. *)
Lemma of_Z_not_nan (z : Z) : Float64.isnan (Float64.of_Z z) = false.
Proof.
  assert (H : Float64.of_Z z <> S754_nan).
  { unfold Float64.of_Z, binary_normalize, binary_round.
    destruct z as [|p|p]; [discriminate| |];
      destruct (shl_align _ _ _) as [mz ez];
      apply binary_round_aux_not_nan; lia. }
  destruct (Float64.of_Z z); try reflexivity. contradiction.
Qed.

(** A cell that is not missing is not missing as stored in its column. *)
Lemma stored_notna (d : dtype) (c : cell) :
  isna c = false -> isna (stored d c) = false.
Proof.
  destruct d, c; simpl; auto using of_Z_not_nan.
Qed.

Lemma stored_isna (d : dtype) (c : cell) :
  isna c = true -> stored d c = c.
Proof.
  destruct d, c; simpl; auto; discriminate.
Qed.

(** ** [generate]: the checks and the exceptions of the aggregation *)

(** X5: on a table that is not empty, [do_generate] reports missing
    columns, and does nothing else, exactly when one of [category],
    [quantity], [unit_price] is not a label of the table. *)
Theorem generate_missing_columns
  (fs : FileSystem) (self : manager) (output_file : string) :
  empty (data self) = false ->
  (do_generate fs self output_file = mkOutcome self [missing_columns] Returned
   <-> exists c, In c necessary_columns /\ ~ In c (columns (data self))).
Proof.
  intros He. unfold do_generate. rewrite He.
  destruct (forallb (has_column (data self)) necessary_columns) eqn:E; simpl.
  - split.
    + destruct (groupby_agg _ _ _ _) as [g|e]; [|discriminate].
      destruct (to_csv fs _ _); discriminate.
    + intros (c & Hc & Habs). exfalso. apply Habs.
      rewrite forallb_forall in E. apply existsb_eqb_In. now apply E.
  - split; [|reflexivity]. intros _.
    assert (H : exists c, In c necessary_columns
                          /\ has_column (data self) c = false).
    { unfold necessary_columns in *. simpl in E.
      destruct (has_column (data self) "category") eqn:E1;
        [|exists "category"; simpl; auto].
      destruct (has_column (data self) "quantity") eqn:E2;
        [|exists "quantity"; simpl; auto].
      destruct (has_column (data self) "unit_price") eqn:E3;
        [discriminate | exists "unit_price"; simpl; auto]. }
    destruct H as (c & Hc & Hn). exists c. split; [exact Hc|].
    intros Hin. apply existsb_eqb_In in Hin.
    unfold has_column in Hn. congruence.
Qed.

Lemma generate_missing_columns_witness :
  do_generate disk (mkManager extra) "report.csv"
  = mkOutcome (mkManager extra) [missing_columns] Returned.
Proof.
  apply (@generate_missing_columns disk (mkManager extra) "report.csv").
  - reflexivity.
  - exists "quantity". split; [simpl; auto|].
    simpl. intuition discriminate.
Defined.

Lemma combine_map {A B C : Type} (f : A -> B) (g : A -> C) (l : list A) :
  combine (map f l) (map g l) = map (fun x => (f x, g x)) l.
Proof.
  induction l as [|x l IH]; simpl; [reflexivity | now rewrite IH].
Qed.

(** A column with text in it has dtype [object], and its cells are stored
    as they are. *)
Lemma getitem_text (df : DataFrame) (name : string) (r : row) (s : string) :
  In r (rows df) -> cell_at (columns df) r name = Str s ->
  sdtype (getitem df name) = object.
Proof.
  intros Hr Hs. unfold getitem. simpl. unfold dtype_of.
  set (raw := map (fun r => cell_at (columns df) r name) (rows df)).
  assert (Hin : In (Str s) raw).
  { subst raw. apply in_map_iff. eauto. }
  destruct (forallb is_int raw) eqn:E1.
  { rewrite forallb_forall in E1. specialize (E1 _ Hin). discriminate. }
  destruct (forallb is_number raw) eqn:E2; [|reflexivity].
  rewrite forallb_forall in E2. specialize (E2 _ Hin). discriminate.
Qed.

Lemma in_members (k x v : cell) (keys vals : list cell) :
  In (x, v) (combine keys vals) -> key_eqb x k = true ->
  In v (members k keys vals).
Proof.
  intros Hin Hk. unfold members. apply in_map_iff. exists (x, v).
  split; [reflexivity|]. apply filter_In. split; [exact Hin | exact Hk].
Qed.

Lemma agg_column_all f ks keys vals cs :
  agg_column f ks keys vals = inl cs ->
  forall k, In k ks -> exists c, f (members k keys vals) = inl c.
Proof.
  revert cs. induction ks as [|a ks IH]; simpl; intros cs H k Hk; [contradiction|].
  destruct (f (members a keys vals)) as [c|] eqn:Ea; [|discriminate].
  destruct (agg_column f ks keys vals) as [cs'|]; [|discriminate].
  destruct Hk as [<-|Hk]; eauto.
Qed.

Lemma py_sum_after_text acc rest :
  text_or_raised acc ->
  text_or_raised
    (fold_left (fun acc v => match acc with
                             | inl a => py_add a v
                             | inr e => inr e
                             end) rest acc).
Proof.
  revert acc. induction rest as [|v rest IH]; intros acc H; simpl; [exact H|].
  apply IH. destruct acc as [[s|z|f]|e]; simpl in *; try contradiction; auto.
  destruct v; simpl; auto.
Qed.

Lemma py_sum_with_text first rest s :
  In (Str s) (first :: rest) -> text_or_raised (py_sum first rest).
Proof.
  unfold py_sum. revert first.
  induction rest as [|v rest IH]; intros first [->|Hin]; simpl.
  - exact I.
  - contradiction.
  - apply py_sum_after_text. simpl. destruct v; simpl; auto.
  - destruct Hin as [->|Hin].
    + apply py_sum_after_text.
      destruct first as [t|z|f]; simpl; exact I.
    + destruct (py_add first v) as [a|e] eqn:E.
      * apply IH. now right.
      * apply py_sum_after_text. exact I.
Qed.

(** Text has no mean. *)
Lemma agg_mean_text vals s :
  In (Str s) vals -> exists e, agg_mean object vals = inr e.
Proof.
  intros Hin. unfold agg_mean.
  assert (Hin' : In (Str s) (map (fun c => if isna c then Int 0 else c) vals)).
  { apply in_map_iff. exists (Str s). split; [reflexivity | exact Hin]. }
  destruct (map (fun c => if isna c then Int 0 else c) vals) as [|v rest];
    [contradiction|].
  pose proof (py_sum_with_text Hin') as H.
  destruct (py_sum v rest) as [[t|z|f]|e]; simpl in H; try contradiction; eauto.
Qed.

(** X6: when a row with a category has text as its unit price,
    [do_generate] does not produce a report: an exception of the
    aggregation leaves the command, nothing is shown or written, and the
    table stays as it is. *)
Theorem generate_text_price_raises
  (fs : FileSystem) (self : manager) (output_file : string)
  (r : row) (s : string) :
  empty (data self) = false ->
  forallb (has_column (data self)) necessary_columns = true ->
  In r (rows (data self)) ->
  isna (cell_at (columns (data self)) r "category") = false ->
  cell_at (columns (data self)) r "unit_price" = Str s ->
  exists e, do_generate fs self output_file = mkOutcome self [] (Raised e).
Proof.
  intros He Hcols Hr Hcat Hprice. unfold do_generate.
  rewrite He, Hcols. simpl.
  destruct (groupby_agg (data self) "category" "quantity" "unit_price")
    as [g|e] eqn:Eg; [exfalso | eauto].
  unfold groupby_agg, agg_series in Eg.
  destruct (agg_column (agg_sum _) _ _ _) as [sums|]; [|discriminate].
  destruct (agg_column (agg_mean _) _ _ _) as [means|] eqn:Em; [|discriminate].
  set (K := getitem (data self) "category") in *.
  set (P := getitem (data self) "unit_price") in *.
  set (x := stored (sdtype K) (cell_at (columns (data self)) r "category")).
  assert (Hx : isna x = false) by now apply stored_notna.
  assert (HP : sdtype P = object) by (eapply getitem_text; eassumption).
  assert (Hpair : In (x, Str s) (combine (values K) (values P))).
  { subst K P. rewrite !getitem_values, combine_map. apply in_map_iff.
    exists r. split; [|exact Hr]. fold x. f_equal.
    fold (getitem (data self) "unit_price"). rewrite HP, Hprice. reflexivity. }
  assert (HxK : In x (values K)) by (eapply in_combine_l; eassumption).
  destruct (keys_cover (uniques_distinct (values K)) x HxK Hx) as (k & Hk & Ek).
  assert (Hks : In k (group_keys K)).
  { unfold group_keys. eapply Permutation_in; [|exact Hk].
    symmetry. apply sort_keys_perm. }
  destruct (agg_column_all _ _ _ _ Em k Hks) as [c Hc].
  rewrite HP in Hc.
  destruct (@agg_mean_text (members k (values K) (values P)) s) as [e He'].
  - eapply in_members; eassumption.
  - congruence.
Qed.

Lemma generate_text_price_raises_witness :
  exists e,
    do_generate disk (mkManager stock_text_price) "report.csv"
    = mkOutcome (mkManager stock_text_price) [] (Raised e).
Proof.
  apply (@generate_text_price_raises disk (mkManager stock_text_price)
           "report.csv" [Str "B"; Int 20; Str "ten"] "ten").
  - reflexivity.
  - reflexivity.
  - simpl. auto.
  - reflexivity.
  - reflexivity.
Defined.

(** ** [generate]: the totals *)

Lemma num_of_exponent (c : cell) n k :
  num_of c = Some (Fin n k) -> (0 <= k)%Z.
Proof.
  destruct c as [s|z|[b|b| |b m e]]; simpl; try discriminate.
  - intros H. inversion H. lia.
  - intros H. inversion H. lia.
  - destruct b; discriminate.
  - destruct (0 <=? e)%Z eqn:E; intros H; inversion H; subst; [lia|].
    apply Z.leb_gt in E. lia.
Qed.

Lemma num_compare_eq_trans (a b c : cell) x y z :
  num_of a = Some x -> num_of b = Some y -> num_of c = Some z ->
  num_compare x y = Eq -> num_compare y z = Eq -> num_compare x z = Eq.
Proof.
  intros Ha Hb Hc.
  destruct x as [|x kx|], y as [|y ky|], z as [|z kz|]; simpl;
    try discriminate; try reflexivity.
  apply num_of_exponent in Ha, Hb, Hc.
  rewrite !Z.compare_eq_iff. intros H1 H2.
  assert (Px : (0 < 2 ^ kx)%Z) by (apply Z.pow_pos_nonneg; lia).
  assert (Py : (0 < 2 ^ ky)%Z) by (apply Z.pow_pos_nonneg; lia).
  assert (Pz : (0 < 2 ^ kz)%Z) by (apply Z.pow_pos_nonneg; lia).
  apply (Z.mul_cancel_r _ _ (2 ^ ky)%Z); [lia|].
  transitivity (y * 2 ^ kx * 2 ^ kz)%Z; [rewrite <- H1; ring|].
  transitivity (y * 2 ^ kz * 2 ^ kx)%Z; [ring|]. rewrite H2. ring.
Qed.

(** Equality of keys is transitive. *)
Lemma key_eqb_trans (a b c : cell) :
  key_eqb a b = true -> key_eqb b c = true -> key_eqb a c = true.
Proof.
  assert (Hnum : forall a b c,
             match num_of a, num_of b with
             | Some x, Some y =>
                 match num_compare x y with Eq => true | _ => false end
             | _, _ => false
             end = true ->
             match num_of b, num_of c with
             | Some x, Some y =>
                 match num_compare x y with Eq => true | _ => false end
             | _, _ => false
             end = true ->
             match num_of a, num_of c with
             | Some x, Some y =>
                 match num_compare x y with Eq => true | _ => false end
             | _, _ => false
             end = true).
  { intros u v w.
    destruct (num_of u) as [x|] eqn:Eu; [|discriminate].
    destruct (num_of v) as [y|] eqn:Ev; [|discriminate].
    destruct (num_of w) as [z|] eqn:Ew; [|discriminate].
    destruct (num_compare x y) eqn:E1; try discriminate.
    destruct (num_compare y z) eqn:E2; try discriminate.
    now rewrite (num_compare_eq_trans u v w Eu Ev Ew E1 E2). }
  destruct a as [s|z|f], b as [t|w|g], c as [u|v|h];
    lazymatch goal with
    | |- key_eqb ?a ?b = true -> key_eqb ?b ?c = true -> _ =>
        try exact (Hnum a b c)
    end;
    simpl; intros H1 H2; try discriminate H1; try discriminate H2;
    try (destruct f as [[]|[]| |[]]; discriminate H1);
    try (destruct g as [[]|[]| |[]]; discriminate H2).
  apply String.eqb_eq in H1, H2. apply String.eqb_eq. congruence.
Qed.

Lemma zsum_app (l l' : list Z) : zsum (l ++ l') = (zsum l + zsum l')%Z.
Proof.
  induction l as [|x l IH]; simpl; [reflexivity | rewrite IH; ring].
Qed.

Lemma fold_left_zsum (l : list Z) (a : Z) :
  fold_left Z.add l a = (a + zsum l)%Z.
Proof.
  revert a. induction l as [|x l IH]; intros a; simpl; [ring|].
  rewrite IH. ring.
Qed.

Lemma zsum_map_add {A : Type} (f g : A -> Z) (l : list A) :
  zsum (map (fun x => (f x + g x)%Z) l) = (zsum (map f l) + zsum (map g l))%Z.
Proof.
  induction l as [|x l IH]; simpl; [reflexivity | rewrite IH; ring].
Qed.

(** Among keys that differ from one another, a value equal to one of them
    is counted once. *)
Lemma zsum_one_key (ks : list cell) (x k0 : cell) (v : Z) :
  ForallOrdPairs (fun a b => key_eqb a b = false) ks ->
  In k0 ks -> key_eqb x k0 = true ->
  zsum (map (fun k => if key_eqb x k then v else 0%Z) ks) = v.
Proof.
  induction 1 as [|a ks Ha _ IH]; intros Hin Hx; simpl; [contradiction|].
  destruct (key_eqb x a) eqn:Ea.
  - assert (Hrest : zsum (map (fun k => if key_eqb x k then v else 0%Z) ks) = 0%Z).
    { clear IH Hin. induction ks as [|b ks IHk]; simpl; [reflexivity|].
      inversion Ha as [|? ? Hab Hrest]; subst.
      destruct (key_eqb x b) eqn:Eb.
      - rewrite key_eqb_sym in Ea.
        rewrite (key_eqb_trans _ _ _ Ea Eb) in Hab. discriminate.
      - rewrite IHk by exact Hrest. reflexivity. }
    rewrite Hrest. ring.
  - destruct Hin as [->|Hin]; [congruence|].
    rewrite IH by assumption. ring.
Qed.

Lemma zsum_no_key (ks : list cell) (x : cell) (v : Z) :
  isna x = true ->
  zsum (map (fun k => if key_eqb x k then v else 0%Z) ks) = 0%Z.
Proof.
  intros Hx. induction ks as [|k ks IH]; simpl; [reflexivity|].
  destruct (key_eqb x k) eqn:E; [|now rewrite IH].
  apply key_eqb_notna in E. congruence.
Qed.

(** Summed over the keys, the quantities of the groups are the quantities
    of the rows whose key is not missing. *)
Lemma groups_partition (all ks : list cell) (pairs : list (cell * cell)) :
  distinct_keys all ks ->
  (forall kv, In kv pairs -> In (fst kv) all) ->
  zsum (map (fun k => zsum (quantities (fun x => key_eqb x k) pairs)) ks)
  = zsum (quantities notna pairs).
Proof.
  intros Hd. induction pairs as [|[x q] pairs IH]; intros Hin.
  - unfold quantities. simpl. clear. induction ks; simpl; auto.
  - assert (Hstep :
      forall k, zsum (quantities (fun y => key_eqb y k) ((x, q) :: pairs))
                = ((if key_eqb x k then to_Z q else 0)
                   + zsum (quantities (fun y => key_eqb y k) pairs))%Z).
    { intros k. unfold quantities. simpl.
      destruct (key_eqb x k); reflexivity. }
    assert (Hrhs :
      zsum (quantities notna ((x, q) :: pairs))
      = ((if isna x then 0 else to_Z q) + zsum (quantities notna pairs))%Z).
    { unfold quantities, notna. simpl. destruct (isna x); reflexivity. }
    rewrite (map_ext _ _ Hstep), zsum_map_add, IH, Hrhs
      by (intros kv Hkv; apply Hin; now right).
    f_equal. destruct (isna x) eqn:Ex.
    + now apply zsum_no_key.
    + destruct Hd as [_ _ Hdiff Hcov].
      destruct (Hcov x (Hin (x, q) (or_introl eq_refl)) Ex) as (k0 & Hk0 & E0).
      exact (@zsum_one_key ks x k0 (to_Z q) Hdiff Hk0 E0).
Qed.

Lemma wrap64_add_l (a b : Z) : wrap64 (wrap64 a + b) = wrap64 (a + b).
Proof.
  unfold wrap64. f_equal.
  replace ((a + 2 ^ 63) mod 2 ^ 64 - 2 ^ 63 + b + 2 ^ 63)%Z
    with ((a + 2 ^ 63) mod 2 ^ 64 + b)%Z by ring.
  rewrite Zplus_mod_idemp_l. f_equal. ring.
Qed.

Lemma wrap64_add_r (a b : Z) : wrap64 (a + wrap64 b) = wrap64 (a + b).
Proof.
  rewrite (Z.add_comm a (wrap64 b)), wrap64_add_l. f_equal. ring.
Qed.

Lemma wrap64_zsum (l : list Z) : wrap64 (zsum (map wrap64 l)) = wrap64 (zsum l).
Proof.
  induction l as [|x l IH]; simpl; [reflexivity|].
  rewrite wrap64_add_l, <- wrap64_add_r, IH, wrap64_add_r. reflexivity.
Qed.

(** The sums of an [int64] column, group by group. *)
Lemma agg_column_sum_int (ks keys vals sums : list cell) :
  agg_column (agg_sum int64) ks keys vals = inl sums ->
  sums = map (fun k => Int (wrap64 (zsum (quantities (fun x => key_eqb x k)
                                                     (combine keys vals))))) ks.
Proof.
  revert sums. induction ks as [|k ks IH]; simpl; intros sums H.
  - now inversion H.
  - destruct (agg_column (agg_sum int64) ks keys vals) as [cs|]; [|discriminate].
    inversion H; subst. f_equal; [|now apply IH].
    unfold members, quantities. rewrite fold_left_zsum, map_map. reflexivity.
Qed.

Lemma zip3_middle (a b c : list cell) :
  List.length b = List.length a -> List.length c = List.length a ->
  map (fun r => nth 1 r NaN) (zip3 a b c) = b.
Proof.
  revert b c. induction a as [|x a IH]; intros [|y b] [|z c] Hb Hc;
    simpl in *; try discriminate; [reflexivity|].
  f_equal. apply IH; congruence.
Qed.

Lemma zip3_rows (f : cell -> cell) (ks means : list cell) :
  Forall (fun r => nth 1 r NaN = f (hd NaN r)) (zip3 ks (map f ks) means).
Proof.
  revert means. induction ks as [|k ks IH]; intros [|m means]; simpl;
    constructor; [reflexivity | apply IH].
Qed.

Lemma getitem_int (df : DataFrame) (name : string) :
  Forall (fun r => int64_cell (cell_at (columns df) r name)) (rows df) ->
  sdtype (getitem df name) = int64.
Proof.
  intros H. unfold getitem, dtype_of, ints_in. simpl.
  set (raw := map (fun r => cell_at (columns df) r name) (rows df)).
  assert (Hraw : forall c, In c raw -> int64_cell c).
  { intros c Hc. apply in_map_iff in Hc as (r & <- & Hr).
    rewrite Forall_forall in H. now apply H. }
  replace (forallb is_number raw) with true.
  2:{ symmetry. apply forallb_forall. intros c Hc.
      destruct (Hraw c Hc) as (z & -> & _). reflexivity. }
  replace (forallb _ raw) with true.
  2:{ symmetry. apply forallb_forall. intros c Hc.
      destruct (Hraw c Hc) as (z & -> & Hz). unfold in_int64.
      apply andb_true_iff. split; [apply Z.leb_le | apply Z.ltb_lt]; lia. }
  replace (forallb is_int raw) with true; [reflexivity|].
  symmetry. apply forallb_forall. intros c Hc.
  destruct (Hraw c Hc) as (z & -> & _). reflexivity.
Qed.

Lemma group_keys_distinct (keys : Series) :
  distinct_keys (values keys) (group_keys keys).
Proof.
  apply distinct_keys_perm with (uniques (values keys)).
  - symmetry. apply sort_keys_perm.
  - apply uniques_distinct.
Qed.

(** X7: when every quantity of the table is an integer within [int64],
    the Total Quantity of a summary row is the [int64] sum of the
    quantities of the rows of that category, and the totals of the summary
    add up (as [int64]) to the quantities of all rows that have a
    category: every such row is counted once, the rows without a category
    are not. *)
Theorem generate_totals
  (fs : FileSystem) (self : manager) (output_file : string)
  (summary : DataFrame) :
  hd_error (trace (do_generate fs self output_file)) = Some (info_table summary) ->
  Forall (fun r => int64_cell (cell_at (columns (data self)) r "quantity"))
         (rows (data self)) ->
  let pairs := combine (values (getitem (data self) "category"))
                       (values (getitem (data self) "quantity")) in
  Forall (fun r =>
            nth 1 r NaN
            = Int (wrap64 (zsum (quantities (fun x => key_eqb x (hd NaN r))
                                            pairs))))
         (rows summary)
  /\ wrap64 (zsum (map (fun r => to_Z (nth 1 r NaN)) (rows summary)))
     = wrap64 (zsum (quantities notna pairs)).
Proof.
  intros H Hint pairs.
  apply generate_shows in H as (_ & _ & grouped & Hg & ->).
  unfold groupby_agg, agg_series in Hg.
  rewrite (getitem_int _ _ Hint) in Hg.
  destruct (agg_column (agg_sum int64) _ _ _) as [sums|] eqn:Es; [|discriminate].
  destruct (agg_column (agg_mean _) _ _ _) as [means|] eqn:Em; [|discriminate].
  inversion Hg; subst grouped; clear Hg. simpl.
  apply agg_column_length in Em.
  apply agg_column_sum_int in Es. fold pairs in Es.
  set (K := getitem (data self) "category") in *.
  set (g := fun k => zsum (quantities (fun x => key_eqb x k) pairs)) in *.
  split.
  - rewrite Es. apply (zip3_rows (fun k => Int (wrap64 (g k)))).
  - rewrite <- (map_map (fun r => nth 1 r NaN) to_Z).
    rewrite zip3_middle by (rewrite ?Es, ?length_map; auto).
    rewrite Es, map_map. simpl.
    rewrite <- (map_map g wrap64), wrap64_zsum. f_equal.
    apply (@groups_partition (values K) (group_keys K) pairs).
    + apply group_keys_distinct.
    + intros [x q] Hin. simpl. eapply in_combine_l. exact Hin.
Qed.

Lemma generate_totals_witness :
  wrap64 (40 + (20 + 0)) = wrap64 (zsum [10; 20; 30]%Z).
Proof.
  destruct (@generate_totals disk (mkManager stock) "report.csv"
              (mkDataFrame ["category"; "Total Quantity"; "Average Price"]
                 [ [Str "A"; Int 40; fl 10]; [Str "B"; Int 20; fl 10] ])
              eq_refl) as [_ H].
  - repeat constructor; eexists; (split; [reflexivity | lia]).
  - exact H.
Defined.

(** ** [generate]: the report file *)

Lemma uniques_length (l acc : list cell) :
  List.length (fold_left add_key l acc) <= List.length acc + List.length l.
Proof.
  revert acc. induction l as [|c l IH]; intros acc; simpl; [lia|].
  specialize (IH (add_key acc c)). unfold add_key in *.
  destruct (isna c || existsb (key_eqb c) acc); [lia|].
  rewrite length_app in IH. simpl in IH. lia.
Qed.

Lemma zip3_shape (a b c : list cell) :
  List.length b = List.length a -> List.length c = List.length a ->
  List.length (zip3 a b c) = List.length a
  /\ Forall (fun r => List.length r = 3) (zip3 a b c).
Proof.
  revert b c. induction a as [|x a IH]; intros [|y b] [|z c] Hb Hc;
    simpl in *; try discriminate; [split; constructor|].
  destruct (IH b c) as [Hl Hf]; try congruence.
  split; [now rewrite Hl | now constructor].
Qed.

(** X8: [do_generate] touches one file at most, the one named by the
    trimmed argument ([summary_report.csv] when the argument is empty or
    blank), and only once the summary is shown. The report is there in
    full exactly when the write succeeded: the command then returns, the
    table written is the summary shown before, with the columns
    [category], [Total Quantity], [Average Price], three cells in every
    row, and no more rows than the table. A write that raises is not all
    or nothing: the exception leaves the command, no success is reported,
    and the file may be left behind, empty or partly written. *)
Theorem generate_report_file
  (fs : FileSystem) (self : manager) (output_file path : string) :
  (forall df,
     In (file_written path df) (trace (do_generate fs self output_file)) ->
     path = report_path output_file
     /\ (forallb Py.isspace (Py.chars output_file) = true ->
         path = "summary_report.csv")
     /\ to_csv fs path df = Written
     /\ trace (do_generate fs self output_file)
        = [info_table df; file_written path df;
           success_output ("Report saved to " ++ path ++ ".")]
     /\ ended (do_generate fs self output_file) = Returned
     /\ columns df = ["category"; "Total Quantity"; "Average Price"]
     /\ Forall (fun r => List.length r = 3) (rows df)
     /\ List.length (rows df) <= List.length (rows (data self)))
  /\ (In (file_partial path) (trace (do_generate fs self output_file)) ->
      path = report_path output_file
      /\ exists summary e,
           to_csv fs path summary = WriteFails e true
           /\ trace (do_generate fs self output_file)
              = [info_table summary; file_partial path]
           /\ ended (do_generate fs self output_file) = Raised e).
Proof.
  unfold do_generate. fold (report_path output_file).
  destruct (empty (data self));
    [split; [intros df|]; intros [H|[]]; discriminate H|].
  destruct (forallb _ necessary_columns);
    [|split; [intros df|]; intros [H|[]]; discriminate H].
  simpl.
  destruct (groupby_agg _ _ _ _) as [g|e] eqn:Eg;
    [|split; [intros df|]; intros []].
  destruct (to_csv fs _ _) as [|e touched] eqn:Ew.
  - split; [|intros [H|[H|[H|[]]]]; discriminate H].
    intros df [H|[H|[H|[]]]]; try discriminate H.
    inversion H; subst path df; clear H.
    split; [reflexivity|].
    split; [intros Hb; unfold report_path;
            rewrite strip_blank by exact Hb; reflexivity|].
    split; [exact Ew|]. split; [reflexivity|]. split; [reflexivity|].
    unfold groupby_agg, agg_series in Eg.
    destruct (agg_column (agg_sum _) _ _ _) as [sums|] eqn:Es; [|discriminate].
    destruct (agg_column (agg_mean _) _ _ _) as [means|] eqn:Em; [|discriminate].
    inversion Eg; subst g; clear Eg. simpl.
    apply agg_column_length in Es, Em.
    destruct (zip3_shape _ _ _ Es Em) as [Hlen Hrows].
    split; [reflexivity|]. split; [exact Hrows|].
    rewrite Hlen. unfold group_keys.
    rewrite (Permutation_length (sort_keys_perm _)). unfold uniques.
    pose proof (uniques_length (values (getitem (data self) "category")) []) as Hu.
    rewrite getitem_values, length_map in Hu. simpl in Hu.
    rewrite getitem_values. exact Hu.
  - split.
    + intros df H. destruct touched; simpl in H;
        repeat destruct H as [H|H]; try discriminate H; contradiction.
    + destruct touched; simpl; intros H;
        repeat destruct H as [H|H]; try discriminate H; try contradiction.
      inversion H; subst path. split; [reflexivity|].
      eexists _, e. split; [exact Ew|]. split; reflexivity.
Qed.

Lemma generate_report_file_witness :
  (to_csv disk "summary_report.csv"
     (mkDataFrame ["category"; "Total Quantity"; "Average Price"]
        [ [Str "A"; Int 40; fl 10]; [Str "B"; Int 20; fl 10] ]) = Written
   /\ ended (do_generate disk (mkManager stock) "  ") = Returned)
  /\ exists summary e,
       trace (do_generate full_disk (mkManager stock) " out.csv ")
       = [info_table summary; file_partial "out.csv"]
       /\ ended (do_generate full_disk (mkManager stock) " out.csv ") = Raised e.
Proof.
  destruct (@generate_report_file disk (mkManager stock) "  "
              "summary_report.csv") as [Hfull _].
  destruct (Hfull (mkDataFrame ["category"; "Total Quantity"; "Average Price"]
                     [ [Str "A"; Int 40; fl 10]; [Str "B"; Int 20; fl 10] ]))
    as (_ & _ & Hw & _ & He & _); [simpl; auto|].
  destruct (@generate_report_file full_disk (mkManager stock) " out.csv "
              "out.csv") as [_ Hpart].
  destruct Hpart as (_ & summary & e & _ & Ht & Hr); [simpl; auto|].
  split; [split; [exact Hw | exact He]|].
  exists summary, e. split; [exact Ht | exact Hr].
Defined.

(** ** [query]: any pattern *)



(** X10: a value that starts with a repetition sign or a closing
    parenthesis is not a pattern: on a table that is not empty, for a
    column of the table, [re.error] leaves [do_query], which prints
    nothing and leaves the table as it is. *)
Theorem query_invalid_pattern_raises re self condition column c rest :
  empty (data self) = false ->
  parse_condition condition = Some (column, String c rest) ->
  has_column (data self) column = true ->
  dangling c = true ->
  do_query re self condition = mkOutcome self [] (Raised Py.re_error).
Proof.
  intros He Hp Hc Hd. rewrite (query_cases re self condition He), Hp, Hc.
  assert (Hbad : Re.compile (String c rest) = Re.Error).
  { unfold dangling in Hd. simpl in Hd.
    repeat (apply orb_true_iff in Hd as [Hd|Hd]); try discriminate;
      apply Ascii.eqb_eq in Hd; subst c; reflexivity. }
  unfold str_contains. now rewrite Hbad.
Qed.

Lemma query_invalid_pattern_raises_witness :
  do_query digits_engine (mkManager stock) "quantity=+5"
  = mkOutcome (mkManager stock) [] (Raised Py.re_error).
Proof.
  exact (@query_invalid_pattern_raises digits_engine (mkManager stock)
           "quantity=+5"
           "quantity" "+" "5" eq_refl eq_refl eq_refl eq_refl).
Defined.

(** Two values without special characters that differ by case only are
    found in the same texts. *)
Lemma search_literal_case (l1 l2 : list ascii) (text : string) :
  map Py.lower l1 = map Py.lower l2 ->
  Re.search (Literal.literal l1) text = Re.search (Literal.literal l2) text.
Proof.
  intros H. unfold Re.search. apply eq_true_iff_eq.
  rewrite !ReFacts.search_from_literal, H. reflexivity.
Qed.

(** X11: the value of a query is read without regard to case: two
    conditions on the same column whose values have no special character
    and differ by case only give the same outcome. *)
Theorem query_ignores_case re self condition1 condition2 column value1 value2 :
  parse_condition condition1 = Some (column, value1) ->
  parse_condition condition2 = Some (column, value2) ->
  Literal.ordinary (Py.chars value1) = true ->
  Literal.ordinary (Py.chars value2) = true ->
  map Py.lower (Py.chars value1) = map Py.lower (Py.chars value2) ->
  do_query re self condition1 = do_query re self condition2.
Proof.
  intros H1 H2 O1 O2 Hcase. unfold do_query, query_body. rewrite H1, H2.
  destruct (empty (data self)); [reflexivity|].
  destruct (has_column (data self) column); [|reflexivity]. simpl.
  unfold str_contains.
  rewrite (ReFacts.compile_ordinary _ O1), (ReFacts.compile_ordinary _ O2).
  replace (map (Re.search (Literal.literal (Py.chars value2))) _)
    with (map (Re.search (Literal.literal (Py.chars value1)))
              (astype_str (getitem (data self) column))); [reflexivity|].
  apply map_ext. intros t. now apply search_literal_case.
Qed.

Lemma query_ignores_case_witness :
  do_query digits_engine (mkManager extra) "supplier=ACME"
  = do_query digits_engine (mkManager extra) "supplier = acme".
Proof.
  exact (@query_ignores_case digits_engine (mkManager extra) "supplier=ACME"
           "supplier = acme" "supplier" "ACME" "acme"
           eq_refl eq_refl eq_refl eq_refl eq_refl).
Defined.

(** ** [query]: missing cells, anchors *)

(** X12: a missing cell reads [nan] when [do_query] searches: a value
    without special characters that is part of [nan] (up to case) finds
    every row whose cell in the column is missing. *)
Theorem query_finds_missing_as_nan re self condition column value r :
  empty (data self) = false ->
  parse_condition condition = Some (column, value) ->
  has_column (data self) column = true ->
  Literal.ordinary (Py.chars value) = true ->
  icontains value "nan" ->
  In r (rows (data self)) ->
  isna (cell_at (columns (data self)) r column) = true ->
  exists hits,
    do_query re self condition
    = mkOutcome self [info_table (mkDataFrame (columns (data self)) hits)]
                Returned
    /\ In r hits.
Proof.
  intros He Hp Hc Hord Hnan Hr Hna.
  pose proof (@query_hits re self condition column value _ He Hp Hc
                (ReFacts.compile_ordinary _ Hord)) as Hq.
  cbv zeta in Hq.
  set (hits := filter _ (rows (data self))) in Hq.
  assert (Hin : In r hits).
  { apply filter_In. split; [exact Hr|].
    unfold cell_text. rewrite stored_isna by exact Hna.
    destruct (cell_at (columns (data self)) r column) as [t|z|[| | |]];
      try discriminate Hna.
    apply ReFacts.search_from_literal. exact Hnan. }
  exists hits. split; [|exact Hin].
  rewrite Hq. destruct hits; [contradiction | reflexivity].
Qed.

Lemma query_finds_missing_as_nan_witness :
  exists hits,
    do_query digits_engine (mkManager stock_with_missing) "supplier=an"
    = mkOutcome (mkManager stock_with_missing)
        [info_table (mkDataFrame (columns stock_with_missing) hits)] Returned
    /\ In [Str "B"; NaN] hits.
Proof.
  apply (@query_finds_missing_as_nan digits_engine (mkManager stock_with_missing)
           "supplier=an" "supplier" "an" [Str "B"; NaN]);
    try reflexivity.
  - exists ["n"%char], []. reflexivity.
  - simpl. auto.
Defined.

Lemma matches_Bol fuel bos s k :
  Re.matches fuel Re.Bol bos s k = bos && k bos s.
Proof. destruct fuel; reflexivity. Qed.

Lemma search_from_anchored (r : Re.regex) (s : list ascii) :
  Re.search_from (Re.Seq Re.Bol r) false s = false.
Proof.
  induction s as [|c s IH]; cbn [Re.search_from];
    rewrite ReFacts.matches_Seq, matches_Bol; [reflexivity | exact IH].
Qed.

Lemma compile_anchored (v : string) :
  Literal.ordinary (Py.chars v) = true ->
  Re.compile (String "^" v)
  = Re.Pattern (Re.Seq Re.Bol (Literal.literal (Py.chars v))).
Proof.
  intros H. unfold Re.compile.
  change (Py.chars (String "^" v)) with ("^"%char :: Py.chars v).
  change (Re.parse ("^"%char :: Py.chars v) (Re.State [] [] []))
    with (Re.parse (Py.chars v) (Re.push Re.Bol Re.At (Re.State [] [] []))).
  rewrite ReFacts.parse_ordinary by exact H.
  unfold Re.finish, Re.close, Re.seq_of. simpl.
  rewrite rev_app_distr, rev_involutive. simpl. do 2 f_equal.
  clear H. induction (Py.chars v) as [|c l IH]; simpl; [reflexivity|].
  now rewrite IH.
Qed.

Lemma search_anchored (v text : string) :
  Re.search (Re.Seq Re.Bol (Literal.literal (Py.chars v))) text
  = Literal.ci_prefixb (Py.chars v) (Py.chars text).
Proof.
  unfold Re.search.
  destruct (Py.chars text) as [|c s]; cbn [Re.search_from];
    rewrite ReFacts.matches_Seq, matches_Bol, ReFacts.matches_literal;
    rewrite ?search_from_anchored; simpl;
    now rewrite ?orb_false_r.
Qed.

(** X13: a value [^v], with [v] free of special characters, finds the
    rows whose cell, as text, starts with [v] up to case. *)
Theorem query_anchored_prefix re self condition column v :
  empty (data self) = false ->
  parse_condition condition = Some (column, String "^" v) ->
  has_column (data self) column = true ->
  Literal.ordinary (Py.chars v) = true ->
  let hits :=
    filter (fun r => Literal.ci_prefixb (Py.chars v)
                       (Py.chars (cell_text (data self) column r)))
           (rows (data self)) in
  do_query re self condition
  = mkOutcome self
      [match hits with
       | [] => info_output "No matching results."
       | _ => info_table (mkDataFrame (columns (data self)) hits)
       end] Returned.
Proof.
  intros He Hp Hc Hord hits.
  rewrite (@query_hits re self condition column _ _ He Hp Hc
             (compile_anchored _ Hord)).
  cbv zeta.
  replace (filter _ (rows (data self))) with hits; [reflexivity|].
  subst hits. apply filter_ext. intros r. symmetry. apply search_anchored.
Qed.

Lemma query_anchored_prefix_witness :
  do_query digits_engine (mkManager stock_with_missing) "supplier=^a"
  = mkOutcome (mkManager stock_with_missing)
      [info_table (mkDataFrame (columns stock_with_missing)
                     [ [Str "C"; Str "Acme"] ])] Returned.
Proof.
  exact (@query_anchored_prefix digits_engine (mkManager stock_with_missing)
           "supplier=^a"
           "supplier" "a" eq_refl eq_refl eq_refl eq_refl).
Defined.

(** ** Whitespace around the arguments *)

Lemma lstrip_app_blank (p l : list ascii) :
  forallb Py.isspace p = true ->
  Py.lstrip_chars (p ++ l) = Py.lstrip_chars l.
Proof.
  induction p as [|c p IH]; simpl; [reflexivity|].
  intros H. apply andb_true_iff in H as [Hc Hp]. rewrite Hc. now apply IH.
Qed.

Lemma lstrip_app (l q : list ascii) :
  Py.lstrip_chars l <> [] ->
  Py.lstrip_chars (l ++ q) = Py.lstrip_chars l ++ q.
Proof.
  induction l as [|c l IH]; simpl; [contradiction|].
  destruct (Py.isspace c); [exact IH | reflexivity].
Qed.

Lemma lstrip_all_blank (l : list ascii) :
  Py.lstrip_chars l = [] -> forallb Py.isspace l = true.
Proof.
  induction l as [|c l IH]; simpl; [reflexivity|].
  destruct (Py.isspace c); [exact IH | discriminate].
Qed.

Lemma forallb_rev {A : Type} (f : A -> bool) (l : list A) :
  forallb f l = true -> forallb f (rev l) = true.
Proof.
  rewrite !forallb_forall. intros H x Hx. apply H. now apply in_rev.
Qed.

(** Whitespace before and after a text does not change what [strip]
    returns. *)
Lemma strip_padding (p s q : string) :
  blank p = true -> blank q = true -> Py.strip (p ++ s ++ q) = Py.strip s.
Proof.
  unfold blank, Py.strip. intros Hp Hq. f_equal.
  rewrite !chars_app, lstrip_app_blank by exact Hp.
  destruct (Py.lstrip_chars (Py.chars s)) as [|c l] eqn:E.
  - apply lstrip_all_blank in E.
    rewrite lstrip_app_blank by exact E.
    rewrite (lstrip_blank _ Hq). reflexivity.
  - rewrite lstrip_app by (rewrite E; discriminate). rewrite E.
    rewrite rev_app_distr, lstrip_app_blank by (now apply forallb_rev).
    reflexivity.
Qed.

(** X14: whitespace around the column and around the value of a
    condition is ignored: [do_query] gives the same outcome with and
    without it. *)
Theorem query_ignores_padding re self column value p1 p2 p3 p4 :
  Py.count "=" column = 0 -> Py.count "=" value = 0 ->
  blank p1 = true -> blank p2 = true -> blank p3 = true -> blank p4 = true ->
  do_query re self ((p1 ++ column ++ p2) ++ String "=" (p3 ++ value ++ p4))
  = do_query re self (column ++ String "=" value).
Proof.
  intros Hc Hv H1 H2 H3 H4.
  assert (Hparse :
    parse_condition ((p1 ++ column ++ p2) ++ String "=" (p3 ++ value ++ p4))
    = parse_condition (column ++ String "=" value)).
  { unfold parse_condition.
    rewrite !split_once; auto;
      rewrite ?count_app, ?Hc, ?Hv, ?count_blank; auto.
    now rewrite !strip_padding. }
  unfold do_query, query_body. now rewrite Hparse.
Qed.

Lemma query_ignores_padding_witness :
  do_query digits_engine (mkManager stock) " category  = A "
  = do_query digits_engine (mkManager stock) "category=A".
Proof.
  exact (@query_ignores_padding digits_engine (mkManager stock) "category" "A"
           " " "  " " " " " eq_refl eq_refl eq_refl eq_refl eq_refl eq_refl).
Defined.

(** ** The whitespace [int] drops *)

Lemma lstrip_int_blank (l : list ascii) :
  forallb Py.int_space l = true -> Py.lstrip_int l = [].
Proof.
  induction l as [|c l IH]; simpl; [reflexivity|].
  intros H. apply andb_true_iff in H as [Hc Hl]. now rewrite Hc, IH.
Qed.

Lemma lstrip_int_app_blank (p l : list ascii) :
  forallb Py.int_space p = true ->
  Py.lstrip_int (p ++ l) = Py.lstrip_int l.
Proof.
  induction p as [|c p IH]; simpl; [reflexivity|].
  intros H. apply andb_true_iff in H as [Hc Hp]. rewrite Hc. now apply IH.
Qed.

Lemma lstrip_int_app (l q : list ascii) :
  Py.lstrip_int l <> [] ->
  Py.lstrip_int (l ++ q) = Py.lstrip_int l ++ q.
Proof.
  induction l as [|c l IH]; simpl; [contradiction|].
  destruct (Py.int_space c); [exact IH | reflexivity].
Qed.

Lemma lstrip_int_all_blank (l : list ascii) :
  Py.lstrip_int l = [] -> forallb Py.int_space l = true.
Proof.
  induction l as [|c l IH]; simpl; [reflexivity|].
  destruct (Py.int_space c); [exact IH | discriminate].
Qed.

(** The text [int] reads, without the whitespace around it. *)
Lemma int_trim_padding (p l q : list ascii) :
  forallb Py.int_space p = true -> forallb Py.int_space q = true ->
  rev (Py.lstrip_int (rev (Py.lstrip_int (p ++ l ++ q))))
  = rev (Py.lstrip_int (rev (Py.lstrip_int l))).
Proof.
  intros Hp Hq. rewrite lstrip_int_app_blank by exact Hp.
  destruct (Py.lstrip_int l) as [|c k] eqn:E.
  - apply lstrip_int_all_blank in E.
    rewrite lstrip_int_app_blank by exact E.
    rewrite (lstrip_int_blank _ Hq). reflexivity.
  - rewrite lstrip_int_app by (rewrite E; discriminate). rewrite E.
    rewrite rev_app_distr, lstrip_int_app_blank by (now apply forallb_rev).
    reflexivity.
Qed.

Lemma int_trim_id (l : list ascii) :
  Forall (fun c => Py.int_space c = false) l ->
  rev (Py.lstrip_int (rev (Py.lstrip_int l))) = l.
Proof.
  intros H.
  assert (Hl : forall l, Forall (fun c => Py.int_space c = false) l ->
                         Py.lstrip_int l = l).
  { intros [|c k] Hk; [reflexivity|]. inversion Hk as [|? ? Hc _]; subst.
    simpl. now rewrite Hc. }
  rewrite (Hl l H), Hl, rev_involutive; [reflexivity|].
  now apply Forall_rev.
Qed.

(** A character that [int] does not drop stays at the front. *)
Lemma int_trim_head (c : ascii) (l : list ascii) :
  Py.int_space c = false ->
  exists tail, rev (Py.lstrip_int (rev (Py.lstrip_int (c :: l)))) = c :: tail.
Proof.
  intros Hc. simpl Py.lstrip_int at 2. rewrite Hc. simpl rev at 2.
  destruct (Py.lstrip_int (rev l)) as [|x k] eqn:E.
  - apply lstrip_int_all_blank in E.
    rewrite lstrip_int_app_blank by exact E. simpl. rewrite Hc.
    exists []. reflexivity.
  - rewrite lstrip_int_app by (rewrite E; discriminate). rewrite E.
    rewrite rev_app_distr. simpl. eauto.
Qed.

Lemma int_padding (p s q : string) :
  int_blank p = true -> int_blank q = true ->
  Py.int (p ++ s ++ q) = Py.int s.
Proof.
  unfold int_blank, Py.int. intros Hp Hq.
  now rewrite !chars_app, int_trim_padding.
Qed.

Lemma int_of_blank (s : string) : int_blank s = true -> Py.int s = None.
Proof.
  unfold int_blank, Py.int. intros H.
  now rewrite (lstrip_int_blank _ H).
Qed.

(** [int] does not read a text that starts with one of the separators
    FS..US, although [str.strip] removes them. *)
Lemma int_of_separator (c : ascii) (rest : string) :
  separator c = true -> Py.int (String c rest) = None.
Proof.
  intros Hs. unfold Py.int.
  assert (Hc : Py.int_space c = false
               /\ Py.digit_val c = None
               /\ Ascii.eqb c "-" = false /\ Ascii.eqb c "+" = false
               /\ Ascii.eqb c "_" = false).
  { destruct c as [[] [] [] [] [] [] [] []]; try discriminate Hs;
      repeat split. }
  destruct Hc as (Hsp & Hd & Hm & Hp & Hu).
  change (Py.chars (String c rest)) with (c :: Py.chars rest).
  destruct (@int_trim_head c (Py.chars rest) Hsp) as [tail ->].
  destruct (_ <? _)%nat; [reflexivity|].
  assert (Hnone : Py.int_digits (c :: tail) 0 false = None).
  { simpl. now rewrite Hd, Hu. }
  destruct c as [[] [] [] [] [] [] [] []]; try discriminate Hm;
    try discriminate Hp; exact Hnone.
Qed.

(** X15: [do_show_top] reads its count with [int], which drops the
    whitespace around the digits (TAB..CR, SPACE, NEL, NBSP); but a count
    that is only whitespace is not the empty count: it is reported as
    invalid, the default of 5 is not used; and a count that starts with
    one of the separators FS..US is invalid as well. *)
Theorem show_top_whitespace self count p q :
  empty (data self) = false ->
  count <> "" -> int_blank p = true -> int_blank q = true ->
  do_show_top self (p ++ count ++ q) = do_show_top self count
  /\ (int_blank count = true ->
      do_show_top self count = mkOutcome self [invalid_count] Returned)
  /\ (forall c rest, separator c = true ->
        do_show_top self (String c rest)
        = mkOutcome self [invalid_count] Returned).
Proof.
  intros He Hne Hp Hq.
  assert (Hn : forall s, s <> "" -> String.eqb s "" = false)
    by (intros s; apply String.eqb_neq).
  split; [|split].
  - unfold do_show_top. rewrite He, (Hn count Hne).
    rewrite Hn by (destruct p, count; simpl; congruence).
    now rewrite int_padding.
  - intros Hb. unfold do_show_top. rewrite He, (Hn count Hne).
    now rewrite int_of_blank.
  - intros c rest Hs. unfold do_show_top. rewrite He.
    rewrite Hn by discriminate. now rewrite int_of_separator.
Qed.

Lemma show_top_whitespace_witness :
  do_show_top (mkManager stock) " 2 " = do_show_top (mkManager stock) "2"
  /\ do_show_top (mkManager stock) " "
     = mkOutcome (mkManager stock) [invalid_count] Returned
  /\ do_show_top (mkManager stock) (String (ascii_of_nat 28) "2")
     = mkOutcome (mkManager stock) [invalid_count] Returned.
Proof.
  destruct (@show_top_whitespace (mkManager stock) "2" " " " ") as (H & _ & Hs);
    try reflexivity; try discriminate.
  destruct (@show_top_whitespace (mkManager stock) " " "" "") as (_ & H' & _);
    try reflexivity; try discriminate.
  split; [exact H|]. split; [apply H'; reflexivity|].
  apply Hs. reflexivity.
Defined.

(** ** [str] of a number, read back by [int] *)

Lemma int_digits_uint (d : Decimal.uint) (acc : Z) (b : bool) :
  (d <> Decimal.Nil \/ b = true) ->
  Py.int_digits (Py.chars (NilEmpty.string_of_uint d)) acc b
  = Some (uint_value d acc).
Proof.
  revert acc b.
  induction d as [|d IH|d IH|d IH|d IH|d IH|d IH|d IH|d IH|d IH|d IH];
    intros acc b H; simpl;
    try (apply IH; now right).
  destruct H as [H| ->]; [contradiction | reflexivity].
Qed.

Lemma uint_value_acc (d : Decimal.uint) (acc : positive) :
  Zpos (Pos.of_uint_acc d acc) = uint_value d (Zpos acc).
Proof.
  revert acc.
  induction d as [|d IH|d IH|d IH|d IH|d IH|d IH|d IH|d IH|d IH|d IH];
    intros acc; cbn [Pos.of_uint_acc uint_value]; [reflexivity|..];
    rewrite IH; f_equal; rewrite ?Pos2Z.inj_add, ?Pos2Z.inj_mul; lia.
Qed.

Lemma uint_value_of_uint (d : Decimal.uint) :
  Z.of_N (Pos.of_uint d) = uint_value d 0.
Proof.
  induction d as [|d IH|d IH|d IH|d IH|d IH|d IH|d IH|d IH|d IH|d IH];
    cbn [Pos.of_uint uint_value]; [reflexivity | exact IH | ..];
    cbn [Z.of_N]; rewrite uint_value_acc; reflexivity.
Qed.

Lemma digits_only (d : Decimal.uint) :
  Forall (fun c => Py.is_digit c = true)
         (Py.chars (NilEmpty.string_of_uint d)).
Proof.
  induction d; simpl; constructor; auto.
Qed.

Lemma digit_not_space (c : ascii) :
  Py.is_digit c = true -> Py.int_space c = false.
Proof.
  unfold Py.is_digit, Py.digit_val, Py.int_space.
  destruct ((48 <=? nat_of_ascii c) && (nat_of_ascii c <=? 57))%nat eqn:E;
    [|discriminate].
  intros _. apply andb_true_iff in E as [E1 E2].
  apply Nat.leb_le in E1, E2.
  repeat rewrite orb_false_iff. repeat split.
  - apply andb_false_iff. right. apply Nat.leb_gt. lia.
  - apply Nat.eqb_neq. lia.
  - apply Nat.eqb_neq. lia.
  - apply Nat.eqb_neq. lia.
Qed.

Lemma chars_length (s : string) : List.length (Py.chars s) = String.length s.
Proof.
  induction s; simpl; auto.
Qed.

Lemma within_limit (s : string) :
  String.length s <= Py.max_str_digits ->
  (Py.max_str_digits <? List.length (filter Py.is_digit (Py.chars s)))%nat
  = false.
Proof.
  intros H. apply Nat.ltb_ge.
  pose proof (filter_length_le Py.is_digit (Py.chars s)) as Hf.
  rewrite chars_length in Hf. lia.
Qed.

(** [int] on digits, and on digits after a minus sign. *)
Lemma int_unsigned (s : string) (c : ascii) (l : list ascii) :
  Py.chars s = c :: l -> Py.is_digit c = true ->
  Forall (fun c => Py.int_space c = false) (Py.chars s) ->
  String.length s <= Py.max_str_digits ->
  Py.int s = Py.int_digits (Py.chars s) 0 false.
Proof.
  intros Hs Hc Hsp Hlen. unfold Py.int.
  rewrite int_trim_id, within_limit by assumption. rewrite Hs.
  destruct c as [[] [] [] [] [] [] [] []]; try discriminate Hc; reflexivity.
Qed.

Lemma int_negative (s : string) :
  Forall (fun c => Py.int_space c = false) (Py.chars s) ->
  String.length (String "-" s) <= Py.max_str_digits ->
  Py.int (String "-" s) = option_map Z.opp (Py.int_digits (Py.chars s) 0 false).
Proof.
  intros Hsp Hlen. unfold Py.int.
  rewrite int_trim_id, within_limit; try assumption; [reflexivity|].
  constructor; [reflexivity | exact Hsp].
Qed.

(** [int(str(z)) == z], for a number within the bound on the digits. *)
Lemma int_str_int (z : Z) :
  String.length (Py.str_int z) <= Py.max_str_digits ->
  Py.int (Py.str_int z) = Some z.
Proof.
  intros Hlen.
  assert (Hpos : forall p, Pos.to_uint p <> Decimal.Nil)
    by (intros p; apply DecimalPos.Unsigned.to_uint_nonnil).
  assert (Hval : forall p, uint_value (Pos.to_uint p) 0 = Zpos p).
  { intros p. rewrite <- uint_value_of_uint, DecimalPos.Unsigned.of_to.
    reflexivity. }
  assert (Hspace : forall d,
             Forall (fun c => Py.int_space c = false)
                    (Py.chars (NilEmpty.string_of_uint d))).
  { intros d. eapply Forall_impl; [|apply digits_only].
    intros c. apply digit_not_space. }
  assert (Hs : forall d, d <> Decimal.Nil ->
             NilZero.string_of_uint d = NilEmpty.string_of_uint d)
    by (intros [] H; try reflexivity; contradiction).
  destruct z as [|p|p]; [reflexivity| |]; unfold Py.str_int in *;
    cbn [Z.to_int NilZero.string_of_int] in *;
    rewrite Hs in * by apply Hpos.
  - pose proof (digits_only (Pos.to_uint p)) as Hd.
    destruct (Py.chars (NilEmpty.string_of_uint (Pos.to_uint p)))
      as [|c l] eqn:E.
    + exfalso. apply (Hpos p).
      destruct (Pos.to_uint p); try discriminate E; reflexivity.
    + inversion Hd; subst.
      rewrite (int_unsigned _ E) by auto.
      rewrite int_digits_uint by (left; apply Hpos). now rewrite Hval.
  - rewrite int_negative by auto.
    rewrite int_digits_uint by (left; apply Hpos). now rewrite Hval.
Qed.

(** ** [main] *)

(** X16: the manager of [main] starts without data and only
    [--add_data] loads any: when that option is not given (or is empty),
    each of [--query], [--generate] and [--show_top] that is given only
    reports that there is no data, whatever its argument; nothing is
    written; [main] then enters the interactive loop exactly when no
    option was given a value that counts as true ([--show_top 0] does
    not). *)
Theorem main_without_add_data
  (fs : FileSystem) (re : Re.engine) (args : Cli.Namespace) :
  Cli.given (Cli.add_data args) = false ->
  Cli.calls (Cli.main fs re args)
  = mkOutcome init
      ((if Cli.given (Cli.query args) then [no_data] else [])
       ++ (if Cli.given (Cli.generate args) then [no_data] else [])
       ++ (match Cli.show_top args with Some _ => [no_data] | None => [] end))
      Returned
  /\ Cli.cmdloop (Cli.main fs re args) = negb (Cli.any_given args).
Proof.
  intros Hload. unfold Cli.main. rewrite Hload.
  assert (Hq : forall c, do_query re init c = mkOutcome init [no_data] Returned)
    by reflexivity.
  assert (Hg : forall o, do_generate fs init o = mkOutcome init [no_data] Returned)
    by reflexivity.
  assert (Ht : forall c, do_show_top init c = mkOutcome init [no_data] Returned)
    by reflexivity.
  destruct (Cli.add_data args) as [d|], (Cli.query args) as [c|] eqn:Eq,
    (Cli.generate args) as [o|] eqn:Eg, (Cli.show_top args) as [n|] eqn:En;
    simpl; unfold Cli.and_then; simpl;
    repeat match goal with
      | |- context [if ?b then _ else _] =>
          match type of b with bool => destruct b; simpl end
      end;
    rewrite ?Hq, ?Hg, ?Ht; simpl; rewrite ?Hq, ?Hg, ?Ht; simpl;
    rewrite ?Hq, ?Hg, ?Ht; simpl; split; reflexivity.
Qed.

Lemma main_without_add_data_witness :
  Cli.calls (Cli.main disk digits_engine
               (Cli.mkNamespace None None None (Some 0%Z)))
  = mkOutcome init [no_data] Returned
  /\ Cli.cmdloop (Cli.main disk digits_engine
                    (Cli.mkNamespace None None None (Some 0%Z)))
     = true.
Proof.
  exact (@main_without_add_data disk digits_engine
           (Cli.mkNamespace None None None (Some 0%Z)) eq_refl).
Defined.

(** X17: [main] makes its calls in a fixed order and stops at the first
    exception: when an exception leaves the load, no other command is
    called; when the load returns and an exception leaves the query,
    [--generate] and [--show_top] are not carried out; in both cases the
    exception leaves [main] and the interactive loop is not entered. *)
Theorem main_stops_at_exception
  (fs : FileSystem) (re : Re.engine) (args : Cli.Namespace)
  (directory : string) :
  Cli.add_data args = Some directory ->
  directory <> "" ->
  let loaded := do_add_data fs init directory in
  (forall e,
     ended loaded = Raised e ->
     Cli.calls (Cli.main fs re args)
     = mkOutcome (self' loaded) (trace loaded) (Raised e)
     /\ Cli.cmdloop (Cli.main fs re args) = false)
  /\ (forall condition e,
        ended loaded = Returned ->
        Cli.query args = Some condition -> condition <> "" ->
        let queried := do_query re (self' loaded) condition in
        ended queried = Raised e ->
        Cli.calls (Cli.main fs re args)
        = mkOutcome (self' queried) (trace loaded ++ trace queried) (Raised e)
        /\ Cli.cmdloop (Cli.main fs re args) = false).
Proof.
  intros Hd Hne loaded.
  assert (Hn : forall s, s <> "" -> String.eqb s "" = false)
    by (intros s; apply String.eqb_neq).
  assert (Hstop : forall o f e, ended o = Raised e -> Cli.and_then o f = o).
  { intros o f e H. unfold Cli.and_then. now rewrite H. }
  assert (Hoff : forall o e, ended o = Raised e ->
                             match ended o with
                             | Returned => negb (Cli.any_given args)
                             | Raised _ => false
                             end = false).
  { intros o e H. now rewrite H. }
  assert (Hgiven : forall s, s <> "" -> Cli.given (Some s) = true)
    by (intros s Hs; unfold Cli.given; now rewrite (Hn s Hs)).
  unfold Cli.main. rewrite Hd, (Hgiven _ Hne).
  change (Cli.and_then (mkOutcome init [] Returned)
            (fun m => do_add_data fs m directory))
    with (mkOutcome (self' loaded) (trace loaded) (ended loaded)).
  set (o1 := mkOutcome (self' loaded) (trace loaded) (ended loaded)).
  split.
  - intros e Hraise.
    assert (H1 : ended o1 = Raised e) by exact Hraise.
    assert (Ho1 : o1 = mkOutcome (self' loaded) (trace loaded) (Raised e))
      by (subst o1; now rewrite Hraise).
    destruct (Cli.query args) as [c|]; [destruct (Cli.given (Some c))|];
      destruct (Cli.generate args) as [o|];
      try destruct (Cli.given (Some o));
      destruct (Cli.show_top args) as [n|];
      rewrite ?(Hstop o1 _ e H1);
      (split; [exact Ho1 | now apply (Hoff o1 e)]).
  - intros condition e Hret Hq Hcne Hraise.
    set (queried := do_query re (self' loaded) condition) in *.
    rewrite Hq, (Hgiven _ Hcne).
    set (o2 := Cli.and_then o1 (fun m => do_query re m condition)).
    assert (Ho2 : o2 = mkOutcome (self' queried) (trace loaded ++ trace queried)
                         (Raised e)).
    { subst o2. unfold Cli.and_then. simpl. rewrite Hret.
      fold queried. now rewrite Hraise. }
    assert (H2 : ended o2 = Raised e) by now rewrite Ho2.
    destruct (Cli.generate args) as [o|];
      try destruct (Cli.given (Some o));
      destruct (Cli.show_top args) as [n|];
      rewrite ?(Hstop o2 _ e H2);
      (split; [exact Ho2 | now apply (Hoff o2 e)]).
Qed.

Lemma main_stops_at_exception_witness :
  let args := Cli.mkNamespace (Some "inventory") (Some "category=(")
                (Some "report.csv") (Some 2%Z) in
  trace (Cli.calls (Cli.main disk digits_engine args))
  = trace (do_add_data disk init "inventory")
  /\ ended (Cli.calls (Cli.main disk digits_engine args)) = Raised Py.re_error
  /\ Cli.cmdloop (Cli.main disk digits_engine args) = false.
Proof.
  destruct (@main_stops_at_exception disk digits_engine
              (Cli.mkNamespace (Some "inventory") (Some "category=(")
                 (Some "report.csv") (Some 2%Z)) "inventory" eq_refl)
    as [_ H]; [discriminate|].
  destruct (H "category=(" Py.re_error eq_refl eq_refl) as [Hc Hl];
    [discriminate | reflexivity |].
  cbv zeta. split; [|split].
  - rewrite Hc. reflexivity.
  - rewrite Hc. reflexivity.
  - exact Hl.
Defined.

(** X18: [main] hands the number of [--show_top] to [do_show_top] as
    text, and [do_show_top] reads the same number back: after a load that
    returned with data, and without the other two options,
    [--show_top n] shows [head(n)] of the loaded table, for every [n]
    whose text has at most 4300 characters. *)
Theorem main_show_top_after_load
  (fs : FileSystem) (re : Re.engine) (directory : string) (n : Z) :
  directory <> "" ->
  let loaded := do_add_data fs init directory in
  ended loaded = Returned ->
  empty (data (self' loaded)) = false ->
  String.length (Py.str_int n) <= Py.max_str_digits ->
  Cli.main fs re (Cli.mkNamespace (Some directory) None None (Some n))
  = Cli.mkRun
      (mkOutcome (self' loaded)
         (trace loaded ++ [info_table (head (data (self' loaded)) n)])
         Returned)
      false.
Proof.
  intros Hne loaded Hret Hdata Hlen.
  apply String.eqb_neq in Hne as Hne'.
  assert (Hshow : do_show_top (self' loaded) (Py.str_int n)
                  = mkOutcome (self' loaded)
                      [info_table (head (data (self' loaded)) n)] Returned).
  { unfold do_show_top. rewrite Hdata.
    pose proof (int_str_int _ Hlen) as Hi.
    destruct (String.eqb_spec (Py.str_int n) "") as [E|_];
      [rewrite E in Hi; discriminate Hi|].
    now rewrite Hi. }
  unfold loaded in *. clear loaded.
  unfold Cli.main, Cli.any_given, Cli.given. simpl. rewrite Hne'. simpl.
  unfold Cli.and_then. simpl. rewrite !Hret. simpl. rewrite !Hshow. simpl.
  reflexivity.
Qed.

Lemma main_show_top_after_load_witness :
  Cli.main disk digits_engine
    (Cli.mkNamespace (Some "inventory") None None (Some (-3)%Z))
  = Cli.mkRun
      (mkOutcome (self' (do_add_data disk init "inventory"))
         (trace (do_add_data disk init "inventory")
          ++ [info_table
                (mkDataFrame ["category"; "quantity"; "unit_price"; "supplier"]
                   [ [Str "A"; fl 10; fl 5; NaN] ])])
         Returned)
      false.
Proof.
  apply (@main_show_top_after_load disk digits_engine "inventory" (-3)%Z).
  - discriminate.
  - reflexivity.
  - reflexivity.
  - vm_compute. lia.
Defined.

(** ** [add_data]: which entries are read *)

Lemma load_files_count fs directory files frames msgs :
  load_files fs directory files = (frames, msgs, None) ->
  List.length msgs = List.length files.
Proof.
  revert frames msgs. induction files as [|f files IH]; simpl; intros frames msgs H.
  - now inversion H.
  - destruct (read_csv fs (Py.path_join directory f)) as [df|e|e|e];
      try discriminate;
      destruct (load_files fs directory files) as [[fr ms] ex];
      inversion H; subst; simpl; f_equal; eapply IH; reflexivity.
Qed.

(** X19: for a path that is a directory, [do_add_data] reports that there
    are no CSV files, and reads nothing, exactly when no entry of the
    directory has a name that ends in [.csv], in lower case: other
    entries, such as [DATA.CSV], are never read. *)
Theorem add_data_no_csv_files
  (fs : FileSystem) (self : manager) (directory : string) :
  let d := Py.strip directory in
  isdir fs d = true ->
  (do_add_data fs self directory = mkOutcome self [no_csv_files] Returned
   <-> forall f, In f (listdir fs d) -> ~ csv_name f).
Proof.
  intros d Hdir. unfold do_add_data. fold d. rewrite Hdir. simpl.
  assert (Hfiles : csv_files fs d = []
                   <-> forall f, In f (listdir fs d) -> ~ csv_name f).
  { unfold csv_files, csv_name. split.
    - intros H f Hf Hname. apply endswith_spec in Hname.
      assert (Hin : In f (filter (fun f => Py.endswith f ".csv") (listdir fs d)))
        by (apply filter_In; auto).
      rewrite H in Hin. exact Hin.
    - intros H. destruct (filter _ (listdir fs d)) as [|f l] eqn:E; [reflexivity|].
      assert (Hin : In f (f :: l)) by now left.
      rewrite <- E in Hin. apply filter_In in Hin as [Hf He].
      exfalso. apply (H f Hf). now apply endswith_spec. }
  rewrite <- Hfiles.
  destruct (csv_files fs d) as [|f files] eqn:E; [tauto|].
  split; [|discriminate]. intros H. exfalso.
  destruct (load_files fs d (f :: files)) as [[frames msgs] [e|]] eqn:El.
  - destruct frames; discriminate H.
  - apply load_files_count in El. simpl in El.
    destruct frames; inversion H as [[Hs Ht]];
      destruct msgs as [|m [|m' ms]]; simpl in *; discriminate.
Qed.

Lemma add_data_no_csv_files_witness :
  do_add_data
    (mkFileSystem (fun _ => true) (fun _ => ["DATA.CSV"; "notes.txt"])
       (fun _ => Parsed stock) (fun _ _ => Written))
    (mkManager extra) "exports"
  = mkOutcome (mkManager extra) [no_csv_files] Returned.
Proof.
  apply (@add_data_no_csv_files
           (mkFileSystem (fun _ => true) (fun _ => ["DATA.CSV"; "notes.txt"])
              (fun _ => Parsed stock) (fun _ _ => Written))
           (mkManager extra) "exports").
  - reflexivity.
  - intros f [<-|[<-|[]]] Hcsv; apply endswith_spec in Hcsv; discriminate Hcsv.
Defined.

(** ** Well-formed tables *)

Lemma concat_well_formed (frames : list DataFrame) : well_formed (concat frames).
Proof.
  split; [apply union_columns_NoDup|].
  unfold concat. simpl. apply Forall_forall. intros r Hr.
  apply in_flat_map in Hr as (f & _ & Hr).
  apply in_map_iff in Hr as (x & <- & _).
  unfold place. apply length_map.
Qed.

Lemma select_incl (rs : list row) (mask : list bool) (r : row) :
  In r (select rs mask) -> In r rs.
Proof.
  revert mask. induction rs as [|x rs IH]; intros [|b mask] H; simpl in *;
    try contradiction.
  destruct b; [destruct H as [->|H]|]; eauto.
Qed.

Lemma firstn_incl {A : Type} (n : nat) (l : list A) : incl (firstn n l) l.
Proof.
  revert l. induction n as [|n IH]; intros [|x l] y H; simpl in *;
    try contradiction.
  destruct H as [->|H]; [now left | right; now apply IH].
Qed.

Lemma well_formed_rows (df : DataFrame) (rs : list row) :
  well_formed df -> incl rs (rows df) -> well_formed (mkDataFrame (columns df) rs).
Proof.
  intros [Hnd Hrows] Hincl. split; [exact Hnd|]. simpl.
  rewrite Forall_forall in *. auto.
Qed.

(** X20: the commands keep tables well formed (labels that differ from
    one another, every row with one cell per label): if the table of the
    manager is well formed, so is the table after any command (whatever
    the files read hold), and so is every table a command shows or
    writes. *)
Theorem tables_stay_well_formed
  (fs : FileSystem) (re : Re.engine) (self : manager) (arg : string) :
  well_formed (data self) ->
  well_formed (data (self' (do_add_data fs self arg)))
  /\ Forall well_formed (tables_of (trace (do_query re self arg)))
  /\ Forall well_formed (tables_of (trace (do_show_top self arg)))
  /\ Forall well_formed (tables_of (trace (do_generate fs self arg))).
Proof.
  intros Hwf. split; [|split; [|split]].
  - destruct (add_data_keeps_or_merges fs self arg) as [->|(frames & msgs & ->)];
      [exact Hwf | apply concat_well_formed].
  - destruct (empty (data self)) eqn:He;
      [unfold do_query; rewrite He; constructor|].
    rewrite (query_cases re self arg He).
    destruct (parse_condition arg) as [[c v]|]; [|constructor].
    destruct (has_column (data self) c); [|constructor].
    destruct (str_contains _ _ v) as [mask|[]]; try constructor.
    unfold found.
    destruct (empty (getitem_mask _ _)); simpl; constructor; [|constructor].
    apply well_formed_rows; [exact Hwf|]. intros r. apply select_incl.
  - unfold do_show_top. destruct (empty (data self)); [constructor|].
    destruct (if String.eqb arg "" then _ else _) as [n|]; simpl;
      constructor; [|constructor].
    apply well_formed_rows; [exact Hwf|]. apply firstn_incl.
  - unfold do_generate. destruct (empty (data self)); [constructor|].
    destruct (forallb _ _); [|constructor]. simpl.
    destruct (groupby_agg _ _ _ _) as [g|e] eqn:Eg; [|constructor].
    assert (Hg : well_formed
                   (rename [("quantity", "Total Quantity");
                            ("unit_price", "Average Price")] g)).
    { unfold groupby_agg, agg_series in Eg.
      destruct (agg_column (agg_sum _) _ _ _) as [sums|] eqn:Es; [|discriminate].
      destruct (agg_column (agg_mean _) _ _ _) as [means|] eqn:Em; [|discriminate].
      inversion Eg; subst g. apply agg_column_length in Es, Em.
      destruct (zip3_shape _ _ _ Es Em) as [_ Hrows].
      split; simpl; [|exact Hrows].
      repeat constructor; simpl; intuition discriminate. }
    destruct (to_csv fs _ _) as [|e [|]]; simpl;
      repeat (apply Forall_cons; [exact Hg|]); apply Forall_nil.
Qed.

Lemma tables_stay_well_formed_witness :
  well_formed (data (self' (do_add_data disk (mkManager stock) "inventory")))
  /\ Forall well_formed
       (tables_of (trace (do_query digits_engine (mkManager stock) "inventory"))).
Proof.
  destruct (@tables_stay_well_formed disk digits_engine (mkManager stock)
              "inventory")
    as (H1 & H2 & _).
  - split; [repeat constructor; simpl; intuition discriminate
           | repeat constructor].
  - split; [exact H1 | exact H2].
Defined.

(** ** [generate]: groups without values *)

Lemma agg_column_each f ks keys vals cs :
  agg_column f ks keys vals = inl cs ->
  Forall2 (fun k c => f (members k keys vals) = inl c) ks cs.
Proof.
  revert cs. induction ks as [|k ks IH]; simpl; intros cs H.
  - inversion H. constructor.
  - destruct (f (members k keys vals)) as [c|] eqn:E; [|discriminate].
    destruct (agg_column f ks keys vals) as [cs'|]; [|discriminate].
    inversion H; subst. constructor; [exact E | now apply IH].
Qed.

Lemma zip3_each (P Q : cell -> cell -> Prop) (ks sums means : list cell) :
  Forall2 P ks sums -> Forall2 Q ks means ->
  Forall (fun r => P (hd NaN r) (nth 1 r NaN) /\ Q (hd NaN r) (nth 2 r NaN))
         (zip3 ks sums means).
Proof.
  intros HP. revert means.
  induction HP as [|k t ks sums Hkt _ IH]; intros means HQ;
    inversion HQ; subst; simpl; constructor; auto.
Qed.

Lemma all_missing_floats (vals : list cell) :
  Forall (fun v => isna v = true) vals -> notna_floats vals = [].
Proof.
  unfold notna_floats. induction 1 as [|v vals Hv _ IH]; simpl; [reflexivity|].
  destruct v as [s|z|[| | |]]; try discriminate Hv. simpl. exact IH.
Qed.

Lemma all_missing_filter (vals : list cell) :
  Forall (fun v => isna v = true) vals ->
  filter (fun c => negb (isna c)) vals = [].
Proof.
  induction 1 as [|v vals Hv _ IH]; simpl; [reflexivity|]. now rewrite Hv.
Qed.

Lemma py_sum_zeros (vals : list cell) :
  Forall (fun v => isna v = true) vals ->
  fold_left (fun acc v => match acc with
                          | inl a => py_add a v
                          | inr e => inr e
                          end)
            (map (fun c => if isna c then Int 0 else c) vals) (inl (Int 0))
  = inl (Int 0).
Proof.
  induction 1 as [|v vals Hv _ IH]; simpl; [reflexivity|]. now rewrite Hv.
Qed.

(** The mean and the sum of a group in which every value is missing. *)
Lemma agg_mean_all_missing (d : dtype) (vals : list cell) :
  Forall (fun v => isna v = true) vals -> agg_mean d vals = inl NaN.
Proof.
  intros H. destruct d; simpl; rewrite ?all_missing_floats by exact H;
    try reflexivity.
  destruct vals as [|v vals]; [reflexivity|].
  inversion H as [|? ? Hv Hvals]; subst. simpl. rewrite Hv.
  unfold py_sum. rewrite py_sum_zeros by exact Hvals.
  rewrite all_missing_filter by exact Hvals. reflexivity.
Qed.

Lemma agg_sum_all_missing (d : dtype) (vals : list cell) :
  Forall (fun v => isna v = true) vals ->
  agg_sum d vals = inl (Int 0) \/ agg_sum d vals = inl (Float fzero).
Proof.
  intros H.
  assert (Hz : fold_left Z.add (map to_Z vals) 0%Z = 0%Z).
  { replace (map to_Z vals) with (map (fun _ : cell => 0%Z) vals).
    - clear H. induction vals; simpl; auto.
    - apply map_ext_in. intros v Hv. rewrite Forall_forall in H.
      specialize (H v Hv). destruct v; try discriminate H. reflexivity. }
  destruct d; simpl.
  - left. now rewrite Hz.
  - left. now rewrite Hz.
  - right. now rewrite all_missing_floats.
  - left. now rewrite all_missing_filter.
Qed.

Lemma members_all (k : cell) (keys vals : list cell) (P : cell -> Prop) :
  (forall x v, In (x, v) (combine keys vals) -> key_eqb x k = true -> P v) ->
  Forall P (members k keys vals).
Proof.
  intros H. unfold members. apply Forall_forall. intros v Hv.
  apply in_map_iff in Hv as ([x v'] & <- & Hin).
  apply filter_In in Hin as [Hin Hk]. simpl in *. eauto.
Qed.

(** X21: a category all of whose rows lack the unit price gets the
    missing value as its Average Price, and a category all of whose rows
    lack the quantity gets 0 as its Total Quantity: missing values are
    skipped, not counted as an error. *)
Theorem generate_missing_values
  (fs : FileSystem) (self : manager) (output_file : string)
  (summary : DataFrame) :
  hd_error (trace (do_generate fs self output_file)) = Some (info_table summary) ->
  let keys := values (getitem (data self) "category") in
  let quantity := values (getitem (data self) "quantity") in
  let price := values (getitem (data self) "unit_price") in
  Forall (fun r =>
            ((forall x v, In (x, v) (combine keys quantity) ->
                          key_eqb x (hd NaN r) = true -> isna v = true) ->
             nth 1 r NaN = Int 0 \/ nth 1 r NaN = Float fzero)
            /\ ((forall x v, In (x, v) (combine keys price) ->
                             key_eqb x (hd NaN r) = true -> isna v = true) ->
                nth 2 r NaN = NaN))
         (rows summary).
Proof.
  intros H. cbv zeta.
  apply generate_shows in H as (_ & _ & grouped & Hg & ->).
  unfold groupby_agg, agg_series in Hg.
  destruct (agg_column (agg_sum _) _ _ _) as [sums|] eqn:Es; [|discriminate].
  destruct (agg_column (agg_mean _) _ _ _) as [means|] eqn:Em; [|discriminate].
  inversion Hg; subst grouped; clear Hg. cbn [rows rename].
  apply agg_column_each in Es, Em.
  eapply Forall_impl; [|exact (zip3_each Es Em)].
  intros r [Hs Hm]. cbn beta in Hs, Hm. split; intros Hall.
  - apply (members_all (hd NaN r) _ _ (fun v => isna v = true)) in Hall.
    destruct (agg_sum_all_missing
                (sdtype (getitem (data self) "quantity")) Hall) as [E|E];
      rewrite E in Hs; inversion Hs; auto.
  - apply (members_all (hd NaN r) _ _ (fun v => isna v = true)) in Hall.
    rewrite (agg_mean_all_missing _ Hall) in Hm. now inversion Hm.
Qed.

Lemma generate_missing_values_witness :
  nth 2 [Str "B"; Float fzero; NaN] NaN = NaN.
Proof.
  pose proof (@generate_missing_values disk (mkManager stock_unpriced)
                "report.csv"
                (mkDataFrame ["category"; "Total Quantity"; "Average Price"]
                   [ [Str "A"; fl 10; fl 5]; [Str "B"; Float fzero; NaN] ])
                eq_refl) as H.
  cbv zeta in H. apply Forall_inv_tail, Forall_inv in H.
  destruct H as [_ H]. apply H.
  intros x v [E|[E|[]]]; inversion E; subst; [discriminate | reflexivity].
Defined.
